(** * Gantt chart pipeline: validation, CSV conversion and chart layout

    A shallow embedding of [gantt.py] and [csv_to_yaml.py].

    Modelling conventions.
    - A Python [str] is a Rocq [string]; every character stands for the
      code point of the same number (0..255), [len] is [String.length].
    - Python [int] values are [Z]; the difference of two [int64] columns
      of a data frame wraps around.  A Python [float] is [pyfloat]: NaN,
      an infinity, or a finite value carried as an exact rational
      (rounding is not modelled).
    - A [dict] is an association list in insertion order; lookup takes the
      first binding of a key.
    - A call either returns a value or raises: [result].
    - What the plotting calls put on the axes is the list of [artist]s, in
      call order.  What the plotting library reports as view limits and
      which drawings it refuses are parameters of the renderer; what the
      files and the console allow is a parameter of the converter. *)

From Stdlib Require Import List String Ascii ZArith QArith Bool Arith Lia.
From Stdlib Require Import Permutation Sorted Lqa.
Import ListNotations.

Set Warnings "-register-all".
Close Scope Q_scope.
Open Scope string_scope.
Open Scope list_scope.

(* ================================================================== *)
(** ** Python strings *)

Module PyStr.

(** [str.isspace] on one character, for code points below 256:
    TAB..CR, FS..US, SPACE, NEL and NBSP. *)
Definition isspace (c : ascii) : bool :=
  let n := nat_of_ascii c in
  (((9 <=? n) && (n <=? 13)) || ((28 <=? n) && (n <=? 32))
   || (n =? 133) || (n =? 160))%nat.

Definition is_empty (s : string) : bool :=
  match s with EmptyString => true | String _ _ => false end.

Fixpoint lstrip (s : string) : string :=
  match s with
  | EmptyString => EmptyString
  | String c r => if isspace c then lstrip r else s
  end.

Fixpoint rstrip (s : string) : string :=
  match s with
  | EmptyString => EmptyString
  | String c r =>
      let r' := rstrip r in
      if isspace c && is_empty r' then EmptyString else String c r'
  end.

(** [s.strip()] *)
Definition strip (s : string) : string := rstrip (lstrip s).

(** [s.split()]: the maximal runs of non-whitespace characters.
    [cur] is the run being read. *)
Fixpoint split_aux (s : string) (cur : string) : list string :=
  match s with
  | EmptyString => if is_empty cur then [] else [cur]
  | String c r =>
      if isspace c
      then (if is_empty cur then split_aux r "" else cur :: split_aux r "")
      else split_aux r (cur ++ String c "")
  end.

Definition split (s : string) : list string := split_aux s "".

(** [s.split(sep)] for a one-character separator: always at least one
    field. *)
Fixpoint split_on_aux (sep : ascii) (s : string) (cur : string) : list string :=
  match s with
  | EmptyString => [cur]
  | String c r =>
      if Ascii.eqb c sep
      then cur :: split_on_aux sep r ""
      else split_on_aux sep r (cur ++ String c "")
  end.

Definition split_on (sep : ascii) (s : string) : list string :=
  split_on_aux sep s "".

(** [a in b] *)
Fixpoint contains (a b : string) : bool :=
  prefix a b ||
  match b with
  | EmptyString => false
  | String _ r => contains a r
  end.

(** [s.split(sep, 1)] when [sep in s]: the text before and after the first
    occurrence of [sep]; [None] when [sep] does not occur. *)
Fixpoint partition (sep : string) (s : string) : option (string * string) :=
  if prefix sep s then Some ("", substring (length sep) (length s - length sep) s)
  else match s with
       | EmptyString => None
       | String c r =>
           match partition sep r with
           | Some (before, after) => Some (String c before, after)
           | None => None
           end
       end.

Definition nl : ascii := "010"%char.
Definition newline : string := String nl "".
Definition comma : ascii := ","%char.

(** Whitespace-free and non-empty: what [split] returns. *)
Fixpoint no_space (s : string) : bool :=
  match s with
  | EmptyString => true
  | String c r => negb (isspace c) && no_space r
  end.

Definition is_word (s : string) : bool := negb (is_empty s) && no_space s.

Fixpoint has_char (c : ascii) (s : string) : bool :=
  match s with
  | EmptyString => false
  | String d r => Ascii.eqb d c || has_char c r
  end.

End PyStr.

(* ================================================================== *)
(** ** Python values, exceptions, dictionaries *)

Inductive pyfloat :=
| FNaN
| FInf (negative : bool)
| FFin (q : Q).

Inductive pyval :=
| PNone
| PBool (b : bool)
| PInt (z : Z)
| PFloat (f : pyfloat)
| PStr (s : string)
| PList (l : list pyval)
| PDict (d : list (string * pyval)).

Definition dict := list (string * pyval).

Inductive exn :=
| ValueError_no_data
| ValueError_not_list_of_dicts
| ValueError_missing_columns (cols : list string)
| ValueError_missing_value (row : nat) (col : string)
| ValueError_int
| OverflowError_int_of_inf
| AttributeError_strip
| IndexError
| KeyError (key : string)
| OverflowError_barh
| ValueError_mathtext.

Definition is_ValueError (e : exn) : bool :=
  match e with
  | ValueError_no_data | ValueError_not_list_of_dicts
  | ValueError_missing_columns _ | ValueError_missing_value _ _
  | ValueError_int | ValueError_mathtext => true
  | _ => false
  end.

Inductive result (A : Type) :=
| Return (a : A)
| Raise (e : exn).
Arguments Return {A} a.
Arguments Raise {A} e.

Definition bind {A B} (r : result A) (k : A -> result B) : result B :=
  match r with
  | Return a => k a
  | Raise e => Raise e
  end.

Notation "x <- r ;; k" := (bind r (fun x => k))
  (at level 61, r at next level, right associativity).

(** [d.get(k)] as an option; [d[k]] raises [KeyError] when absent. *)
Fixpoint dict_get {V} (d : list (string * V)) (k : string) : option V :=
  match d with
  | [] => None
  | (k', v) :: rest => if String.eqb k' k then Some v else dict_get rest k
  end.

Definition dict_index {V} (d : list (string * V)) (k : string) : result V :=
  match dict_get d k with
  | Some v => Return v
  | None => Raise (KeyError k)
  end.

Definition dict_keys {V} (d : list (string * V)) : list string := map fst d.

(** [d[k] = v]: replace the binding in place, or append a new one. *)
Fixpoint dict_set {V} (d : list (string * V)) (k : string) (v : V)
  : list (string * V) :=
  match d with
  | [] => [(k, v)]
  | (k', v') :: rest =>
      if String.eqb k' k then (k, v) :: rest else (k', v') :: dict_set rest k v
  end.

(** [item.get(col)]: [None] when the key is absent. *)
Definition get_or_none (item : dict) (col : string) : pyval :=
  match dict_get item col with
  | Some v => v
  | None => PNone
  end.

(** Truth value of an object, as tested by [if not data]. *)
Definition truthy (v : pyval) : bool :=
  match v with
  | PNone => false
  | PBool b => b
  | PInt z => negb (z =? 0)%Z
  | PFloat (FFin q) => negb (Qeq_bool q 0)
  | PFloat _ => true
  | PStr s => negb (PyStr.is_empty s)
  | PList l => match l with [] => false | _ => true end
  | PDict d => match d with [] => false | _ => true end
  end.

(** [pd.isna] on a scalar. *)
Definition isna (f : pyfloat) : bool :=
  match f with FNaN => true | _ => false end.

(* ================================================================== *)
(** ** [validate_data] (gantt.py) *)

Module Validate.

Definition required_columns : list string :=
  ["Task"; "Work Package"; "Start"; "End"; "Type"].

(** The chain of tests applied to one [value = item.get(col)]: [true] when
    the row is rejected for it. *)
Definition value_missing (value : pyval) : bool :=
  match value with
  | PNone => true
  | PStr s => String.eqb (PyStr.strip s) ""
  | PList l => (List.length l =? 0)%nat
  | PDict d => (List.length d =? 0)%nat
  | PFloat f => isna f
  | PInt _ | PBool _ => false
  end.

(** [isinstance(data, list) and all(isinstance(item, dict) ...)], giving
    the dictionaries when the test passes. *)
Fixpoint dicts_of (l : list pyval) : option (list dict) :=
  match l with
  | [] => Some []
  | PDict d :: rest =>
      match dicts_of rest with
      | Some ds => Some (d :: ds)
      | None => None
      end
  | _ :: _ => None
  end.

(** [set(required_columns) - set(first.keys())], listed in the order of
    [required_columns] (Python leaves the order of the set open). *)
Definition missing_columns (first : dict) : list string :=
  filter (fun col => negb (existsb (String.eqb col) (dict_keys first)))
         required_columns.

(** The inner loop [for col in required_columns] on row [i] (from 0). *)
Fixpoint check_item (i : nat) (item : dict) (cols : list string)
  : result unit :=
  match cols with
  | [] => Return tt
  | col :: cols' =>
      if value_missing (get_or_none item col)
      then Raise (ValueError_missing_value (i + 1) col)
      else check_item i item cols'
  end.

(** The outer loop [for i, item in enumerate(data)]. *)
Fixpoint check_items (i : nat) (items : list dict) : result unit :=
  match items with
  | [] => Return tt
  | item :: rest =>
      _ <- check_item i item required_columns ;;
      check_items (S i) rest
  end.

(** A program over the object [data] refers to: it takes the object and
    gives back the outcome and the object after the call. *)
Definition prog (A : Type) : Type := pyval -> result A * pyval.

Definition ret {A} (a : A) : prog A := fun st => (Return a, st).
Definition raise {A} (e : exn) : prog A := fun st => (Raise e, st).
Definition load : prog pyval := fun st => (Return st, st).
Definition store (v : pyval) : prog unit := fun _ => (Return tt, v).
Definition pbind {A B} (p : prog A) (k : A -> prog B) : prog B :=
  fun st =>
    match p st with
    | (Return a, st') => k a st'
    | (Raise e, st') => (Raise e, st')
    end.
Definition lift {A} (r : result A) : prog A := fun st => (r, st).

Notation "x <~ p ;; k" := (pbind p (fun x => k))
  (at level 61, p at next level, right associativity).

Definition validate_data : prog bool :=
  data <~ load ;;
  if negb (truthy data) then raise ValueError_no_data
  else
    match data with
    | PList l =>
        match dicts_of l with
        | None => raise ValueError_not_list_of_dicts
        | Some items =>
            match items with
            | [] => raise IndexError
            | first :: _ =>
                match missing_columns first with
                | (_ :: _) as cols => raise (ValueError_missing_columns cols)
                | [] =>
                    _ <~ lift (check_items 0 items) ;;
                    ret true
                end
            end
        end
    | _ => raise ValueError_not_list_of_dicts
    end.

(** Outcome of the call alone. *)
Definition validate (data : pyval) : result bool := fst (validate_data data).

(** [a <= b] on the values a month column can hold. *)
Definition num_of (v : pyval) : option Q :=
  match v with
  | PInt z => Some (inject_Z z)
  | PBool b => Some (if b then 1 else 0)%Q
  | PFloat (FFin q) => Some q
  | _ => None
  end.

Definition py_le (a b : pyval) : bool :=
  match num_of a, num_of b with
  | Some x, Some y => Qle_bool x y
  | _, _ => false
  end.

Definition start_le_end (item : dict) : bool :=
  py_le (get_or_none item "Start") (get_or_none item "End").

(** Rejection as a condition on the data, for a given notion of missing
    value: empty input, not a list of dictionaries, a required column
    absent from the first record, or a missing value in some record. *)
Definition rejected_by (missing : pyval -> bool) (data : pyval) : bool :=
  negb (truthy data) ||
  match data with
  | PList l =>
      match dicts_of l with
      | None => true
      | Some items =>
          match items with
          | [] => true
          | first :: _ =>
              existsb (fun col => negb (existsb (String.eqb col) (dict_keys first)))
                      required_columns
              || existsb (fun item =>
                            existsb (fun col => missing (get_or_none item col))
                                    required_columns)
                         items
          end
      end
  | _ => true
  end.

(** The missing values as the documentation lists them: [None], the empty
    string, NaN, an empty sequence. *)
Definition listed_missing (value : pyval) : bool :=
  match value with
  | PNone => true
  | PStr s => String.eqb s ""
  | PFloat f => isna f
  | PList l => (List.length l =? 0)%nat
  | PDict d => (List.length d =? 0)%nat
  | _ => false
  end.

(** Example inputs. *)
Definition blank_task_data : pyval :=
  PList [PDict [("Task", PStr " "); ("Work Package", PStr "WP1: Design");
                ("Start", PInt 1); ("End", PInt 2); ("Type", PStr "Task")]].

Definition late_start_item : dict :=
  [("Task", PStr "Review"); ("Work Package", PStr "WP1: Design");
   ("Start", PInt 5); ("End", PInt 2); ("Type", PStr "Task")].

Definition late_start_data : pyval := PList [PDict late_start_item].

End Validate.

(* ================================================================== *)
(** ** Task records *)

(** One task record as both programs handle it once loaded: [Task],
    [Work Package] and [Type] are text, [Start] and [End] are whole month
    numbers (what the converter writes), [Related WPs] is absent (or
    null) or text.  The renderer is modelled on such records; frames with
    cells of other types are outside the model: a month with a fraction
    (1.25, say, which the renderer accepts from a hand-written file) is
    not a value of [Start] or [End] here, and every statement about the
    renderer is a statement about records with whole months. *)
Record item := mk_item {
  Task : string;
  Work_Package : string;
  Start : Z;
  End_ : Z;
  Type_ : string;
  Related_WPs : option string
}.

(** The record as the dictionary a YAML loader hands to [validate_data]. *)
Definition to_dict (r : item) : dict :=
  [("Task", PStr (Task r)); ("Work Package", PStr (Work_Package r));
   ("Start", PInt (Start r)); ("End", PInt (End_ r)); ("Type", PStr (Type_ r))]
  ++ match Related_WPs r with
     | Some w => [("Related WPs", PStr w)]
     | None => []
     end.

Definition to_data (rs : list item) : pyval :=
  PList (map (fun r => PDict (to_dict r)) rs).

(** None of the three text fields of the record is blank. *)
Definition text_ok (r : item) : bool :=
  negb (String.eqb (PyStr.strip (Task r)) "")
  && negb (String.eqb (PyStr.strip (Work_Package r)) "")
  && negb (String.eqb (PyStr.strip (Type_ r)) "").

(* ================================================================== *)
(** ** Label wrapping (gantt.py, [format_milestone_name], [format_wp_name]) *)

Module Labels.
Import PyStr.

(** The loop [for word in words], on the list [lines] and the text
    [current_line]. *)
Fixpoint wrap_loop (words : list string) (lines : list string)
         (current_line : string) : list string * string :=
  match words with
  | [] => (lines, current_line)
  | word :: rest =>
      if negb (is_empty current_line)
         && (20 <? String.length (current_line ++ " " ++ word))%nat
      then wrap_loop rest (lines ++ [current_line]) word
      else if negb (is_empty current_line)
      then wrap_loop rest lines (current_line ++ " " ++ word)
      else wrap_loop rest lines word
  end.

(** [if current_line: lines.append(current_line)] *)
Definition close_lines (lines : list string) (current_line : string)
  : list string :=
  if negb (is_empty current_line) then lines ++ [current_line] else lines.

(** The lines the wrapping code joins, for a text longer than 20. *)
Definition wrap_lines (text : string) : list string :=
  let '(lines, current_line) := wrap_loop (split text) [] "" in
  close_lines lines current_line.

(** The wrapping code, which both functions repeat word for word. *)
Definition wrap (text : string) : string :=
  if (String.length text <=? 20)%nat then text
  else concat newline (wrap_lines text).

Definition format_milestone_name (milestone_name : string) : string :=
  wrap milestone_name.

(** The first step of [format_wp_name]: "WP1: Design" becomes
    "WP1\Design". *)
Definition formatted (wp_name : string) : string :=
  match partition ": " wp_name with
  | Some (before, after) => before ++ "\" ++ after
  | None => wp_name
  end.

Definition format_wp_name (wp_name : string) : string :=
  wrap (formatted wp_name).

(** The lines of a text: [s.split("\n")]. *)
Definition lines_of (s : string) : list string := split_on nl s.

(** A line as the loop builds them: not empty, without a line break, and
    either within 20 characters or a single word. *)
Definition good_line (l : string) : bool :=
  negb (is_empty l) && negb (has_char nl l)
  && ((String.length l <=? 20)%nat || is_word l).

(** Work-package names used as examples. *)
Definition wp_design : string := "WP1: Design".
Definition long_label : string := "Requirements and Architecture Review".

End Labels.

(* ================================================================== *)
(** ** The CSV converter (csv_to_yaml.py, [convert_csv_to_yaml]) *)

Module Convert.

(** A cell of the data frame read from the CSV file. *)
Inductive cell :=
| CStr (s : string)
| CInt (z : Z)
| CFloat (f : pyfloat)
| CBool (b : bool).

Record csv_row := mk_row {
  Task_Number : cell;
  Task_Name : cell;
  Task_Start_Month : cell;
  Task_End_Month : cell;
  Work_Package_cell : cell
}.

(** [int(x)] on a float: truncation towards zero. *)
Definition trunc (q : Q) : Z := Z.quot (Qnum q) (Zpos (Qden q)).

Section WithIntOfStr.

(** Python's built-in [int] on text: the number read, or [None] where it
    raises [ValueError]. *)
Variable int_of_str : string -> option Z.

Definition py_int (c : cell) : result Z :=
  match c with
  | CInt z => Return z
  | CBool b => Return (if b then 1 else 0)%Z
  | CFloat (FFin q) => Return (trunc q)
  | CFloat FNaN => Raise ValueError_int
  | CFloat (FInf _) => Raise OverflowError_int_of_inf
  | CStr s => match int_of_str s with
              | Some z => Return z
              | None => Raise ValueError_int
              end
  end.

(** [x.strip()]: only text has the method. *)
Definition cell_strip (c : cell) : result string :=
  match c with
  | CStr s => Return (PyStr.strip s)
  | _ => Raise AttributeError_strip
  end.

(** [pd.notna] *)
Definition notna (c : cell) : bool :=
  match c with
  | CFloat f => negb (isna f)
  | _ => true
  end.

(** The body of [for _, row in df.iterrows()]. *)
Definition convert_row (task_type : string) (row : csv_row) : result item :=
  start_month <- py_int (Task_Start_Month row) ;;
  end_month <- py_int (Task_End_Month row) ;;
  csv_work_package <-
    (if notna (Work_Package_cell row)
     then cell_strip (Work_Package_cell row)
     else Return "WP1: Default") ;;
  number <- cell_strip (Task_Number row) ;;
  name <- cell_strip (Task_Name row) ;;
  Return {| Task := number ++ " - " ++ name;
            Work_Package := csv_work_package;
            Start := start_month;
            End_ := end_month;
            Type_ := if negb (start_month =? end_month)%Z
                     then task_type else "Milestone";
            Related_WPs := None |}.

(** The loop over the rows, building [tasks]. *)
Fixpoint convert_rows (task_type : string) (rows : list csv_row)
  : result (list item) :=
  match rows with
  | [] => Return []
  | row :: rest =>
      task <- convert_row task_type row ;;
      tasks <- convert_rows task_type rest ;;
      Return (task :: tasks)
  end.

End WithIntOfStr.

(** [int] on text of code points below 256, to run the converter on
    examples: white space around the number is dropped, a sign may come
    first, and the decimal digits may have single underscores between
    them. *)
Definition is_digit (c : ascii) : bool :=
  let n := nat_of_ascii c in ((48 <=? n) && (n <=? 57))%nat.

(** [after_digit] tells whether the character before was a digit: an
    underscore stands only between two digits. *)
Fixpoint digits_value (s : string) (after_digit : bool) (acc : Z)
  : option Z :=
  match s with
  | EmptyString => if after_digit then Some acc else None
  | String c r =>
      if is_digit c
      then digits_value r true (10 * acc + Z.of_nat (nat_of_ascii c - 48))%Z
      else if Ascii.eqb c "_" && after_digit
           then digits_value r false acc
           else None
  end.

Definition int_of_digits (s : string) : option Z :=
  match PyStr.strip s with
  | String "-" r => option_map Z.opp (digits_value r false 0%Z)
  | String "+" r => digits_value r false 0%Z
  | t => digits_value t false 0%Z
  end.

(** A row whose cells have the types of a well-formed task list: whole
    month numbers, text for number and name, text or an empty cell for the
    work package. *)
Definition plain_row (row : csv_row) : bool :=
  match Task_Start_Month row, Task_End_Month row,
        Task_Number row, Task_Name row, Work_Package_cell row with
  | CInt _, CInt _, CStr _, CStr _, (CStr _ | CFloat FNaN) => true
  | _, _, _, _, _ => false
  end.

(** Example rows. *)
Definition design_row : csv_row :=
  mk_row (CStr "T1.1") (CStr "Design") (CInt 1) (CInt 3) (CStr "WP1: Design").

Definition review_row : csv_row :=
  mk_row (CStr "T1.2") (CStr "Review") (CInt 3) (CInt 3) (CFloat FNaN).

Definition design_task : item :=
  mk_item "T1.1 - Design" "WP1: Design" 1 3 "Task" None.

Definition review_task : item :=
  mk_item "T1.2 - Review" "WP1: Default" 3 3 "Milestone" None.

End Convert.

(* ================================================================== *)
(** ** The renderer (gantt.py, [create_gantt_chart]) *)

Module Chart.
Import PyStr.

(** A colour: entry [i] of [plt.cm.Set3(np.linspace(0, 1, n))], or a
    colour given by name. *)
Inductive color :=
| Set3 (i n : nat)
| Named (name : string).

(** What a plotting call adds to the axes.  Coordinates the source
    computes in floating point are rationals here, and the rounding of
    the floats is not modelled: the source's [brace_x + 0.2] is the float
    -0.6000000000000001, here it is -3/5. *)
Inductive artist :=
| Barh (y : Z) (width : Z) (left : Z) (c : color)
| Text (x y : Q) (s : string) (ha va : string) (rotation : Z) (c : color)
| Axvline (x : Z) (ymin ymax : Q) (c : color)
| Plot (x0 x1 y0 y1 : Q).

Record figure := mk_figure {
  artists : list artist;
  ylim : option (Z * Z)
}.

(** [Series.unique()]: the distinct values in order of first appearance. *)
Fixpoint unique_aux (seen : list string) (l : list string) : list string :=
  match l with
  | [] => []
  | x :: r =>
      if existsb (String.eqb x) seen then unique_aux seen r
      else x :: unique_aux (x :: seen) r
  end.

Definition unique (l : list string) : list string := unique_aux [] l.

(** [plt.cm.Set3(np.linspace(0, 1, n))] *)
Definition palette (n : nat) : list color := map (fun i => Set3 i n) (seq 0 n).

(** [dict(pairs)] *)
Definition dict_of_pairs {V} (pairs : list (string * V)) : list (string * V) :=
  fold_left (fun d kv => dict_set d (fst kv) (snd kv)) pairs [].

Definition is_task (r : item) : bool := String.eqb (Type_ r) "Task".
Definition is_milestone (r : item) : bool := String.eqb (Type_ r) "Milestone".
Definition in_wp (wp : string) (r : item) : bool :=
  String.eqb (Work_Package r) wp.

Definition Qltb (a b : Q) : bool := negb (Qle_bool b a).

(** *** Task bars *)

(** Arithmetic of an [int64] column wraps around: the value of [z] in
    the range from [-2^63] to [2^63 - 1]. *)
Definition int64 (z : Z) : Z := ((z + 2 ^ 63) mod 2 ^ 64 - 2 ^ 63)%Z.

(** [df["Duration"] = df["End_Month"] - df["Start_Month"]], for one row:
    a difference of two [int64] columns.  Months that do not fit [int64]
    make columns of another type and are outside the model. *)
Definition duration (task : item) : Z := int64 (End_ task - Start task).

(** The bar of one task and its name, inside the bar or to its right. *)
Definition draw_task (c : color) (y_pos : Z) (task : item) : list artist :=
  let start_month := inject_Z (Start task) in
  let bar_width := inject_Z (duration task) in
  [ Barh y_pos (duration task) (Start task) c;
    if Qle_bool (1 # 2) bar_width
    then Text (start_month + bar_width / 2)%Q (inject_Z y_pos) (Task task)
              "center" "center" 0 (Named "black")
    else Text (start_month + bar_width + (1 # 10))%Q (inject_Z y_pos) (Task task)
              "left" "center" 0 c ].

(** [for _, task in wp_tasks.iterrows()], from position [y_pos]: the
    artists added and the position reached. *)
Fixpoint draw_wp_tasks (c : color) (wp_tasks : list item) (y_pos : Z)
  : list artist * Z :=
  match wp_tasks with
  | [] => ([], y_pos)
  | task :: rest =>
      let '(more, y_end) := draw_wp_tasks c rest (y_pos + 1) in
      (draw_task c y_pos task ++ more, y_end)
  end.

Record bar_state := mk_bar_state {
  drawn : list artist;
  y_pos : Z;
  wp_y_ranges : list (string * (Z * Z))
}.

(** [for wp in work_packages].  [wp_colors[wp]] is read once per package
    that has tasks (the source reads it at every bar of the package). *)
Fixpoint plot_tasks (wp_colors : list (string * color)) (tasks : list item)
         (work_packages : list string) (st : bar_state) : result bar_state :=
  match work_packages with
  | [] => Return st
  | wp :: rest =>
      match filter (in_wp wp) tasks with
      | [] => plot_tasks wp_colors tasks rest st
      | wp_tasks =>
          c <- dict_index wp_colors wp ;;
          let wp_start_y := y_pos st in
          let '(bars, y_end) := draw_wp_tasks c wp_tasks (y_pos st) in
          plot_tasks wp_colors tasks rest
            {| drawn := drawn st ++ bars;
               y_pos := y_end;
               wp_y_ranges := dict_set (wp_y_ranges st) wp (wp_start_y, y_end - 1)%Z |}
      end
  end.

(** *** Milestone markers *)

(** The inner search: the first full work-package name that contains the
    identifier. *)
Definition resolve (wp_colors : list (string * color)) (wp_name : string)
  : option string :=
  find (fun full_wp => contains wp_name full_wp) (dict_keys wp_colors).

(** [for wp_name in related_wps], building [milestone_colors]. *)
Fixpoint collect_colors (wp_colors : list (string * color))
         (related_wps : list string) : result (list color) :=
  match related_wps with
  | [] => Return []
  | wp_name :: rest =>
      match resolve wp_colors wp_name with
      | Some full_wp =>
          c <- dict_index wp_colors full_wp ;;
          cs <- collect_colors wp_colors rest ;;
          Return (c :: cs)
      | None => collect_colors wp_colors rest
      end
  end.

(** [[wp.strip() for wp in str(...).split(",")]] *)
Definition related_wps_of (related : string) : list string :=
  map strip (split_on comma related).

Definition milestone_colors (wp_colors : list (string * color))
           (related : string) : result (list color) :=
  collect_colors wp_colors (related_wps_of related).

Definition gray_line (milestone_x : Z) : artist :=
  Axvline milestone_x 0 1 (Named "gray").

Definition stripe_height : Q := 2 # 10.

Definition list_index {A} (l : list A) (i : nat) : result A :=
  match nth_error l i with
  | Some a => Return a
  | None => Raise IndexError
  end.

(** Stripe [i] starts at [y_bottom + i * stripe_height]. *)
Definition stripe_start (y_bottom : Q) (i : nat) : Q :=
  (y_bottom + inject_Z (Z.of_nat i) * stripe_height)%Q.

(** The line drawn for stripe [i], in axes coordinates. *)
Definition stripe_line (milestone_x : Z) (y_bottom y_top : Q) (i : nat)
           (c : color) : artist :=
  let total_height := (y_top - y_bottom)%Q in
  let y_start := stripe_start y_bottom i in
  let y_end := if Qltb y_top (y_start + stripe_height)%Q
               then y_top else (y_start + stripe_height)%Q in
  Axvline milestone_x
          ((y_start - y_bottom) / total_height)%Q
          ((y_end - y_bottom) / total_height)%Q c.

(** [for i in range(num_stripes)] *)
Fixpoint draw_stripes (milestone_x : Z) (colors : list color)
         (y_bottom y_top : Q) (indices : list nat) : result (list artist) :=
  match indices with
  | [] => Return []
  | i :: rest =>
      let color_index := (i mod List.length colors)%nat in
      c <- list_index colors color_index ;;
      more <- draw_stripes milestone_x colors y_bottom y_top rest ;;
      if Qltb (stripe_start y_bottom i) y_top
      then Return (stripe_line milestone_x y_bottom y_top i c :: more)
      else Return more
  end.

Definition num_stripes (y_bottom y_top : Q) : Z :=
  (Convert.trunc ((y_top - y_bottom) / stripe_height)%Q + 1)%Z.

Section WithAxes.

(** [ax.get_ylim()] of the plotting library: the view limits of the y axis,
    given what has been drawn so far. *)
Variable get_ylim : list artist -> Q * Q.

(** The body of [for _, milestone in milestones.iterrows()]. *)
Definition draw_milestone (wp_colors : list (string * color))
           (so_far : list artist) (milestone : item) : result (list artist) :=
  let milestone_x := Start milestone in
  match Related_WPs milestone with
  | Some related =>
      cs <- milestone_colors wp_colors related ;;
      match cs with
      | [c] => Return [Axvline milestone_x 0 1 c]
      | _ :: _ :: _ =>
          let '(y_bottom, y_top) := get_ylim so_far in
          draw_stripes milestone_x cs y_bottom y_top
            (seq 0 (Z.to_nat (num_stripes y_bottom y_top)))
      | [] => Return [gray_line milestone_x]
      end
  | None => Return [gray_line milestone_x]
  end.

Fixpoint draw_milestones (wp_colors : list (string * color))
         (so_far : list artist) (milestones : list item)
  : result (list artist) :=
  match milestones with
  | [] => Return []
  | milestone :: rest =>
      lines <- draw_milestone wp_colors so_far milestone ;;
      more <- draw_milestones wp_colors (so_far ++ lines) rest ;;
      Return (lines ++ more)
  end.

End WithAxes.

(** How the marker [lines] of a milestone look, by the colours its
    [Related WPs] resolve to: gray without the field or without a colour,
    one full-height line for one colour, and for several colours the
    stripes that start below [y_top], stripe [i] in colour [i mod n]. *)
Definition marker_drawn_as (get_ylim : list artist -> Q * Q)
           (wp_colors : list (string * color)) (so_far : list artist)
           (milestone : item) (lines : list artist) : Prop :=
  match Related_WPs milestone with
  | None => lines = [gray_line (Start milestone)]
  | Some related =>
      exists cs,
        milestone_colors wp_colors related = Return cs
        /\ match cs with
           | [] => lines = [gray_line (Start milestone)]
           | [c] => lines = [Axvline (Start milestone) 0 1 c]
           | _ =>
               Forall2 (fun i a =>
                          exists c,
                            nth_error cs (i mod List.length cs) = Some c
                            /\ a = stripe_line (Start milestone)
                                     (fst (get_ylim so_far))
                                     (snd (get_ylim so_far)) i c)
                       (filter (fun i => Qltb (stripe_start (fst (get_ylim so_far)) i)
                                              (snd (get_ylim so_far)))
                               (seq 0 (Z.to_nat (num_stripes
                                                   (fst (get_ylim so_far))
                                                   (snd (get_ylim so_far))))))
                       lines
           end
  end.

(** *** Milestone labels *)

(** Order of the tuples [(Start_Month, Task)]. *)
Definition tuple_leb (a b : Z * string) : bool :=
  (fst a <? fst b)%Z || ((fst a =? fst b)%Z && String.leb (snd a) (snd b)).

Fixpoint insert (x : Z * string) (l : list (Z * string)) : list (Z * string) :=
  match l with
  | [] => [x]
  | y :: r => if tuple_leb x y then x :: l else y :: insert x r
  end.

(** [milestone_positions.sort()]: the order is total and two tuples that
    compare equal are the same tuple, so the sorted list does not depend on
    the sorting method. *)
Fixpoint sort (l : list (Z * string)) : list (Z * string) :=
  match l with
  | [] => []
  | x :: r => insert x (sort r)
  end.

Definition milestone_positions (milestones : list item) : list (Z * string) :=
  sort (map (fun row => (Start row, Task row)) milestones).

Definition base_y : Q := (-1)%Q.

(** The height of label [i].  [positions[i - 1]] is read only when
    [i > 0]; the default of [nth] is never used. *)
Definition label_y (positions : list (Z * string)) (i : nat) (x_pos : Z) : Q :=
  if (0 <? i)%nat
     && (Z.abs (x_pos - fst (nth (i - 1) positions (0%Z, ""))) <? 4)%Z
  then (let row := (i mod 3 + 1)%nat in
        base_y - inject_Z (Z.of_nat row) * (3 # 2))%Q
  else (base_y - (1 # 2))%Q.

Definition enumerate {A} (l : list A) : list (nat * A) :=
  combine (seq 0 (List.length l)) l.

Definition label_y_positions (positions : list (Z * string))
  : list (Z * Q * string) :=
  map (fun ip => (fst (snd ip), label_y positions (fst ip) (fst (snd ip)),
                  snd (snd ip)))
      (enumerate positions).

Definition draw_label (l : Z * Q * string) : artist :=
  Text (inject_Z (fst (fst l))) (snd (fst l))
       (Labels.format_milestone_name (snd l)) "center" "top" 0 (Named "#333333").

Definition milestone_labels (milestones : list item) : list artist :=
  match milestones with
  | [] => []
  | _ => map draw_label (label_y_positions (milestone_positions milestones))
  end.

(** *** Work-package brackets and labels *)

Definition brace_x : Q := (-8 # 10)%Q.
Definition label_x : Q := (-12 # 10)%Q.

Definition draw_brace (wp : string) (wp_color : color) (start_y end_y : Z)
  : list artist :=
  let formatted_wp := Labels.format_wp_name wp in
  if (start_y =? end_y)%Z
  then [Text label_x (inject_Z start_y) formatted_wp "right" "center" 15 wp_color]
  else
    let mid_y := (inject_Z (start_y + end_y) / 2)%Q in
    let top := (inject_Z start_y - (4 # 10))%Q in
    let bottom := (inject_Z end_y + (4 # 10))%Q in
    [ Plot brace_x (brace_x + (2 # 10))%Q top top;
      Plot brace_x brace_x top bottom;
      Plot brace_x (brace_x + (2 # 10))%Q bottom bottom;
      Text label_x mid_y formatted_wp "right" "center" 25 wp_color ].

(** [for wp, (start_y, end_y) in wp_y_ranges.items()] *)
Fixpoint draw_braces (wp_colors : list (string * color))
         (ranges : list (string * (Z * Z))) : result (list artist) :=
  match ranges with
  | [] => Return []
  | (wp, (start_y, end_y)) :: rest =>
      wp_color <- dict_index wp_colors wp ;;
      more <- draw_braces wp_colors rest ;;
      Return (draw_brace wp wp_color start_y end_y ++ more)
  end.

(** *** The whole chart *)

Definition work_packages_of (data : list item) : list string :=
  unique (map Work_Package data).

Definition wp_colors_of (data : list item) : list (string * color) :=
  let work_packages := work_packages_of data in
  dict_of_pairs (combine work_packages (palette (List.length work_packages))).

(** The state before the first bar: [y_pos = 0], nothing drawn, no range
    recorded. *)
Definition init_state : bar_state :=
  {| drawn := []; y_pos := 0; wp_y_ranges := [] |}.

(** Everything drawn from the three frames [tasks], [milestones] and the
    list of work packages.  Axis decoration (ticks, grid, spines, title)
    adds no artist and is left out. *)
Definition draw_chart (get_ylim : list artist -> Q * Q)
           (work_packages : list string) (wp_colors : list (string * color))
           (tasks milestones : list item) : result figure :=
  st <- plot_tasks wp_colors tasks work_packages init_state ;;
  markers <- draw_milestones get_ylim wp_colors (drawn st) milestones ;;
  let labels := milestone_labels milestones in
  braces <- draw_braces wp_colors (wp_y_ranges st) ;;
  Return {| artists := drawn st ++ markers ++ labels ++ braces;
            ylim := if (0 <? y_pos st)%Z then Some (y_pos st, (-4)%Z) else None |}.

(** What [create_gantt_chart(data)] asks the plotting library to draw.
    An empty [data] gives a frame without columns, and [df["Start"]]
    raises before anything is drawn. *)
Definition chart_calls (get_ylim : list artist -> Q * Q)
           (data : list item) : result figure :=
  match data with
  | [] => Raise (KeyError "Start")
  | _ =>
      let tasks := filter is_task data in
      let milestones := filter is_milestone data in
      draw_chart get_ylim (work_packages_of data) (wp_colors_of data)
                 tasks milestones
  end.

(** [create_gantt_chart(data)].  The plotting library can refuse what it
    is asked to draw: [ax.barh] raises [OverflowError] on a width or a
    position it cannot convert, and [plt.tight_layout()], the last call,
    raises [ValueError] on a text it takes for mathtext and cannot parse
    (a name with two "$", say).  Which drawings it refuses is the
    library's matter, not this program's: [refuses artists] is the
    exception the library raises on the calls that draw [artists], with
    the title of the run, or [None] when it carries them all out.  No
    exception is caught inside the function, so a refused call ends it,
    whatever was drawn before. *)
Definition create_gantt_chart (get_ylim : list artist -> Q * Q)
           (refuses : list artist -> option exn)
           (data : list item) : result figure :=
  fig <- chart_calls get_ylim data ;;
  match refuses (artists fig) with
  | Some e => Raise e
  | None => Return fig
  end.

(** *** Reading a figure *)

Definition is_bar (a : artist) : bool :=
  match a with Barh _ _ _ _ => true | _ => false end.

Definition is_vline (a : artist) : bool :=
  match a with Axvline _ _ _ _ => true | _ => false end.

Definition is_plot (a : artist) : bool :=
  match a with Plot _ _ _ _ => true | _ => false end.

(** The horizontal bars of a figure, in drawing order. *)
Definition bars_of (l : list artist) : list artist := filter is_bar l.

(** [a] is the bar of record [t]: it starts at the record's start month
    and is as wide as its duration. *)
Definition bar_for (t : item) (a : artist) : Prop :=
  exists y c, a = Barh y (End_ t - Start t) (Start t) c.

(** The same with the width as the frame has it, in its [Duration]
    column. *)
Definition bar_of_row (t : item) (a : artist) : Prop :=
  exists y c, a = Barh y (duration t) (Start t) c.

(** The months of the records are small enough for the differences of
    the [int64] columns not to wrap around: all lie between [-2^62] and
    [2^62 - 1]. *)
Definition small_month (z : Z) : bool :=
  ((- 2 ^ 62 <=? z) && (z <? 2 ^ 62))%Z.

Definition months_fit (data : list item) : bool :=
  forallb (fun r => small_month (Start r) && small_month (End_ r)) data.

(** The stripes of a marker at [x], on axes [height] data units high:
    there is at least one line, and as many as it takes to reach the top;
    line [i] (from 0) has colour [i mod n] of the [n] colours, it starts at
    the fraction [i * 0.2 / height] of the axes height and ends where line
    [i + 1] starts, the last line ending at the top (fraction 1); no line
    is empty. *)
Definition striped (x : Z) (cs : list color) (height : Q)
           (lines : list artist) : Prop :=
  lines <> []
  /\ (height <= inject_Z (Z.of_nat (List.length lines)) * (2 # 10))%Q
  /\ forall i a,
       nth_error lines i = Some a ->
       exists ymin ymax c,
         a = Axvline x ymin ymax c
         /\ nth_error cs (i mod List.length cs) = Some c
         /\ (ymin == inject_Z (Z.of_nat i) * (2 # 10) / height)%Q
         /\ (ymin < ymax)%Q
         /\ (ymax == if (S i =? List.length lines)%nat then 1
                     else inject_Z (Z.of_nat (S i)) * (2 # 10) / height)%Q.

(** [full] is the first of [names] that has [wp_name] as a substring. *)
Definition first_containing (names : list string) (wp_name full : string)
  : Prop :=
  exists before after,
    names = before ++ full :: after
    /\ (exists pre suf, full = (pre ++ wp_name ++ suf)%string)
    /\ Forall (fun w => ~ exists pre suf, w = (pre ++ wp_name ++ suf)%string)
              before.

(** The colours the identifiers of [related] resolve to: one for each
    identifier that is part of some work-package name, in the order of the
    identifiers, each the colour of the first package whose name has the
    identifier in it.  Two identifiers that resolve to one package give
    its colour twice. *)
Definition resolved_colors (data : list item) (related : string)
           (cs : list color) : Prop :=
  Forall2 (fun wp_name c =>
             exists full,
               first_containing (work_packages_of data) wp_name full
               /\ dict_get (wp_colors_of data) full = Some c)
          (filter (fun wp_name =>
                     existsb (contains wp_name) (work_packages_of data))
                  (related_wps_of related))
          cs.

(** The marker of a milestone by the colours its identifiers resolve to:
    gray without [Related WPs] or without a colour, one full-height line
    for one colour, stripes for two colours or more. *)
Definition marker_by_colors (data : list item) (height : Q)
           (milestone : item) (lines : list artist) : Prop :=
  match Related_WPs milestone with
  | None => lines = [Axvline (Start milestone) 0 1 (Named "gray")]
  | Some related =>
      exists cs,
        resolved_colors data related cs
        /\ match cs with
           | [] => lines = [Axvline (Start milestone) 0 1 (Named "gray")]
           | [c] => lines = [Axvline (Start milestone) 0 1 c]
           | _ => striped (Start milestone) cs height lines
           end
  end.

(** Order of the recorded ranges: one block ends before the next starts;
    every block lies below the position reached. *)
Definition range_before (a b : string * (Z * Z)) : Prop :=
  (snd (snd a) < fst (snd b))%Z.

Definition range_below (y : Z) (a : string * (Z * Z)) : Prop :=
  (fst (snd a) <= snd (snd a) < y)%Z.

(** The tasks of one work package, in data order. *)
Definition wp_tasks_of (data : list item) (wp : string) : list item :=
  filter (in_wp wp) (filter is_task data).

(** Example data: one colour table where "WP1" is found inside "WP10",
    and a small project with two packages, two milestones and a record of
    another type.  [unit_ylim] gives the view limits of empty axes. *)
Definition pilot_colors : list (string * color) :=
  [("WP10: Pilot", Set3 0 2); ("WP1: Design", Set3 1 2)].

Definition unit_ylim (so_far : list artist) : Q * Q := (0%Q, 1%Q).

(** Two plotting libraries for the examples: one that carries out every
    call, and one that refuses every drawing with a "$" in one of its
    texts (the real library refuses some of them, those it cannot parse
    as mathtext). *)
Definition draws_all (drawing : list artist) : option exn := None.

Definition has_dollar (a : artist) : bool :=
  match a with
  | Text _ _ s _ _ _ _ => has_char "$"%char s
  | _ => false
  end.

Definition no_dollar (drawing : list artist) : option exn :=
  if existsb has_dollar drawing then Some ValueError_mathtext else None.

(** A task whose name the second library refuses, and a task whose months
    are so far apart that their difference does not fit [int64]. *)
Definition t_dollars : item :=
  mk_item "50% of $ and 20% of $" "WP1: Design" 1 3 "Task" None.

Definition t_far : item :=
  mk_item "Long" "WP1: Design" (- 2 ^ 62) (2 ^ 62) "Task" None.

Definition t_design : item := mk_item "Design" "WP1: Design" 1 3 "Task" None.
Definition t_review : item := mk_item "Review" "WP1: Design" 3 4 "Task" None.
Definition t_build : item := mk_item "Build" "WP2: Build" 4 9 "Task" None.
Definition m_kickoff : item :=
  mk_item "Kick-off" "Milestones" 1 1 "Milestone" None.
Definition m_release : item :=
  mk_item "Release" "Milestones" 9 9 "Milestone" (Some "WP1, WP2").
Definition r_note : item := mk_item "Note" "WP2: Build" 2 5 "Deliverable" None.
Definition r_blank : item := mk_item "Note" "WP2: Build" 2 5 " " None.

Definition pilot_project : list item :=
  [mk_item "Pilot run" "WP10: Pilot" 1 4 "Task" None;
   mk_item "Design" "WP1: Design" 2 5 "Task" None;
   mk_item "Design frozen" "WP1: Design" 5 5 "Milestone" (Some "WP1")].

(** A project of one package, which a milestone names twice. *)
Definition m_frozen : item :=
  mk_item "Design frozen" "WP1: Design" 3 3 "Milestone" (Some "WP1, Design").

Definition one_package : list item :=
  [mk_item "Design" "WP1: Design" 1 3 "Task" None; m_frozen].

Definition m_design_done : item :=
  mk_item "Design done" "Milestones" 3 3 "Milestone" None.

Definition close_milestones : list item :=
  [m_release; m_kickoff; m_design_done].

Definition small_project : list item :=
  [t_design; t_review; m_kickoff; t_build; r_note; m_release].

End Chart.

(* ================================================================== *)
(** ** More of the label code: how full the lines are *)

Module Filling.
Import PyStr.

(** The test of the wrapping loop: [word] does not fit after [line]. *)
Definition overflows (line word : string) : bool :=
  (20 <? String.length (line ++ " " ++ word))%nat.

Definition first_word (line : string) : string := hd "" (split line).

(** Every line after [prev] starts with a word that did not fit on the
    line before it. *)
Fixpoint filled_from (prev : string) (lines : list string) : bool :=
  match lines with
  | [] => true
  | l :: rest => overflows prev (first_word l) && filled_from l rest
  end.

Definition filled (lines : list string) : bool :=
  match lines with
  | [] => true
  | l :: rest => filled_from l rest
  end.

(** [s.replace(old, new)] for a non-empty [old]: the occurrences are taken
    from left to right and do not overlap.  [skip] counts the characters of
    an occurrence still to pass. *)
Fixpoint replace_aux (old new : string) (s : string) (skip : nat) : string :=
  match s with
  | EmptyString => EmptyString
  | String c r =>
      match skip with
      | S k => replace_aux old new r k
      | O =>
          if prefix old s
          then new ++ replace_aux old new r (String.length old - 1)
          else String c (replace_aux old new r 0)
      end
  end.

Definition replace (old new s : string) : string := replace_aux old new s 0.

End Filling.

(* ================================================================== *)
(** ** The converter as a program (csv_to_yaml.py, [load_milestones],
       [convert_csv_to_yaml]) *)

Module ConvertRun.
Import Convert.

(** A data frame: the column names and, per row, the cells in column
    order.  A row shorter than the header reads as empty cells (NaN), as
    [pd.read_csv] pads it. *)
Record frame := mk_frame {
  columns : list string;
  rows : list (list cell)
}.

(** [col in df.columns] *)
Definition has_column (df : frame) (col : string) : bool :=
  existsb (String.eqb col) (columns df).

Fixpoint index_of (col : string) (cols : list string) : nat :=
  match cols with
  | [] => 0
  | c :: rest => if String.eqb c col then 0 else S (index_of col rest)
  end.

(** [row[col]], read only for columns known to be in the header. *)
Definition cell_at (cols : list string) (row : list cell) (col : string) : cell :=
  nth (index_of col cols) row (CFloat FNaN).

Definition task_columns : list string :=
  ["Task Number"; "Task Name"; "Task Start Month"; "Task End Month";
   "Work Package"].

Definition milestone_columns : list string :=
  ["Milestone number"; "Milestone name"; "Due date (in month)"].

(** [[col for col in required_columns if col not in df.columns]] *)
Definition missing_columns (required : list string) (df : frame) : list string :=
  filter (fun col => negb (has_column df col)) required.

Definition task_row (cols : list string) (row : list cell) : csv_row :=
  mk_row (cell_at cols row "Task Number") (cell_at cols row "Task Name")
         (cell_at cols row "Task Start Month")
         (cell_at cols row "Task End Month")
         (cell_at cols row "Work Package").

(** What the files, the console and the installation offer to the
    program. *)
Record world := mk_world {
  read_csv : string -> option frame;   (* [None]: [pd.read_csv] raises *)
  path_exists : string -> bool;        (* [os.path.exists] *)
  writable : string -> bool;           (* [open(path, "w")] works; it creates
                                          the file, or empties it *)
  dump_completes : string -> bool;     (* the dump into the open file and the
                                          closing of the file go through *)
  shows_check_mark : bool;             (* the console can print the check
                                          mark of the success message *)
  YAML_AVAILABLE : bool
}.

(** What a run leaves in a file it has opened for writing: the whole
    document, or the part of it that was written when the dump failed. *)
Inductive written :=
| Whole (document : pyval)
| Part.

(** The figures of the closing summary. *)
Record summary := mk_summary {
  total_tasks : nat;
  work_packages : list string;
  month_range : Z * Z
}.

(** How a run ends: normally, by [sys.exit], or by an exception nobody
    catches ([Uncaught_min_of_empty] is the [ValueError] of [min([])]). *)
Inductive status :=
| Finished (s : summary)
| SysExit (code : Z)
| Uncaught (e : exn)
| Uncaught_min_of_empty.

Inductive step (A : Type) :=
| Ok (a : A)
| Stop (s : status).
Arguments Ok {A} a.
Arguments Stop {A} s.

Definition list_min (l : list Z) : option Z :=
  match l with
  | [] => None
  | x :: r => Some (fold_left Z.min r x)
  end.

Definition list_max (l : list Z) : option Z :=
  match l with
  | [] => None
  | x :: r => Some (fold_left Z.max r x)
  end.

Fixpoint insert_name (x : string) (l : list string) : list string :=
  match l with
  | [] => [x]
  | y :: r => if String.leb x y then x :: l else y :: insert_name x r
  end.

(** [sorted(set(names))] *)
Definition sorted_set (names : list string) : list string :=
  fold_right insert_name [] (Chart.unique names).

(** The summary printed after the file is written. *)
Definition summarize (tasks : list item) : status :=
  match list_min (map Start tasks), list_max (map End_ tasks) with
  | Some first, Some last =>
      Finished {| total_tasks := List.length tasks;
                  work_packages := sorted_set (map Work_Package tasks);
                  month_range := (first, last) |}
  | _, _ => Uncaught_min_of_empty
  end.

Section WithIntOfStr.

Variable int_of_str : string -> option Z.

(** The body of the loop of [load_milestones]. *)
Definition milestone_of_row (has_related_wps : bool) (cols : list string)
           (row : list cell) : result item :=
  number <- cell_strip (cell_at cols row "Milestone number") ;;
  name <- cell_strip (cell_at cols row "Milestone name") ;;
  start_month <- py_int int_of_str (cell_at cols row "Due date (in month)") ;;
  end_month <- py_int int_of_str (cell_at cols row "Due date (in month)") ;;
  related <-
    (if has_related_wps && notna (cell_at cols row "Related WP(s)")
     then (r <- cell_strip (cell_at cols row "Related WP(s)") ;; Return (Some r))
     else Return None) ;;
  Return {| Task := number ++ " - " ++ name;
            Work_Package := "Milestones";
            Start := start_month;
            End_ := end_month;
            Type_ := "Milestone";
            Related_WPs := related |}.

Fixpoint milestones_of_rows (has_related_wps : bool) (cols : list string)
         (rows : list (list cell)) : result (list item) :=
  match rows with
  | [] => Return []
  | row :: rest =>
      milestone <- milestone_of_row has_related_wps cols row ;;
      milestones <- milestones_of_rows has_related_wps cols rest ;;
      Return (milestone :: milestones)
  end.

Definition load_milestones (w : world) (milestones_file : string)
  : step (list item) :=
  match read_csv w milestones_file with
  | None => Stop (SysExit 1)
  | Some df =>
      match missing_columns milestone_columns df with
      | _ :: _ => Stop (SysExit 1)
      | [] =>
          let has_related_wps := has_column df "Related WP(s)" in
          match milestones_of_rows has_related_wps (columns df) (rows df) with
          | Return milestones => Ok milestones
          | Raise e => Stop (Uncaught e)
          end
      end
  end.

(** [if milestones_file: ...; tasks.extend(milestones)] *)
Definition with_milestones (w : world) (milestones_file : option string)
           (tasks : list item) : step (list item) :=
  match milestones_file with
  | Some file =>
      if PyStr.is_empty file then Ok tasks
      else if negb (path_exists w file) then Stop (SysExit 1)
      else match load_milestones w file with
           | Ok milestones => Ok (tasks ++ milestones)
           | Stop s => Stop s
           end
  | None => Ok tasks
  end.

(** The file the data goes to: the YAML file, or, without PyYAML, the same
    name with ".yaml" replaced by ".json". *)
Definition target (w : world) (output_file : string) : string :=
  if YAML_AVAILABLE w then output_file
  else Filling.replace ".yaml" ".json" output_file.

(** The [try] of the write: [open] creates the file, the dump fills it,
    and the success message is printed, all under one [except Exception]
    that prints the error and calls [sys.exit(1)].  So a run can end with
    exit status 1 and leave a file behind: part of one when the dump
    fails, the whole of it when the console cannot print the check mark
    of the message.  After the [try] comes the summary. *)
Definition write_file (w : world) (path : string) (yaml_data : pyval)
           (tasks : list item) : list (string * written) * status :=
  if negb (writable w path) then ([], SysExit 1)
  else if negb (dump_completes w path) then ([(path, Part)], SysExit 1)
  else if negb (shows_check_mark w) then ([(path, Whole yaml_data)], SysExit 1)
  else ([(path, Whole yaml_data)], summarize tasks).

(** [convert_csv_to_yaml]: the files the run leaves (path and content) and
    how the run ends.  Of the console output, the success message and the
    summary are modelled; the other messages hold plain text and the
    user's own file and column names, and are taken to print. *)
Definition convert_csv_to_yaml (w : world)
           (csv_file output_file task_type : string)
           (milestones_file : option string)
  : list (string * written) * status :=
  match read_csv w csv_file with
  | None => ([], SysExit 1)
  | Some df =>
      match missing_columns task_columns df with
      | _ :: _ => ([], SysExit 1)
      | [] =>
          match convert_rows int_of_str task_type
                             (map (task_row (columns df)) (rows df)) with
          | Raise e => ([], Uncaught e)
          | Return tasks =>
              match with_milestones w milestones_file tasks with
              | Stop s => ([], s)
              | Ok tasks =>
                  let yaml_data := PDict [("tasks", to_data tasks)] in
                  write_file w (target w output_file) yaml_data tasks
              end
          end
      end
  end.

End WithIntOfStr.

(** Example files. *)
Definition tasks_frame : frame :=
  mk_frame ["Task Number"; "Task Name"; "Task Start Month"; "Task End Month";
            "Work Package"]
           [[CStr "T1.1"; CStr "Design"; CInt 1; CInt 3; CStr "WP1: Design"];
            [CStr "T1.2"; CStr " Review "; CInt 3; CInt 3; CFloat FNaN]].

Definition milestones_frame : frame :=
  mk_frame ["Milestone number"; "Milestone name"; "Due date (in month)";
            "Related WP(s)"]
           [[CStr "M1"; CStr "Kick-off"; CInt 1; CFloat FNaN];
            [CStr "M2"; CStr "Release"; CFloat (FFin (9 # 1)); CStr " WP1 "]].

Definition header_only : frame :=
  mk_frame ["Task Number"; "Task Name"; "Task Start Month"; "Task End Month";
            "Work Package"] [].

Definition no_name_frame : frame :=
  mk_frame ["Task Number"; "Task Start Month"; "Task End Month"; "Work Package"]
           [[CStr "T1.1"; CInt 1; CInt 3; CStr "WP1: Design"]].

Definition desk : world :=
  mk_world (fun path =>
              if String.eqb path "tasks.csv" then Some tasks_frame
              else if String.eqb path "milestones.csv" then Some milestones_frame
              else if String.eqb path "empty.csv" then Some header_only
              else if String.eqb path "noname.csv" then Some no_name_frame
              else None)
           (fun path => true) (fun path => true) (fun path => true) true true.

(** The same files with a console that cannot print the check mark. *)
Definition plain_console : world :=
  mk_world (read_csv desk) (path_exists desk) (writable desk)
           (dump_completes desk) false true.

End ConvertRun.

(* ================================================================== *)
(** ** Loading and the main program (gantt.py, [load_from_yaml] and the
       body under [__main__]) *)

Module Pipeline.
Import Chart.

Inductive load_error :=
| ImportError_PyYAML
| ValueError_not_tasks.

(** [load_from_yaml], on the document [yaml.safe_load] has read. *)
Definition load_from_yaml (YAML_AVAILABLE : bool) (document : pyval)
  : load_error + pyval :=
  if negb YAML_AVAILABLE then inl ImportError_PyYAML
  else match document with
       | PList _ => inr document
       | PDict d =>
           match dict_get d "tasks" with
           | Some tasks => inr tasks
           | None => inl ValueError_not_tasks
           end
       | _ => inl ValueError_not_tasks
       end.

(** The figures of the closing report. *)
Record report := mk_report {
  first_month : Z;
  last_month : Z;
  total_tasks : nat;
  total_milestones : nat
}.

Inductive outcome :=
| Completed (fig : figure) (r : report)
| Exit1.

(** The main program from [validate_data(data)] on, for loaded records:
    validation, the chart, saving and showing it, the report; any
    exception ends the run with exit status 1.  [shown fig] tells whether
    [plt.savefig] and [plt.show], where the arguments ask for them, go
    through; like [refuses] it belongs to the plotting library and the
    file system. *)
Definition main_from_data (get_ylim : list artist -> Q * Q)
           (refuses : list artist -> option exn) (shown : figure -> bool)
           (data : list item) : outcome :=
  match Validate.validate (to_data data) with
  | Raise _ => Exit1
  | Return _ =>
      match create_gantt_chart get_ylim refuses data with
      | Raise _ => Exit1
      | Return fig =>
          if negb (shown fig) then Exit1
          else
            match ConvertRun.list_min (map Start data),
                  ConvertRun.list_max (map End_ data) with
            | Some first, Some last =>
                Completed fig
                  {| first_month := first;
                     last_month := last;
                     total_tasks := List.length (filter is_task data);
                     total_milestones :=
                       List.length (filter is_milestone data) |}
            | _, _ => Exit1
            end
      end
  end.

(** The positions of the bars of a figure, in drawing order. *)
Definition bar_positions (l : list artist) : list Z :=
  flat_map (fun a => match a with Barh y _ _ _ => [y] | _ => [] end) l.

(** The name label of a task at position [y], by the test of the source,
    [bar_width >= 0.5]: centred in the bar when the bar is at least half a
    month wide, else to the right of the bar in the package colour. *)
Definition task_label (c : color) (y : Z) (t : item) : artist :=
  if Qle_bool (1 # 2) (inject_Z (End_ t - Start t))
  then Text (inject_Z (Start t) + inject_Z (End_ t - Start t) / 2)%Q
            (inject_Z y) (Task t) "center" "center" 0 (Named "black")
  else Text (inject_Z (Start t) + inject_Z (End_ t - Start t) + (1 # 10))%Q
            (inject_Z y) (Task t) "left" "center" 0 c.

(** The milestone labels are the texts anchored at their top. *)
Definition is_milestone_label (a : artist) : bool :=
  match a with
  | Text _ _ _ _ va _ _ => String.eqb va "top"
  | _ => false
  end.

(** The fractions of the axes height a stripe line covers. *)
Definition line_span (a : artist) : Q * Q :=
  match a with
  | Axvline _ ymin ymax _ => (ymin, ymax)
  | _ => (0, 0)%Q
  end.

(** Consecutive lines meet: each starts where the one before ends. *)
Fixpoint abut (prev_end : Q) (lines : list artist) : Prop :=
  match lines with
  | [] => True
  | a :: rest => (fst (line_span a) == prev_end)%Q /\ abut (snd (line_span a)) rest
  end.

(** Example records for the validation: the same task with and without
    columns the validation does not ask for. *)
Definition plain_record : dict :=
  [("Task", PStr "Design"); ("Work Package", PStr "WP1: Design");
   ("Start", PInt 1); ("End", PInt 3); ("Type", PStr "Task")].

Definition annotated_record : dict :=
  [("Owner", PNone); ("Task", PStr "Design"); ("Notes", PStr "");
   ("Work Package", PStr "WP1: Design"); ("Start", PInt 1); ("End", PInt 3);
   ("Type", PStr "Task"); ("Related WPs", PList [])].

Definition second_row_blank : pyval :=
  PList [PDict plain_record;
         PDict [("Task", PStr "Review"); ("Work Package", PStr "WP1: Design");
                ("Start", PFloat FNaN); ("End", PInt 3); ("Type", PStr " ")]].

End Pipeline.

(* ================================================================== *)
(** * Properties *)

(** ** Strings *)

Section StringFacts.
Import PyStr.

Lemma str_app_length (a b : string) :
  String.length (a ++ b) = (String.length a + String.length b)%nat.
Proof. induction a as [|c a IH]; simpl; [reflexivity | now rewrite IH]. Qed.

Lemma str_app_assoc (a b c : string) : ((a ++ b) ++ c = a ++ (b ++ c))%string.
Proof. induction a as [|x a IH]; simpl; [reflexivity | now rewrite IH]. Qed.

Lemma str_app_empty_r (a : string) : (a ++ "")%string = a.
Proof. induction a as [|x a IH]; simpl; [reflexivity | now rewrite IH]. Qed.

Lemma is_empty_app (a b : string) :
  is_empty (a ++ b) = is_empty a && is_empty b.
Proof. destruct a; reflexivity. Qed.

Lemma is_empty_true (a : string) : is_empty a = true -> a = "".
Proof. destruct a; [reflexivity | discriminate]. Qed.

Lemma no_space_app (a b : string) :
  no_space (a ++ b) = no_space a && no_space b.
Proof.
  induction a as [|c a IH]; simpl; [reflexivity|].
  rewrite IH. now rewrite andb_assoc.
Qed.

Lemma has_char_app (c : ascii) (a b : string) :
  has_char c (a ++ b) = has_char c a || has_char c b.
Proof.
  induction a as [|d a IH]; simpl; [reflexivity|].
  rewrite IH. now rewrite orb_assoc.
Qed.

Lemma no_space_no_nl (w : string) : no_space w = true -> has_char nl w = false.
Proof.
  induction w as [|c w IH]; simpl; [reflexivity|].
  intros H. apply andb_true_iff in H as [Hc Hw].
  rewrite (IH Hw), orb_false_r.
  destruct (Ascii.eqb_spec c nl) as [->|]; [discriminate Hc | reflexivity].
Qed.

(** Splitting at a whitespace character splits the word list. *)
Lemma split_aux_space (a : string) (c : ascii) (b cur : string) :
  isspace c = true ->
  split_aux (a ++ String c b) cur = split_aux a cur ++ split_aux b "".
Proof.
  intros Hc. revert cur.
  induction a as [|x a IH]; intros cur; simpl.
  - rewrite Hc. destruct (is_empty cur); reflexivity.
  - destruct (isspace x); [destruct (is_empty cur)|]; simpl; now rewrite IH.
Qed.

Lemma split_space (a : string) (c : ascii) (b : string) :
  isspace c = true -> split (a ++ String c b) = split a ++ split b.
Proof. intros Hc. unfold split. now apply split_aux_space. Qed.

Lemma split_aux_no_space (w cur : string) :
  no_space w = true ->
  split_aux w cur = if is_empty (cur ++ w) then [] else [(cur ++ w)%string].
Proof.
  revert cur. induction w as [|c w IH]; intros cur H; simpl.
  - now rewrite str_app_empty_r.
  - simpl in H. apply andb_true_iff in H as [Hc Hw].
    apply negb_true_iff in Hc. rewrite Hc.
    rewrite (IH _ Hw), str_app_assoc. reflexivity.
Qed.

Lemma split_word (w : string) : is_word w = true -> split w = [w].
Proof.
  unfold is_word, split. intros H. apply andb_true_iff in H as [He Hw].
  rewrite (split_aux_no_space _ _ Hw). simpl.
  apply negb_true_iff in He. now rewrite He.
Qed.

Lemma split_aux_words (s cur : string) :
  no_space cur = true ->
  Forall (fun w => is_word w = true) (split_aux s cur).
Proof.
  revert cur. induction s as [|c s IH]; intros cur Hcur; simpl.
  - destruct (is_empty cur) eqn:E; constructor; [|constructor].
    unfold is_word. now rewrite E, Hcur.
  - destruct (isspace c) eqn:Hc.
    + destruct (is_empty cur) eqn:E; [now apply IH|].
      constructor; [|now apply IH]. unfold is_word. now rewrite E, Hcur.
    + apply IH. rewrite no_space_app, Hcur. simpl. now rewrite Hc.
Qed.

Lemma split_words (s : string) : Forall (fun w => is_word w = true) (split s).
Proof. now apply split_aux_words. Qed.

Lemma concat_cons2 (sep x y : string) (l : list string) :
  concat sep (x :: y :: l) = (x ++ sep ++ concat sep (y :: l))%string.
Proof. reflexivity. Qed.

Lemma split_concat_newline (lines : list string) :
  split (concat newline lines) = flat_map split lines.
Proof.
  induction lines as [|x [|y l] IH].
  - reflexivity.
  - simpl. now rewrite app_nil_r.
  - rewrite concat_cons2. set (rest := concat newline (y :: l)) in *.
    change (x ++ newline ++ rest)%string with (x ++ String nl rest)%string.
    rewrite split_space by reflexivity.
    rewrite IH. reflexivity.
Qed.

(** Fields of [split_on]. *)
Lemma split_on_aux_no_sep (sep : ascii) (l cur : string) :
  has_char sep l = false -> split_on_aux sep l cur = [(cur ++ l)%string].
Proof.
  revert cur. induction l as [|c l IH]; intros cur H; simpl.
  - now rewrite str_app_empty_r.
  - simpl in H. apply orb_false_iff in H as [Hc Hl].
    rewrite Hc, (IH _ Hl), str_app_assoc. reflexivity.
Qed.

Lemma split_on_aux_sep (sep : ascii) (l rest cur : string) :
  has_char sep l = false ->
  split_on_aux sep (l ++ String sep rest) cur
  = (cur ++ l)%string :: split_on_aux sep rest "".
Proof.
  revert cur. induction l as [|c l IH]; intros cur H; simpl.
  - now rewrite Ascii.eqb_refl, str_app_empty_r.
  - simpl in H. apply orb_false_iff in H as [Hc Hl].
    rewrite Hc, (IH _ Hl), str_app_assoc. reflexivity.
Qed.

Lemma split_on_concat (sep : ascii) (lines : list string) :
  lines <> [] ->
  Forall (fun l => has_char sep l = false) lines ->
  split_on sep (concat (String sep "") lines) = lines.
Proof.
  intros Hne Hall. induction lines as [|x [|y l] IH]; [congruence| |].
  - simpl. unfold split_on. inversion Hall; subst.
    now rewrite split_on_aux_no_sep.
  - rewrite concat_cons2. set (rest := concat (String sep "") (y :: l)) in *.
    change (x ++ String sep "" ++ rest)%string with (x ++ String sep rest)%string.
    unfold split_on. inversion Hall; subst.
    rewrite split_on_aux_sep by assumption.
    f_equal. apply IH; [discriminate | assumption].
Qed.

Lemma split_on_aux_length (sep : ascii) (s cur : string) :
  Forall (fun l => String.length l <= String.length cur + String.length s)%nat
         (split_on_aux sep s cur).
Proof.
  revert cur. induction s as [|c s IH]; intros cur; simpl.
  - constructor; [lia | constructor].
  - destruct (Ascii.eqb c sep).
    + constructor; [lia|].
      eapply Forall_impl; [|apply (IH "")]. simpl. intros; lia.
    + eapply Forall_impl; [|apply (IH (cur ++ String c "")%string)].
      intros a Ha. rewrite str_app_length in Ha. simpl in Ha. lia.
Qed.

(** [prefix] and [contains] against concatenation. *)
Lemma prefix_app (a b : string) :
  prefix a b = true <-> exists suf, b = (a ++ suf)%string.
Proof.
  revert b. induction a as [|c a IH]; intros b.
  - split; [intros _; now exists b | intros _; destruct b; reflexivity].
  - destruct b as [|d b]; simpl.
    + split; [discriminate | intros [suf H]; discriminate].
    + destruct (ascii_dec c d) as [->|Hne].
      * rewrite IH. split; intros [suf H]; exists suf; [now rewrite H | now inversion H].
      * split; [discriminate | intros [suf H]; inversion H; congruence].
Qed.

Lemma contains_app (a b : string) :
  contains a b = true <-> exists pre suf, b = (pre ++ a ++ suf)%string.
Proof.
  induction b as [|d b IH].
  - unfold contains. rewrite orb_false_r, prefix_app. split.
    + intros [suf H]. now exists "", suf.
    + intros [pre [suf H]]. destruct pre; [now exists suf|discriminate].
  - change (contains a (String d b))
      with (prefix a (String d b) || contains a b).
    rewrite orb_true_iff, prefix_app, IH. split.
    + intros [[suf H]|[pre [suf H]]].
      * now exists "", suf.
      * exists (String d pre), suf. simpl. now rewrite H.
    + intros [pre [suf H]]. destruct pre as [|x pre].
      * left. now exists suf.
      * right. exists pre, suf. now inversion H.
Qed.

End StringFacts.

(** ** Label wrapping *)

Section LabelFacts.
Import PyStr Labels.

Lemma word_good_line (w : string) : is_word w = true -> good_line w = true.
Proof.
  intros H. unfold good_line. rewrite H, orb_true_r, andb_true_r.
  unfold is_word in H. apply andb_true_iff in H as [He Hn].
  now rewrite He, (no_space_no_nl _ Hn).
Qed.

Lemma close_lines_split (lines : list string) (cur : string) :
  flat_map split (close_lines lines cur) = flat_map split lines ++ split cur.
Proof.
  unfold close_lines. destruct (is_empty cur) eqn:E; simpl.
  - apply is_empty_true in E. subst. simpl. now rewrite app_nil_r.
  - rewrite flat_map_app. simpl. now rewrite app_nil_r.
Qed.

(** The loop keeps the words, in order. *)
Lemma wrap_loop_words (words lines : list string) (cur : string) :
  Forall (fun w => is_word w = true) words ->
  flat_map split (close_lines (fst (wrap_loop words lines cur))
                              (snd (wrap_loop words lines cur)))
  = flat_map split lines ++ split cur ++ words.
Proof.
  intros Hw. revert lines cur.
  induction Hw as [|w words Hword _ IH]; intros lines cur.
  - simpl. now rewrite close_lines_split, app_nil_r.
  - simpl wrap_loop. destruct (is_empty cur) eqn:E; simpl negb; cbv iota.
    + simpl andb. cbv iota. rewrite IH. apply is_empty_true in E. subst.
      now rewrite (split_word _ Hword).
    + destruct (20 <? _)%nat; simpl andb; cbv iota; rewrite IH.
      * rewrite flat_map_app. simpl. rewrite app_nil_r, <- app_assoc.
        now rewrite (split_word _ Hword).
      * change (cur ++ " " ++ w)%string with (cur ++ String " " w)%string.
        rewrite split_space by reflexivity.
        rewrite (split_word _ Hword), <- app_assoc. reflexivity.
Qed.

Lemma close_lines_good (lines : list string) (cur : string) :
  Forall (fun l => good_line l = true) lines ->
  cur = "" \/ good_line cur = true ->
  Forall (fun l => good_line l = true) (close_lines lines cur).
Proof.
  intros Hl Hc. unfold close_lines. destruct (is_empty cur) eqn:E; simpl.
  - assumption.
  - apply Forall_app. split; [assumption|]. constructor; [|constructor].
    destruct Hc as [->|Hc]; [discriminate E | assumption].
Qed.

(** Every line the loop closes is a good line. *)
Lemma wrap_loop_good (words lines : list string) (cur : string) :
  Forall (fun w => is_word w = true) words ->
  Forall (fun l => good_line l = true) lines ->
  cur = "" \/ good_line cur = true ->
  Forall (fun l => good_line l = true)
         (close_lines (fst (wrap_loop words lines cur))
                      (snd (wrap_loop words lines cur))).
Proof.
  intros Hw. revert lines cur.
  induction Hw as [|w words Hword _ IH]; intros lines cur Hl Hc.
  - simpl. now apply close_lines_good.
  - simpl wrap_loop. destruct (is_empty cur) eqn:E; simpl negb; cbv iota.
    + simpl andb. cbv iota. apply IH; [assumption|].
      right. now apply word_good_line.
    + destruct Hc as [->|Hc]; [discriminate E|].
      destruct (20 <? _)%nat eqn:Hlen; simpl andb; cbv iota; apply IH.
      * apply Forall_app. split; [assumption|]. now repeat constructor.
      * right. now apply word_good_line.
      * assumption.
      * right. unfold good_line.
        apply Nat.ltb_ge in Hlen. apply Nat.leb_le in Hlen. rewrite Hlen.
        rewrite is_empty_app, E. simpl andb.
        rewrite !has_char_app.
        unfold good_line in Hc.
        apply andb_true_iff in Hc as [Hc _].
        apply andb_true_iff in Hc as [_ Hc]. apply negb_true_iff in Hc.
        rewrite Hc. simpl.
        unfold is_word in Hword. apply andb_true_iff in Hword as [_ Hn].
        now rewrite (no_space_no_nl _ Hn).
Qed.

Lemma wrap_lines_words (text : string) :
  flat_map split (wrap_lines text) = split text.
Proof.
  unfold wrap_lines.
  pose proof (wrap_loop_words (split text) [] "" (split_words text)) as H.
  destruct (wrap_loop (split text) [] "") as [ls c]. exact H.
Qed.

Lemma wrap_lines_good (text : string) :
  Forall (fun l => good_line l = true) (wrap_lines text).
Proof.
  unfold wrap_lines.
  pose proof (wrap_loop_good (split text) [] "" (split_words text)
                (Forall_nil _) (or_introl eq_refl)) as H.
  destruct (wrap_loop (split text) [] "") as [ls c]. exact H.
Qed.

(** The wrapping code keeps the words. *)
Lemma wrap_words (text : string) : split (wrap text) = split text.
Proof.
  unfold wrap. destruct (String.length text <=? 20)%nat; [reflexivity|].
  now rewrite split_concat_newline, wrap_lines_words.
Qed.

Lemma wrap_short (text : string) :
  (String.length text <= 20)%nat -> wrap text = text.
Proof. intros H. unfold wrap. apply Nat.leb_le in H. now rewrite H. Qed.

(** Every line of the wrapped text is within 20 characters or is one word. *)
Lemma wrap_line_lengths (text : string) :
  Forall (fun l => (String.length l <= 20)%nat
                   \/ ((20 < String.length l)%nat /\ split l = [l]))
         (lines_of (wrap text)).
Proof.
  unfold wrap. destruct (String.length text <=? 20)%nat eqn:Hlen.
  - apply Nat.leb_le in Hlen.
    eapply Forall_impl; [|apply (split_on_aux_length nl text "")].
    simpl. intros l Hl. left. lia.
  - pose proof (wrap_lines_good text) as Hg.
    destruct (wrap_lines text) as [|l0 ls] eqn:E.
    + constructor; [left; simpl; lia | constructor].
    + unfold lines_of, newline. rewrite split_on_concat.
      * eapply Forall_impl; [|exact Hg]. intros l Hl. unfold good_line in Hl.
        apply andb_true_iff in Hl as [_ Hl]. apply orb_true_iff in Hl.
        destruct (Nat.le_gt_cases (String.length l) 20) as [Hle|Hgt];
          [now left|right].
        split; [exact Hgt|].
        destruct Hl as [Hl|Hl]; [apply Nat.leb_le in Hl; lia|].
        now apply split_word.
      * discriminate.
      * eapply Forall_impl; [|exact Hg]. intros l Hl. unfold good_line in Hl.
        apply andb_true_iff in Hl as [Hl _].
        apply andb_true_iff in Hl as [_ Hl]. now apply negb_true_iff in Hl.
Qed.

End LabelFacts.

(** ** Validation *)

Section ValidateFacts.
Import Validate.

Lemma dicts_of_some (l : list pyval) (items : list dict) :
  dicts_of l = Some items <-> l = map PDict items.
Proof.
  revert items. induction l as [|v l IH]; intros items; simpl.
  - split.
    + intros H. now inversion H.
    + destruct items; [reflexivity | discriminate].
  - destruct v; try (split; [discriminate | destruct items; discriminate]).
    destruct (dicts_of l) as [ds|] eqn:E.
    + split.
      * intros H. inversion H; subst. simpl. f_equal. now apply IH.
      * destruct items as [|i items]; [discriminate|].
        simpl. intros H. inversion H; subst.
        assert (Some ds = Some items) as Hs by now apply IH.
        now inversion Hs.
    + split; [discriminate|].
      destruct items as [|i items]; [discriminate|].
      simpl. intros H. inversion H; subst.
      assert (None = Some items) as Hs by now apply IH.
      discriminate.
Qed.

Lemma filter_nil_existsb {A} (f : A -> bool) (l : list A) :
  filter f l = [] <-> existsb f l = false.
Proof.
  induction l as [|a l IH]; simpl; [tauto|].
  destruct (f a); simpl; [split; discriminate | exact IH].
Qed.

Lemma check_item_ok (i : nat) (item : dict) (cols : list string) :
  existsb (fun col => value_missing (get_or_none item col)) cols = false ->
  check_item i item cols = Return tt.
Proof.
  induction cols as [|col cols IH]; simpl; [reflexivity|].
  intros H. apply orb_false_iff in H as [Hc Hr]. rewrite Hc. now apply IH.
Qed.

Lemma check_item_raises (i : nat) (item : dict) (cols : list string) :
  existsb (fun col => value_missing (get_or_none item col)) cols = true ->
  exists col, In col cols
              /\ value_missing (get_or_none item col) = true
              /\ check_item i item cols = Raise (ValueError_missing_value (i + 1) col).
Proof.
  induction cols as [|col cols IH]; simpl; [discriminate|].
  destruct (value_missing (get_or_none item col)) eqn:E; simpl.
  - intros _. exists col. auto.
  - intros H. destruct (IH H) as [c [Hin [Hm Hr]]]. exists c. auto.
Qed.

Lemma check_items_ok (i : nat) (items : list dict) :
  existsb (fun item =>
             existsb (fun col => value_missing (get_or_none item col))
                     required_columns) items = false ->
  check_items i items = Return tt.
Proof.
  revert i. induction items as [|item items IH]; intros i;
    cbn -[required_columns]; [reflexivity|].
  intros H. apply orb_false_iff in H as [Hc Hr].
  rewrite (check_item_ok i item _ Hc). cbn -[required_columns]. now apply IH.
Qed.

Lemma check_items_raises (i : nat) (items : list dict) :
  existsb (fun item =>
             existsb (fun col => value_missing (get_or_none item col))
                     required_columns) items = true ->
  exists row col, check_items i items = Raise (ValueError_missing_value row col).
Proof.
  revert i. induction items as [|item items IH]; intros i;
    cbn -[required_columns]; [discriminate|].
  destruct (existsb (fun col => value_missing (get_or_none item col))
                    required_columns) eqn:E.
  - intros _. destruct (check_item_raises i item _ E) as [c [_ [_ Hr]]].
    rewrite Hr. cbn. eauto.
  - cbn -[required_columns]. intros H. rewrite (check_item_ok i item _ E).
    cbn -[required_columns]. now apply IH.
Qed.

(** The call leaves the data as it found it. *)
Lemma validate_data_reads_only (data : pyval) : snd (validate_data data) = data.
Proof.
  unfold validate_data, pbind, load, raise, ret, lift.
  destruct (negb (truthy data)); [reflexivity|].
  destruct data; try reflexivity.
  destruct (dicts_of l) as [[|first items]|]; try reflexivity.
  destruct (missing_columns first); [|reflexivity].
  destruct (check_items 0 (first :: items)); reflexivity.
Qed.

Lemma validate_rejects (data : pyval) :
  rejected_by value_missing data = true ->
  exists e, validate data = Raise e /\ is_ValueError e = true.
Proof.
  unfold rejected_by, validate, validate_data, pbind, load, raise, ret, lift.
  destruct (negb (truthy data)) eqn:T.
  { intros _. eexists. split; reflexivity. }
  rewrite orb_false_l.
  destruct data; try (intros _; eexists; split; reflexivity).
  destruct (dicts_of l) as [[|first items]|] eqn:D;
    try (intros _; eexists; split; reflexivity).
  { apply dicts_of_some in D. subst. discriminate T. }
  intros H. apply orb_true_iff in H.
  destruct (missing_columns first) as [|c cs] eqn:M.
  - destruct H as [H|H].
    + apply filter_nil_existsb in M. unfold dict_keys in *. congruence.
    + destruct (check_items_raises 0 _ H) as [row [col Hr]].
      rewrite Hr. eexists. split; reflexivity.
  - eexists. split; reflexivity.
Qed.

Lemma validate_accepts (data : pyval) :
  rejected_by value_missing data = false ->
  validate data = Return true.
Proof.
  unfold rejected_by, validate, validate_data, pbind, load, raise, ret, lift.
  destruct (negb (truthy data)) eqn:T; [discriminate|]. rewrite orb_false_l.
  destruct data; try discriminate.
  destruct (dicts_of l) as [[|first items]|] eqn:D; try discriminate.
  intros H. apply orb_false_iff in H as [Hm Hv].
  apply filter_nil_existsb in Hm. unfold missing_columns. rewrite Hm.
  now rewrite (check_items_ok 0 _ Hv).
Qed.

Lemma get_or_none_present (item : dict) (col : string) :
  value_missing (get_or_none item col) = false ->
  exists v, dict_get item col = Some v /\ value_missing v = false.
Proof.
  unfold get_or_none. destruct (dict_get item col) as [v|]; [|discriminate].
  intros H. now exists v.
Qed.

End ValidateFacts.

Section ValidateClaims.
Import Validate.

(** C1, as stated, fails: [validate_data] returns [True] on a one-record
    list whose [Start] is 5 and whose [End] is 2. *)
Lemma validate_accepts_late_start :
  validate late_start_data = Return true
  /\ late_start_data = PList (map PDict [late_start_item])
  /\ forallb start_le_end [late_start_item] = false.
Proof. repeat split. Qed.

(** C1, amended: when [validate_data] returns [True] the data is a
    non-empty list of records, and every record holds, for each of the five
    required columns, a value that is not missing.  The order of [Start]
    and [End] is not examined. *)
Theorem validate_accepted_records (data : pyval) :
  validate data = Return true ->
  exists items,
    data = PList (map PDict items)
    /\ items <> []
    /\ Forall (fun item =>
                 Forall (fun col =>
                           exists v, dict_get item col = Some v
                                     /\ value_missing v = false)
                        required_columns)
              items.
Proof.
  intros Hv. destruct (rejected_by value_missing data) eqn:R.
  { destruct (validate_rejects data R) as [e [He _]]. congruence. }
  unfold rejected_by in R. apply orb_false_iff in R as [_ R].
  destruct data; try discriminate.
  destruct (dicts_of l) as [[|first items]|] eqn:D; try discriminate.
  apply orb_false_iff in R as [_ R].
  exists (first :: items). split; [|split].
  - f_equal. now apply dicts_of_some.
  - discriminate.
  - apply Forall_forall. intros item Hin. apply Forall_forall. intros col Hc.
    apply get_or_none_present.
    destruct (value_missing (get_or_none item col)) eqn:E; [|reflexivity].
    assert (existsb (fun item =>
                       existsb (fun col => value_missing (get_or_none item col))
                               required_columns) (first :: items) = true)
      as Hx; [|congruence].
    apply existsb_exists. exists item. split; [assumption|].
    apply existsb_exists. exists col. split; assumption.
Qed.

Lemma validate_accepted_records_witness :
  exists items,
    late_start_data = PList (map PDict items)
    /\ items <> []
    /\ Forall (fun item =>
                 Forall (fun col =>
                           exists v, dict_get item col = Some v
                                     /\ value_missing v = false)
                        required_columns)
              items.
Proof. apply (validate_accepted_records late_start_data). reflexivity. Defined.

(** C2, as stated, fails: a [Task] holding one space is none of [None],
    the empty string, NaN or an empty sequence, and the call raises. *)
Lemma validate_rejects_blank_text :
  rejected_by listed_missing blank_task_data = false
  /\ validate blank_task_data = Raise (ValueError_missing_value 1 "Task").
Proof. split; reflexivity. Qed.

(** C2, amended: [validate_data] raises a [ValueError] exactly when the
    input is empty, is not a list of dictionaries, the first record lacks a
    required column, or some record lacks, or holds [None], a text that is
    empty after [strip()], NaN, or an empty list or dictionary for, a
    required column; on every other input it returns [True]; in both cases
    the data is left as it was. *)
Theorem validate_data_raises_exactly (data : pyval) :
  exists e,
    is_ValueError e = true
    /\ validate_data data
       = (if rejected_by value_missing data then Raise e else Return true,
          data).
Proof.
  pose proof (validate_data_reads_only data) as Hs.
  destruct (rejected_by value_missing data) eqn:R.
  - destruct (validate_rejects data R) as [e [He Hv]].
    exists e. split; [assumption|].
    unfold validate in He. destruct (validate_data data) as [r st].
    simpl in *. congruence.
  - exists ValueError_no_data. split; [reflexivity|].
    pose proof (validate_accepts data R) as He.
    unfold validate in He. destruct (validate_data data) as [r st].
    simpl in *. congruence.
Qed.

End ValidateClaims.

Section LabelClaims.
Import PyStr Labels.

Lemma partition_none (sep s : string) :
  partition sep s = None <-> contains sep s = false.
Proof.
  induction s as [|c s IH].
  - unfold partition, contains. destruct (prefix sep ""); simpl;
      split; congruence.
  - change (partition sep (String c s))
      with (if prefix sep (String c s)
            then Some ("", substring (String.length sep)
                             (String.length (String c s) - String.length sep)
                             (String c s))
            else match partition sep s with
                 | Some (before, after) => Some (String c before, after)
                 | None => None
                 end).
    change (contains sep (String c s))
      with (prefix sep (String c s) || contains sep s).
    destruct (prefix sep (String c s)); simpl; [split; discriminate|].
    rewrite <- IH. destruct (partition sep s) as [[a b]|];
      split; congruence.
Qed.

Lemma substring_all (s : string) : substring 0 (String.length s) s = s.
Proof. induction s as [|c s IH]; simpl; [reflexivity | now rewrite IH]. Qed.

Lemma prefix_split (a b : string) :
  prefix a b = true ->
  b = (a ++ substring (String.length a) (String.length b - String.length a) b)%string.
Proof.
  revert b. induction a as [|c a IH]; intros b H.
  - simpl. now rewrite Nat.sub_0_r, substring_all.
  - destruct b as [|d b]; [discriminate|]. simpl in H.
    destruct (ascii_dec c d) as [->|]; [|discriminate].
    simpl. f_equal. now apply IH.
Qed.

Lemma partition_unfold (sep : string) (c : ascii) (s : string) :
  partition sep (String c s)
  = if prefix sep (String c s)
    then Some ("", substring (String.length sep)
                             (String.length (String c s) - String.length sep)
                             (String c s))
    else match partition sep s with
         | Some (before, after) => Some (String c before, after)
         | None => None
         end.
Proof. reflexivity. Qed.

(** [partition] cuts the text at the first occurrence of the separator. *)
Lemma partition_first (sep s before after : string) :
  partition sep s = Some (before, after) ->
  s = (before ++ sep ++ after)%string
  /\ forall pre suf, s = (pre ++ sep ++ suf)%string ->
                     (String.length before <= String.length pre)%nat.
Proof.
  revert before. induction s as [|c s IH]; intros before H.
  - unfold partition in H. destruct (prefix sep "") eqn:P; [|discriminate].
    inversion H; subst. split; [|intros; simpl; lia].
    now apply prefix_split in P.
  - rewrite partition_unfold in H.
    destruct (prefix sep (String c s)) eqn:P.
    + inversion H; subst. split; [|intros; simpl; lia].
      now apply prefix_split in P.
    + destruct (partition sep s) as [[b' a']|] eqn:E; [|discriminate].
      inversion H; subst. destruct (IH b' eq_refl) as [Hs Hfirst]. split.
      * simpl. now rewrite <- Hs.
      * intros pre suf Hp. destruct pre as [|x pre].
        -- assert (prefix sep (String c s) = true) as P'
              by (apply prefix_app; now exists suf).
           congruence.
        -- simpl in Hp. inversion Hp; subst. simpl.
           apply le_n_S. now apply (Hfirst pre suf).
Qed.

(** C6, as stated, fails for the work-package label: a name of 11
    characters comes back changed, and with other words. *)
Lemma format_wp_name_rewrites_colon :
  (String.length wp_design <= 20)%nat
  /\ format_wp_name wp_design = "WP1\Design"
  /\ format_wp_name wp_design <> wp_design
  /\ split (format_wp_name wp_design) <> split wp_design.
Proof. repeat split; try discriminate. vm_compute. lia. Qed.

(** C6, amended: [format_milestone_name] keeps the word sequence of every
    input, returns an input of at most 20 characters unchanged, and every
    line of its output is at most 20 characters long or is a single word
    longer than 20.  [format_wp_name] first replaces the first ": " of the
    name by a backslash and then wraps the result in the same way: the
    three properties hold with respect to the rewritten name, which is the
    name itself when it contains no ": ". *)
Theorem label_wrapping (text : string) :
  (split (format_milestone_name text) = split text
   /\ ((String.length text <= 20)%nat -> format_milestone_name text = text)
   /\ Forall (fun l => (String.length l <= 20)%nat
                       \/ ((20 < String.length l)%nat /\ split l = [l]))
             (lines_of (format_milestone_name text)))
  /\ (split (format_wp_name text) = split (formatted text)
      /\ ((String.length (formatted text) <= 20)%nat ->
          format_wp_name text = formatted text)
      /\ Forall (fun l => (String.length l <= 20)%nat
                          \/ ((20 < String.length l)%nat /\ split l = [l]))
                (lines_of (format_wp_name text)))
  /\ (contains ": " text = false -> formatted text = text)
  /\ (forall before after,
        partition ": " text = Some (before, after) ->
        text = (before ++ ": " ++ after)%string
        /\ formatted text = (before ++ "\" ++ after)%string
        /\ forall pre suf,
             text = (pre ++ ": " ++ suf)%string ->
             (String.length before <= String.length pre)%nat).
Proof.
  unfold format_wp_name, format_milestone_name.
  split; [|split; [|split]].
  - split; [apply wrap_words|]. split; [apply wrap_short|].
    apply wrap_line_lengths.
  - split; [apply wrap_words|]. split; [apply wrap_short|].
    apply wrap_line_lengths.
  - intros H. apply partition_none in H. unfold formatted. now rewrite H.
  - intros before after H.
    destruct (partition_first _ _ _ _ H) as [Hs Hfirst].
    split; [assumption|]. split; [|assumption].
    unfold formatted. now rewrite H.
Qed.

Lemma label_wrapping_witness :
  format_milestone_name wp_design = wp_design
  /\ format_wp_name wp_design = formatted wp_design
  /\ formatted long_label = long_label
  /\ formatted wp_design = "WP1\Design".
Proof.
  split; [|split; [|split]].
  - apply (proj1 (proj2 (proj1 (label_wrapping wp_design)))). vm_compute. lia.
  - apply (proj1 (proj2 (proj1 (proj2 (label_wrapping wp_design))))).
    vm_compute. lia.
  - apply (proj1 (proj2 (proj2 (label_wrapping long_label)))). reflexivity.
  - apply (proj2 (proj2 (proj2 (label_wrapping wp_design))) "WP1" "Design").
    reflexivity.
Defined.

End LabelClaims.

(** ** The CSV converter *)

Section ConvertFacts.
Import Convert.

Variable int_of_str : string -> option Z.

Lemma bind_return {A B} (r : result A) (k : A -> result B) (b : B) :
  bind r k = Return b -> exists a, r = Return a /\ k a = Return b.
Proof. destruct r as [a|e]; simpl; [eauto | discriminate]. Qed.

Lemma convert_row_type (task_type : string) (row : csv_row) (task : item) :
  convert_row int_of_str task_type row = Return task ->
  exists s e,
    py_int int_of_str (Task_Start_Month row) = Return s
    /\ py_int int_of_str (Task_End_Month row) = Return e
    /\ Start task = s /\ End_ task = e
    /\ Type_ task = if (s =? e)%Z then "Milestone" else task_type.
Proof.
  unfold convert_row. intros H.
  apply bind_return in H as [s [Hs H]].
  apply bind_return in H as [e [He H]].
  apply bind_return in H as [wp [_ H]].
  apply bind_return in H as [number [_ H]].
  apply bind_return in H as [name [_ H]].
  inversion H; subst; simpl. exists s, e.
  repeat split; try assumption. now destruct (s =? e)%Z.
Qed.

Lemma convert_row_plain (task_type : string) (row : csv_row) :
  plain_row row = true ->
  exists task, convert_row int_of_str task_type row = Return task.
Proof.
  unfold plain_row, convert_row. destruct row as [n m s e w]; simpl.
  destruct s; try discriminate. destruct e; try discriminate.
  destruct n; try discriminate. destruct m; try discriminate.
  destruct w as [w|zw|[| |q]|b]; try discriminate; intros _; simpl; eauto.
Qed.

Lemma convert_rows_plain (task_type : string) (rows : list csv_row) :
  forallb plain_row rows = true ->
  exists tasks, convert_rows int_of_str task_type rows = Return tasks.
Proof.
  induction rows as [|row rows IH]; simpl; [eauto|].
  intros H. apply andb_true_iff in H as [Hr Hrs].
  destruct (convert_row_plain task_type row Hr) as [t Ht].
  destruct (IH Hrs) as [ts Hts]. rewrite Ht, Hts. simpl. eauto.
Qed.

Lemma rows_converted_types (task_type : string) (rows : list csv_row)
      (tasks : list item) :
  convert_rows int_of_str task_type rows = Return tasks ->
  Forall2 (fun row task =>
             exists s e,
               py_int int_of_str (Task_Start_Month row) = Return s
               /\ py_int int_of_str (Task_End_Month row) = Return e
               /\ Start task = s /\ End_ task = e
               /\ Type_ task = if (s =? e)%Z then "Milestone" else task_type)
          rows tasks.
Proof.
  revert tasks. induction rows as [|row rows IH]; intros tasks; simpl.
  - intros H. inversion H. constructor.
  - intros H. apply bind_return in H as [t [Ht H]].
    apply bind_return in H as [ts [Hts H]]. inversion H; subst.
    constructor; [now apply convert_row_type | now apply IH].
Qed.

End ConvertFacts.

Section ConvertClaims.
Import Convert.

(** C3, as stated, fails: with the default type set to "Milestone" (one of
    the two values the option accepts) a row running from month 1 to month
    3 is emitted as a milestone. *)
Lemma convert_unequal_months_milestone :
  exists task,
    convert_rows int_of_digits "Milestone" [design_row] = Return [task]
    /\ Type_ task = "Milestone"
    /\ Task_Start_Month design_row = CInt 1
    /\ Task_End_Month design_row = CInt 3.
Proof. eexists. repeat split. Qed.

(** C3, amended: the converter emits one record per data row, in order;
    the record's [Type] is "Milestone" when the row's start and end months
    (read with [int]) are equal and the configured default type otherwise.
    Hence [Type] is "Milestone" exactly for the rows with equal months
    whenever the default type is not itself "Milestone".  Rows of whole
    month numbers and text cells are always converted. *)
Theorem convert_rows_type (int_of_str : string -> option Z)
        (task_type : string) (rows : list csv_row) :
  (forallb plain_row rows = true ->
   exists tasks, convert_rows int_of_str task_type rows = Return tasks)
  /\ (forall tasks,
        convert_rows int_of_str task_type rows = Return tasks ->
        Forall2 (fun row task =>
                   exists s e,
                     py_int int_of_str (Task_Start_Month row) = Return s
                     /\ py_int int_of_str (Task_End_Month row) = Return e
                     /\ Start task = s /\ End_ task = e
                     /\ Type_ task
                        = (if (s =? e)%Z then "Milestone" else task_type)
                     /\ (task_type <> "Milestone" ->
                         (Type_ task = "Milestone" <-> s = e)))
                rows tasks).
Proof.
  split; [apply convert_rows_plain|].
  intros tasks H. apply rows_converted_types in H.
  eapply Forall2_impl; [|exact H]. simpl.
  intros row task [s [e [Hs [He [Hst [Hen Hty]]]]]].
  exists s, e. repeat split; try assumption.
  - intros Hm. rewrite Hty in Hm.
    destruct (Z.eqb_spec s e); [assumption | contradiction].
  - intros Heq. rewrite Hty. apply Z.eqb_eq in Heq. now rewrite Heq.
Qed.

Lemma convert_rows_type_witness :
  (exists tasks,
     convert_rows int_of_digits "Task" [design_row; review_row] = Return tasks)
  /\ Forall2 (fun row task =>
                exists s e,
                  py_int int_of_digits (Task_Start_Month row) = Return s
                  /\ py_int int_of_digits (Task_End_Month row) = Return e
                  /\ Start task = s /\ End_ task = e
                  /\ Type_ task = (if (s =? e)%Z then "Milestone" else "Task")
                  /\ ("Task" <> "Milestone" ->
                      (Type_ task = "Milestone" <-> s = e)))
             [design_row; review_row] [design_task; review_task].
Proof.
  split.
  - apply (proj1 (convert_rows_type int_of_digits "Task"
                    [design_row; review_row])).
    reflexivity.
  - apply (proj2 (convert_rows_type int_of_digits "Task"
                    [design_row; review_row])).
    reflexivity.
Defined.

End ConvertClaims.

(** ** Dictionaries and the list of work packages *)

Section DictFacts.
Import Chart.

Lemma existsb_eqb_in (x : string) (l : list string) :
  existsb (String.eqb x) l = true <-> In x l.
Proof.
  rewrite existsb_exists. split.
  - intros [y [Hin Heq]]. apply String.eqb_eq in Heq. now subst.
  - intros H. exists x. split; [assumption | apply String.eqb_refl].
Qed.

Lemma unique_aux_in (seen l : list string) (x : string) :
  In x (unique_aux seen l) <-> In x l /\ ~ In x seen.
Proof.
  revert seen. induction l as [|y l IH]; intros seen; simpl.
  - tauto.
  - destruct (existsb (String.eqb y) seen) eqn:E.
    + apply existsb_eqb_in in E. rewrite IH. split.
      * intros [H1 H2]. auto.
      * intros [[->|H1] H2]; [contradiction | auto].
    + assert (~ In y seen) as Hy.
      { intros H. apply existsb_eqb_in in H. congruence. }
      simpl. rewrite IH. simpl. split.
      * intros [->|[H1 H2]]; [auto|]. split; [auto|]. intros H. apply H2. auto.
      * intros [[->|H1] H2]; [auto|].
        destruct (string_dec y x) as [->|Hne]; [auto|].
        right. split; [assumption|]. intros [H|H]; auto.
Qed.

Lemma unique_aux_nodup (seen l : list string) : NoDup (unique_aux seen l).
Proof.
  revert seen. induction l as [|y l IH]; intros seen; simpl.
  - constructor.
  - destruct (existsb (String.eqb y) seen); [apply IH|].
    constructor; [|apply IH].
    rewrite unique_aux_in. intros [_ H]. apply H. now left.
Qed.

Lemma unique_in (l : list string) (x : string) : In x (unique l) <-> In x l.
Proof. unfold unique. rewrite unique_aux_in. simpl. tauto. Qed.

Lemma unique_nodup (l : list string) : NoDup (unique l).
Proof. apply unique_aux_nodup. Qed.

Lemma dict_get_in_keys {V} (d : list (string * V)) (k : string) :
  In k (dict_keys d) -> exists v, dict_get d k = Some v.
Proof.
  induction d as [|[k' v'] d IH]; simpl; [contradiction|].
  intros H. destruct (String.eqb_spec k' k) as [->|Hne]; [eauto|].
  destruct H as [H|H]; [contradiction | auto].
Qed.

Lemma dict_get_none {V} (d : list (string * V)) (k : string) :
  ~ In k (dict_keys d) -> dict_get d k = None.
Proof.
  induction d as [|[k' v'] d IH]; simpl; [reflexivity|].
  intros H. destruct (String.eqb_spec k' k) as [->|Hne]; [tauto|].
  apply IH. tauto.
Qed.

Lemma dict_set_fresh {V} (d : list (string * V)) (k : string) (v : V) :
  ~ In k (dict_keys d) -> dict_set d k v = d ++ [(k, v)].
Proof.
  induction d as [|[k' v'] d IH]; simpl; [reflexivity|].
  intros H. destruct (String.eqb_spec k' k) as [->|Hne]; [tauto|].
  rewrite IH; [reflexivity | tauto].
Qed.

Lemma dict_keys_app {V} (d1 d2 : list (string * V)) :
  dict_keys (d1 ++ d2) = dict_keys d1 ++ dict_keys d2.
Proof. apply map_app. Qed.

Lemma dict_of_pairs_fresh {V} (pairs d : list (string * V)) :
  NoDup (dict_keys d ++ dict_keys pairs) ->
  fold_left (fun d kv => dict_set d (fst kv) (snd kv)) pairs d = d ++ pairs.
Proof.
  revert d. induction pairs as [|[k v] pairs IH]; intros d Hnd; simpl.
  - now rewrite app_nil_r.
  - simpl in Hnd. rewrite dict_set_fresh.
    + rewrite IH; [now rewrite <- app_assoc|].
      rewrite dict_keys_app. simpl. now rewrite <- app_assoc.
    + apply NoDup_remove_2 in Hnd. intros H. apply Hnd.
      apply in_or_app. now left.
Qed.

Lemma dict_of_pairs_nodup {V} (pairs : list (string * V)) :
  NoDup (dict_keys pairs) -> dict_of_pairs pairs = pairs.
Proof. intros H. unfold dict_of_pairs. now rewrite dict_of_pairs_fresh. Qed.

Lemma combine_keys {V} (ks : list string) (vs : list V) :
  List.length ks = List.length vs -> dict_keys (combine ks vs) = ks.
Proof.
  revert vs. induction ks as [|k ks IH]; intros [|v vs]; simpl;
    try reflexivity; try discriminate.
  intros H. f_equal. apply IH. now inversion H.
Qed.

Lemma palette_length (n : nat) : List.length (palette n) = n.
Proof. unfold palette. now rewrite length_map, length_seq. Qed.

(** The colour table has one entry per work package, in the order of first
    appearance. *)
Lemma wp_colors_keys (data : list item) :
  dict_keys (wp_colors_of data) = work_packages_of data.
Proof.
  unfold wp_colors_of.
  assert (dict_keys (combine (work_packages_of data)
                             (palette (List.length (work_packages_of data))))
          = work_packages_of data) as Hk.
  { apply combine_keys. now rewrite palette_length. }
  rewrite dict_of_pairs_nodup; [exact Hk|].
  rewrite Hk. apply unique_nodup.
Qed.

Lemma work_packages_in (data : list item) (r : item) :
  In r data -> In (Work_Package r) (work_packages_of data).
Proof.
  intros H. unfold work_packages_of. apply unique_in. now apply in_map.
Qed.

Lemma dict_index_keys {V} (d : list (string * V)) (k : string) :
  In k (dict_keys d) -> exists v, dict_index d k = Return v.
Proof.
  intros H. destruct (dict_get_in_keys d k H) as [v Hv].
  exists v. unfold dict_index. now rewrite Hv.
Qed.

Lemma dict_get_in {V} (d : list (string * V)) (k : string) (v : V) :
  dict_get d k = Some v -> In (k, v) d.
Proof.
  induction d as [|[k' v'] d IH]; simpl; [discriminate|].
  destruct (String.eqb_spec k' k) as [->|Hne].
  - intros H. inversion H. now left.
  - intros H. right. now apply IH.
Qed.

End DictFacts.

(** ** Task bars *)

Section BarFacts.
Import Chart.

Variable wp_colors : list (string * color).
Variable tasks : list item.

Lemma bars_of_app (l1 l2 : list artist) :
  bars_of (l1 ++ l2) = bars_of l1 ++ bars_of l2.
Proof. apply filter_app. Qed.

Lemma bars_of_draw_task (c : color) (y : Z) (t : item) :
  bars_of (draw_task c y t) = [Barh y (duration t) (Start t) c].
Proof.
  unfold draw_task, bars_of. simpl.
  destruct (Qle_bool (1 # 2) (inject_Z (duration t))); reflexivity.
Qed.

Lemma draw_wp_tasks_cons (c : color) (t : item) (l : list item) (y : Z) :
  draw_wp_tasks c (t :: l) y
  = (draw_task c y t ++ fst (draw_wp_tasks c l (y + 1)),
     snd (draw_wp_tasks c l (y + 1))).
Proof. simpl. now destruct (draw_wp_tasks c l (y + 1)). Qed.

Lemma draw_wp_tasks_y (c : color) (l : list item) (y : Z) :
  snd (draw_wp_tasks c l y) = (y + Z.of_nat (List.length l))%Z.
Proof.
  revert y. induction l as [|t l IH]; intros y.
  - simpl. lia.
  - rewrite draw_wp_tasks_cons. cbn [snd List.length]. rewrite IH. lia.
Qed.

Lemma draw_wp_tasks_bars (c : color) (l : list item) (y : Z) :
  Forall2 bar_of_row l (bars_of (fst (draw_wp_tasks c l y))).
Proof.
  revert y. induction l as [|t l IH]; intros y.
  - constructor.
  - rewrite draw_wp_tasks_cons. cbn [fst].
    rewrite bars_of_app, bars_of_draw_task.
    constructor; [now exists y, c | apply IH].
Qed.

(** Task [k] of the package sits at [y + k], in the package's colour. *)
Lemma draw_wp_tasks_nth (c : color) (l : list item) (y : Z) (k : nat) (t : item) :
  nth_error l k = Some t ->
  In (Barh (y + Z.of_nat k) (duration t) (Start t) c)
     (fst (draw_wp_tasks c l y)).
Proof.
  revert y k. induction l as [|t0 l IH]; intros y k H.
  - destruct k; discriminate.
  - rewrite draw_wp_tasks_cons. cbn [fst]. apply in_or_app.
    destruct k as [|k]; simpl in H.
    + inversion H; subst. left. left. f_equal. lia.
    + right. specialize (IH (y + 1)%Z k H).
      replace (y + Z.of_nat (S k))%Z with (y + 1 + Z.of_nat k)%Z by lia.
      exact IH.
Qed.

Lemma draw_wp_tasks_no_lines (c : color) (l : list item) (y : Z) :
  Forall (fun a => is_plot a = false /\ is_vline a = false)
         (fst (draw_wp_tasks c l y)).
Proof.
  revert y. induction l as [|t l IH]; intros y.
  - constructor.
  - rewrite draw_wp_tasks_cons. cbn [fst].
    apply Forall_app. split; [|apply IH]. unfold draw_task.
    destruct (Qle_bool (1 # 2) (inject_Z (duration t)));
      repeat constructor.
Qed.

(** One step of the loop over the work packages. *)
Lemma plot_tasks_skip (wp : string) (rest : list string) (st : bar_state) :
  filter (in_wp wp) tasks = [] ->
  plot_tasks wp_colors tasks (wp :: rest) st
  = plot_tasks wp_colors tasks rest st.
Proof. intros H. simpl. now rewrite H. Qed.

Lemma plot_tasks_step (wp : string) (rest : list string) (st : bar_state)
      (c : color) :
  filter (in_wp wp) tasks <> [] ->
  dict_get wp_colors wp = Some c ->
  plot_tasks wp_colors tasks (wp :: rest) st
  = plot_tasks wp_colors tasks rest
      {| drawn := drawn st
                  ++ fst (draw_wp_tasks c (filter (in_wp wp) tasks) (y_pos st));
         y_pos := y_pos st + Z.of_nat (List.length (filter (in_wp wp) tasks));
         wp_y_ranges :=
           dict_set (wp_y_ranges st) wp
             (y_pos st,
              y_pos st + Z.of_nat (List.length (filter (in_wp wp) tasks)) - 1)%Z |}.
Proof.
  intros Hne Hc. cbn [plot_tasks].
  destruct (filter (in_wp wp) tasks) as [|t ts] eqn:E; [congruence|].
  unfold dict_index. rewrite Hc. cbn [bind].
  remember (t :: ts) as l eqn:El.
  pose proof (draw_wp_tasks_y c l (y_pos st)) as Hy.
  destruct (draw_wp_tasks c l (y_pos st)) as [bars y_end].
  cbn [fst snd] in *. subst y_end. reflexivity.
Qed.

Lemma plot_tasks_missing_color (wp : string) (rest : list string)
      (st : bar_state) :
  filter (in_wp wp) tasks <> [] ->
  dict_get wp_colors wp = None ->
  plot_tasks wp_colors tasks (wp :: rest) st = Raise (KeyError wp).
Proof.
  intros Hne Hc. cbn [plot_tasks].
  destruct (filter (in_wp wp) tasks) as [|t ts] eqn:E; [congruence|].
  unfold dict_index. now rewrite Hc.
Qed.

(** The loop returns when every package has a colour. *)
Lemma plot_tasks_returns (wps : list string) (st : bar_state) :
  (forall wp, In wp wps -> In wp (dict_keys wp_colors)) ->
  exists st', plot_tasks wp_colors tasks wps st = Return st'.
Proof.
  revert st. induction wps as [|wp wps IH]; intros st Hk.
  - simpl. eauto.
  - destruct (filter (in_wp wp) tasks) as [|t ts] eqn:E.
    + rewrite plot_tasks_skip by assumption. apply IH. intros; apply Hk; now right.
    + destruct (dict_get_in_keys wp_colors wp (Hk wp (or_introl eq_refl)))
        as [c Hc].
      rewrite (plot_tasks_step wp wps st c) by (congruence || assumption).
      apply IH. intros; apply Hk; now right.
Qed.

(** The bars added are those of the tasks, package by package. *)
Lemma plot_tasks_bars (wps : list string) (st st' : bar_state) :
  plot_tasks wp_colors tasks wps st = Return st' ->
  exists bs,
    bars_of (drawn st') = bars_of (drawn st) ++ bs
    /\ Forall2 bar_of_row (flat_map (fun wp => filter (in_wp wp) tasks) wps) bs.
Proof.
  revert st. induction wps as [|wp wps IH]; intros st H.
  - simpl in H. inversion H; subst. exists []. rewrite app_nil_r.
    split; [reflexivity | constructor].
  - destruct (filter (in_wp wp) tasks) as [|t ts] eqn:E.
    + rewrite plot_tasks_skip in H by assumption.
      destruct (IH _ H) as [bs [Hb Hf]]. exists bs. simpl. rewrite E. auto.
    + destruct (dict_get wp_colors wp) as [c|] eqn:Hc.
      * rewrite (plot_tasks_step wp wps st c) in H by (congruence || assumption).
        destruct (IH _ H) as [bs [Hb Hf]]. simpl drawn in Hb.
        rewrite bars_of_app in Hb. rewrite E in Hb.
        exists (bars_of (fst (draw_wp_tasks c (t :: ts) (y_pos st))) ++ bs).
        split; [now rewrite app_assoc|].
        simpl flat_map. rewrite E. apply Forall2_app; [|assumption].
        apply draw_wp_tasks_bars.
      * rewrite plot_tasks_missing_color in H by (congruence || assumption).
        discriminate.
Qed.

Lemma plot_tasks_no_lines (wps : list string) (st st' : bar_state) :
  plot_tasks wp_colors tasks wps st = Return st' ->
  Forall (fun a => is_plot a = false /\ is_vline a = false) (drawn st) ->
  Forall (fun a => is_plot a = false /\ is_vline a = false) (drawn st').
Proof.
  revert st. induction wps as [|wp wps IH]; intros st H Hst.
  - simpl in H. inversion H; subst. assumption.
  - destruct (filter (in_wp wp) tasks) as [|t ts] eqn:E.
    + rewrite plot_tasks_skip in H by assumption. eauto.
    + destruct (dict_get wp_colors wp) as [c|] eqn:Hc.
      * rewrite (plot_tasks_step wp wps st c) in H by (congruence || assumption).
        apply (IH _ H). simpl. apply Forall_app. split; [assumption|].
        apply draw_wp_tasks_no_lines.
      * rewrite plot_tasks_missing_color in H by (congruence || assumption).
        discriminate.
Qed.

End BarFacts.

(** ** Grouping the tasks by work package *)

Section GroupFacts.
Import Chart.

Lemma group_outside (t : item) (ts : list item) (wps : list string) :
  ~ In (Work_Package t) wps ->
  flat_map (fun wp => filter (in_wp wp) (t :: ts)) wps
  = flat_map (fun wp => filter (in_wp wp) ts) wps.
Proof.
  induction wps as [|w ws IH]; intros Hn; simpl; [reflexivity|].
  unfold in_wp at 1. destruct (String.eqb_spec (Work_Package t) w) as [E|E].
  - exfalso. apply Hn. now left.
  - rewrite <- IH; [reflexivity|]. intros H. apply Hn. now right.
Qed.

Lemma group_inside (t : item) (ts : list item) (wps : list string) :
  NoDup wps -> In (Work_Package t) wps ->
  Permutation (flat_map (fun wp => filter (in_wp wp) (t :: ts)) wps)
              (t :: flat_map (fun wp => filter (in_wp wp) ts) wps).
Proof.
  induction wps as [|w ws IH]; intros Hnd Hin; [contradiction|].
  inversion Hnd as [|? ? Hw Hws]; subst.
  change (flat_map (fun wp => filter (in_wp wp) (t :: ts)) (w :: ws))
    with ((if in_wp w t then t :: filter (in_wp w) ts else filter (in_wp w) ts)
          ++ flat_map (fun wp => filter (in_wp wp) (t :: ts)) ws).
  change (flat_map (fun wp => filter (in_wp wp) ts) (w :: ws))
    with (filter (in_wp w) ts ++ flat_map (fun wp => filter (in_wp wp) ts) ws).
  destruct (in_wp w t) eqn:E; unfold in_wp in E.
  - apply String.eqb_eq in E. subst w.
    rewrite (group_outside t ts ws Hw). apply Permutation_refl.
  - apply String.eqb_neq in E. destruct Hin as [Hin|Hin]; [congruence|].
    eapply Permutation_trans.
    + apply Permutation_app_head. apply (IH Hws Hin).
    + apply Permutation_sym, Permutation_middle.
Qed.

Lemma group_nil (wps : list string) :
  flat_map (fun wp => filter (in_wp wp) []) wps = [].
Proof. induction wps as [|w ws IH]; simpl; [reflexivity | exact IH]. Qed.

(** Taking the tasks package by package visits every task once. *)
Lemma group_by_wp_perm (wps : list string) (ts : list item) :
  NoDup wps ->
  (forall t, In t ts -> In (Work_Package t) wps) ->
  Permutation (flat_map (fun wp => filter (in_wp wp) ts) wps) ts.
Proof.
  intros Hnd. induction ts as [|t ts IH]; intros Hin.
  - rewrite group_nil. constructor.
  - eapply Permutation_trans.
    + apply group_inside; [assumption | apply Hin; now left].
    + constructor. apply IH. intros t' H. apply Hin. now right.
Qed.

End GroupFacts.

(** ** Milestone markers *)

Section MarkerFacts.
Import PyStr Chart.

Variable wp_colors : list (string * color).

Lemma find_first {A} (f : A -> bool) (l : list A) (x : A) :
  find f l = Some x ->
  exists l1 l2, l = l1 ++ x :: l2 /\ f x = true
                /\ Forall (fun y => f y = false) l1.
Proof.
  induction l as [|a l IH]; simpl; [discriminate|].
  destruct (f a) eqn:E.
  - intros H. inversion H; subst. exists [], l. auto.
  - intros H. destruct (IH H) as [l1 [l2 [Hl [Hx Hf]]]].
    exists (a :: l1), l2. subst. auto.
Qed.

Lemma find_none_existsb {A} (f : A -> bool) (l : list A) :
  find f l = None <-> existsb f l = false.
Proof.
  induction l as [|a l IH]; simpl; [tauto|].
  destruct (f a); simpl; [split; discriminate | exact IH].
Qed.

(** The name found is the first one that contains the identifier. *)
Lemma resolve_first (wp_name full : string) :
  resolve wp_colors wp_name = Some full ->
  first_containing (dict_keys wp_colors) wp_name full.
Proof.
  unfold resolve. intros H.
  destruct (find_first _ _ _ H) as [l1 [l2 [Hl [Hx Hf]]]].
  exists l1, l2. split; [assumption|]. split.
  - now apply contains_app.
  - eapply Forall_impl; [|exact Hf]. simpl. intros w Hw Hex.
    apply contains_app in Hex. congruence.
Qed.

Lemma resolve_has_color (wp_name full : string) :
  resolve wp_colors wp_name = Some full ->
  exists c, dict_get wp_colors full = Some c.
Proof.
  unfold resolve. intros H. apply find_some in H as [Hin _].
  now apply dict_get_in_keys.
Qed.

Lemma collect_colors_first (ids : list string) :
  exists cs,
    collect_colors wp_colors ids = Return cs
    /\ Forall2 (fun wp_name c =>
                  exists full,
                    first_containing (dict_keys wp_colors) wp_name full
                    /\ dict_get wp_colors full = Some c)
               (filter (fun wp_name =>
                          existsb (contains wp_name) (dict_keys wp_colors))
                       ids)
               cs.
Proof.
  induction ids as [|wp_name ids [cs [Hcs Hf]]].
  - exists []. split; [reflexivity | constructor].
  - cbn [collect_colors filter].
    destruct (resolve wp_colors wp_name) as [full|] eqn:R.
    + destruct (resolve_has_color _ _ R) as [c Hc].
      assert (existsb (contains wp_name) (dict_keys wp_colors) = true) as Hx.
      { unfold resolve in R.
        change (find (contains wp_name) (dict_keys wp_colors) = Some full) in R.
        destruct (existsb (contains wp_name) (dict_keys wp_colors)) eqn:X;
          [reflexivity|].
        apply find_none_existsb in X. congruence. }
      rewrite Hx. unfold dict_index. rewrite Hc, Hcs. cbn [bind].
      exists (c :: cs). split; [reflexivity|]. constructor; [|assumption].
      exists full. split; [now apply resolve_first | assumption].
    + unfold resolve in R.
      change (find (contains wp_name) (dict_keys wp_colors) = None) in R.
      apply find_none_existsb in R. rewrite R.
      exists cs. auto.
Qed.

Lemma draw_stripes_alternate (milestone_x : Z) (colors : list color)
      (y_bottom y_top : Q) (indices : list nat) :
  colors <> [] ->
  exists lines,
    draw_stripes milestone_x colors y_bottom y_top indices = Return lines
    /\ Forall2 (fun i a =>
                  exists c,
                    nth_error colors (i mod List.length colors) = Some c
                    /\ a = stripe_line milestone_x y_bottom y_top i c)
               (filter (fun i => Qltb (stripe_start y_bottom i) y_top) indices)
               lines.
Proof.
  intros Hne. induction indices as [|i rest [lines [Hl Hf]]].
  - exists []. split; [reflexivity | constructor].
  - cbn [draw_stripes filter]. unfold list_index.
    destruct (nth_error colors (i mod List.length colors)) as [c|] eqn:Hc.
    + rewrite Hl. cbn [bind].
      destruct (Qltb (stripe_start y_bottom i) y_top).
      * exists (stripe_line milestone_x y_bottom y_top i c :: lines).
        split; [reflexivity|]. constructor; [eauto | assumption].
      * exists lines. auto.
    + exfalso. apply nth_error_None in Hc.
      assert (List.length colors <> 0)%nat as Hlen
          by (destruct colors; [congruence | discriminate]).
      pose proof (Nat.mod_upper_bound i (List.length colors) Hlen). lia.
Qed.

Lemma stripes_are_vlines (milestone_x : Z) (colors : list color)
      (y_bottom y_top : Q) (indices : list nat) (lines : list artist) :
  draw_stripes milestone_x colors y_bottom y_top indices = Return lines ->
  Forall (fun a => exists ymin ymax c, a = Axvline milestone_x ymin ymax c) lines.
Proof.
  revert lines. induction indices as [|i rest IH]; intros lines H.
  - inversion H. constructor.
  - cbn [draw_stripes] in H.
    apply bind_return in H as [c [_ H]].
    apply bind_return in H as [more [Hm H]].
    specialize (IH _ Hm).
    destruct (Qltb (stripe_start y_bottom i) y_top); inversion H; subst;
      [|assumption].
    constructor; [|assumption]. unfold stripe_line. eauto.
Qed.

End MarkerFacts.

Section MarkerLoopFacts.
Import PyStr Chart.

Variable get_ylim : list artist -> Q * Q.
Variable wp_colors : list (string * color).

(** The body of the loop returns, and draws the marker as described. *)
Lemma draw_milestone_marker (so_far : list artist) (m : item) :
  exists lines,
    draw_milestone get_ylim wp_colors so_far m = Return lines
    /\ marker_drawn_as get_ylim wp_colors so_far m lines.
Proof.
  unfold draw_milestone, marker_drawn_as.
  destruct (Related_WPs m) as [related|]; [|eauto].
  unfold milestone_colors.
  destruct (collect_colors_first wp_colors (related_wps_of related))
    as [cs [Hcs _]].
  rewrite Hcs. cbn [bind].
  destruct cs as [|c [|c' cs]].
  - eexists. split; [reflexivity|]. exists []. split; reflexivity.
  - eexists. split; [reflexivity|]. exists [c]. split; reflexivity.
  - destruct (get_ylim so_far) as [y_bottom y_top]. cbn [fst snd].
    destruct (draw_stripes_alternate (Start m) (c :: c' :: cs) y_bottom y_top
                (seq 0 (Z.to_nat (num_stripes y_bottom y_top))))
      as [lines [Hl Hf]]; [discriminate|].
    exists lines. split; [assumption|]. exists (c :: c' :: cs).
    split; [reflexivity | exact Hf].
Qed.

Lemma draw_milestone_vlines (so_far : list artist) (m : item)
      (lines : list artist) :
  draw_milestone get_ylim wp_colors so_far m = Return lines ->
  Forall (fun a => exists ymin ymax c, a = Axvline (Start m) ymin ymax c) lines.
Proof.
  unfold draw_milestone, gray_line.
  destruct (Related_WPs m) as [related|].
  - intros H. apply bind_return in H as [cs [_ H]].
    destruct cs as [|c [|c' cs]].
    + inversion H. repeat constructor. eauto.
    + inversion H. repeat constructor. eauto.
    + destruct (get_ylim so_far) as [y_bottom y_top].
      now apply stripes_are_vlines in H.
  - intros H. inversion H. repeat constructor. eauto.
Qed.

Lemma first_stripe_visible (y_bottom y_top : Q) :
  (y_bottom < y_top)%Q ->
  exists rest,
    filter (fun i => Qltb (stripe_start y_bottom i) y_top)
           (seq 0 (Z.to_nat (num_stripes y_bottom y_top)))
    = 0%nat :: rest.
Proof.
  intros Hlt.
  assert (0 <= Convert.trunc ((y_top - y_bottom) / stripe_height))%Z as Hn.
  { unfold Convert.trunc. apply Z.quot_pos; [|lia].
    assert (0 <= (y_top - y_bottom) / stripe_height)%Q as Hq.
    { apply Qle_shift_div_l; [reflexivity | lra]. }
    revert Hq. generalize ((y_top - y_bottom) / stripe_height)%Q.
    intros q Hq. unfold Qle in Hq. simpl in Hq. lia. }
  unfold num_stripes.
  destruct (Z.to_nat (Convert.trunc ((y_top - y_bottom) / stripe_height) + 1))
    as [|n] eqn:E; [lia|].
  cbn [seq filter].
  assert (Qltb (stripe_start y_bottom 0) y_top = true) as Hv.
  { unfold Qltb. apply negb_true_iff.
    destruct (Qle_bool y_top (stripe_start y_bottom 0)) eqn:Hq; [|reflexivity].
    apply Qle_bool_iff in Hq. unfold stripe_start, stripe_height in Hq.
    change (inject_Z (Z.of_nat 0)) with 0%Q in Hq.
    exfalso. lra. }
  rewrite Hv. eauto.
Qed.

(** The loop over the milestones returns; its output is made of vertical
    lines, and holds the marker of every milestone. *)
Lemma draw_milestones_markers (ms : list item) (so_far : list artist) :
  exists markers,
    draw_milestones get_ylim wp_colors so_far ms = Return markers
    /\ Forall (fun a => is_vline a = true) markers
    /\ (forall m, In m ms ->
          exists so_far' lines,
            draw_milestone get_ylim wp_colors so_far' m = Return lines
            /\ incl lines markers).
Proof.
  revert so_far. induction ms as [|m ms IH]; intros so_far.
  - exists []. repeat split; [constructor | contradiction].
  - cbn [draw_milestones].
    destruct (draw_milestone_marker so_far m) as [lines [Hl _]].
    destruct (IH (so_far ++ lines)) as [more [Hm [Hv Hin]]].
    rewrite Hl. cbn [bind]. rewrite Hm. cbn [bind].
    exists (lines ++ more). split; [reflexivity|]. split.
    + apply Forall_app. split; [|assumption].
      eapply Forall_impl; [|apply (draw_milestone_vlines _ _ _ Hl)].
      intros a [ymin [ymax [c ->]]]. reflexivity.
    + intros m' [->|H'].
      * exists so_far, lines. split; [assumption|]. now apply incl_appl.
      * destruct (Hin m' H') as [sf [ls [Hd Hi]]].
        exists sf, ls. split; [assumption|]. now apply incl_appr.
Qed.

End MarkerLoopFacts.

(** ** Blocks of bars and their ranges *)

Section BlockFacts.
Import Chart.

Variable wp_colors : list (string * color).
Variable tasks : list item.

Lemma sorted_snoc {A} (R : A -> A -> Prop) (l : list A) (x : A) :
  StronglySorted R l -> Forall (fun a => R a x) l ->
  StronglySorted R (l ++ [x]).
Proof.
  induction 1 as [|a l Hs IH Ha]; intros Hx; simpl.
  - repeat constructor.
  - inversion Hx; subst. constructor; [now apply IH|].
    apply Forall_app. split; [assumption | now repeat constructor].
Qed.

Lemma sorted_members {A} (R : A -> A -> Prop) (l : list A) (a b : A) :
  StronglySorted R l -> In a l -> In b l -> a = b \/ R a b \/ R b a.
Proof.
  induction 1 as [|x l Hs IH Hx]; intros Ha Hb; [contradiction|].
  rewrite Forall_forall in Hx.
  destruct Ha as [->|Ha], Hb as [->|Hb]; auto.
Qed.

(** The state after the loop: the ranges stay ordered and below [y_pos],
    what was drawn and recorded stays, and every package with tasks has its
    block of bars and its range. *)
Lemma plot_tasks_layout (wps : list string) (st st' : bar_state) :
  plot_tasks wp_colors tasks wps st = Return st' ->
  NoDup wps ->
  (forall k, In k (dict_keys (wp_y_ranges st)) -> ~ In k wps) ->
  StronglySorted range_before (wp_y_ranges st) ->
  Forall (range_below (y_pos st)) (wp_y_ranges st) ->
  StronglySorted range_before (wp_y_ranges st')
  /\ Forall (range_below (y_pos st')) (wp_y_ranges st')
  /\ incl (drawn st) (drawn st')
  /\ incl (wp_y_ranges st) (wp_y_ranges st')
  /\ (forall k, In k (dict_keys (wp_y_ranges st')) ->
                In k (dict_keys (wp_y_ranges st)) \/ In k wps)
  /\ (forall wp, In wp wps -> filter (in_wp wp) tasks <> [] ->
        exists c start_y,
          dict_get wp_colors wp = Some c
          /\ incl (fst (draw_wp_tasks c (filter (in_wp wp) tasks) start_y))
                  (drawn st')
          /\ In (wp, (start_y,
                      start_y + Z.of_nat (List.length (filter (in_wp wp) tasks)) - 1)%Z)
                (wp_y_ranges st')).
Proof.
  revert st. induction wps as [|w wps IH]; intros st H Hnd Hfresh Hs Hb.
  - simpl in H. inversion H; subst. repeat split; auto using incl_refl.
    intros wp [].
  - inversion Hnd as [|? ? Hw Hwps]; subst.
    destruct (filter (in_wp w) tasks) as [|t ts] eqn:E.
    + rewrite plot_tasks_skip in H by assumption.
      destruct (IH st H Hwps) as (S1 & S2 & S3 & S4 & S5 & S6); auto.
      { intros k Hk Hin. apply (Hfresh k Hk). now right. }
      repeat split; auto.
      * intros k Hk. destruct (S5 k Hk); [now left | right; now right].
      * intros wp [->|Hin] Hne; [congruence | auto].
    + destruct (dict_get wp_colors w) as [c|] eqn:Hc.
      2:{ rewrite plot_tasks_missing_color in H by (congruence || assumption).
          discriminate. }
      rewrite (plot_tasks_step wp_colors tasks w wps st c) in H
        by (congruence || assumption).
      rewrite E in H.
      assert (~ In w (dict_keys (wp_y_ranges st))) as Hfw.
      { intros Hk. apply (Hfresh w Hk). now left. }
      rewrite (dict_set_fresh _ _ _ Hfw) in H.
      set (n := Z.of_nat (List.length (t :: ts))) in *.
      assert (1 <= n)%Z as Hn by (subst n; simpl List.length; lia).
      destruct (IH _ H Hwps) as (S1 & S2 & S3 & S4 & S5 & S6); cbn [wp_y_ranges y_pos drawn].
      { intros k Hk Hin. rewrite dict_keys_app in Hk.
        apply in_app_or in Hk as [Hk|[<-|[]]]; [|contradiction].
        apply (Hfresh k Hk). now right. }
      { apply sorted_snoc; [assumption|].
        eapply Forall_impl; [|exact Hb].
        intros a Ha. unfold range_before, range_below in *. simpl. lia. }
      { apply Forall_app. split.
        - eapply Forall_impl; [|exact Hb].
          intros a Ha. unfold range_below in *. lia.
        - repeat constructor; unfold range_below; simpl; lia. }
      cbn [wp_y_ranges y_pos drawn] in *.
      repeat split; auto.
      * intros a Ha. apply S3. apply in_or_app. now left.
      * intros a Ha. apply S4. apply in_or_app. now left.
      * intros k Hk. destruct (S5 k Hk) as [Hk'|Hk']; [|right; now right].
        rewrite dict_keys_app in Hk'.
        apply in_app_or in Hk' as [Hk'|[<-|[]]]; [now left | right; now left].
      * intros wp [<-|Hin] Hne; [|auto].
        exists c, (y_pos st). rewrite E. split; [assumption|]. split.
        -- intros a Ha. apply S3. apply in_or_app. now right.
        -- apply S4. apply in_or_app. right. now left.
Qed.

Lemma draw_braces_returns (ranges : list (string * (Z * Z))) :
  (forall k, In k (dict_keys ranges) -> In k (dict_keys wp_colors)) ->
  exists braces, draw_braces wp_colors ranges = Return braces.
Proof.
  induction ranges as [|[wp [s e]] ranges IH]; intros Hk.
  - simpl. eauto.
  - cbn [draw_braces].
    destruct (dict_index_keys wp_colors wp) as [c Hc].
    { apply Hk. now left. }
    destruct IH as [more Hm]. { intros k H. apply Hk. now right. }
    rewrite Hc. cbn [bind]. rewrite Hm. cbn [bind]. eauto.
Qed.

(** What the last loop draws: for every recorded range, the bracket or
    label of that range, and nothing else. *)
Lemma draw_braces_exact (ranges : list (string * (Z * Z)))
      (braces : list artist) :
  draw_braces wp_colors ranges = Return braces ->
  (forall wp s e, In (wp, (s, e)) ranges ->
     exists c, dict_get wp_colors wp = Some c
               /\ incl (draw_brace wp c s e) braces)
  /\ (forall a, In a braces ->
        exists wp s e c, In (wp, (s, e)) ranges
                         /\ In a (draw_brace wp c s e)).
Proof.
  revert braces. induction ranges as [|[wp [s e]] ranges IH]; intros braces H.
  - inversion H; subst. split; [intros ? ? ? [] | intros ? []].
  - cbn [draw_braces] in H.
    apply bind_return in H as [c [Hc H]].
    apply bind_return in H as [more [Hm H]]. inversion H; subst.
    destruct (IH _ Hm) as [I1 I2]. split.
    + intros wp' s' e' [Heq|Hin].
      * inversion Heq; subst. exists c. split.
        -- unfold dict_index in Hc.
           destruct (dict_get wp_colors wp'); inversion Hc; reflexivity.
        -- now apply incl_appl.
      * destruct (I1 _ _ _ Hin) as [c' [Hc' Hi]].
        exists c'. split; [assumption | now apply incl_appr].
    + intros a Ha. apply in_app_or in Ha as [Ha|Ha].
      * exists wp, s, e, c. split; [now left | assumption].
      * destruct (I2 a Ha) as (wp' & s' & e' & c' & Hin & Hd).
        exists wp', s', e', c'. split; [now right | assumption].
Qed.

End BlockFacts.

(** ** The whole chart *)

Section ChartFacts.
Import PyStr Chart.

Variable get_ylim : list artist -> Q * Q.

Lemma plot_tasks_range_keys (wp_colors : list (string * color))
      (tasks : list item) (wps : list string) (st : bar_state) :
  plot_tasks wp_colors tasks wps init_state = Return st ->
  NoDup wps ->
  forall k, In k (dict_keys (wp_y_ranges st)) -> In k wps.
Proof.
  intros H Hnd k Hk.
  destruct (plot_tasks_layout wp_colors tasks wps init_state st H Hnd)
    as (_ & _ & _ & _ & S5 & _); simpl; try constructor; auto.
  destruct (S5 k Hk) as [[]|Hin]. exact Hin.
Qed.

(** The drawing is put together in four steps, none of which raises in
    the code of the chart. *)
Lemma chart_calls_parts (data : list item) :
  data <> [] ->
  exists st markers braces,
    plot_tasks (wp_colors_of data) (filter is_task data)
               (work_packages_of data) init_state = Return st
    /\ draw_milestones get_ylim (wp_colors_of data) (drawn st)
                       (filter is_milestone data) = Return markers
    /\ draw_braces (wp_colors_of data) (wp_y_ranges st) = Return braces
    /\ chart_calls get_ylim data
       = Return {| artists := drawn st ++ markers
                              ++ milestone_labels (filter is_milestone data)
                              ++ braces;
                   ylim := if (0 <? y_pos st)%Z
                           then Some (y_pos st, (-4)%Z) else None |}.
Proof.
  intros Hne.
  destruct (plot_tasks_returns (wp_colors_of data) (filter is_task data)
              (work_packages_of data) init_state) as [st Hst].
  { intros wp Hin. now rewrite wp_colors_keys. }
  destruct (draw_milestones_markers get_ylim (wp_colors_of data)
              (filter is_milestone data) (drawn st)) as [markers [Hm _]].
  destruct (draw_braces_returns (wp_colors_of data) (wp_y_ranges st))
    as [braces Hb].
  { intros k Hk. rewrite wp_colors_keys.
    eapply plot_tasks_range_keys; eauto. apply unique_nodup. }
  exists st, markers, braces. repeat split; try assumption.
  unfold chart_calls, draw_chart.
  destruct data as [|r data]; [congruence|].
  rewrite Hst. cbn [bind]. rewrite Hm. cbn [bind].
  rewrite Hb. reflexivity.
Qed.

Lemma bars_of_none (l : list artist) :
  Forall (fun a => is_bar a = false) l -> bars_of l = [].
Proof.
  induction 1 as [|a l Ha _ IH]; [reflexivity|].
  unfold bars_of in *. simpl. now rewrite Ha.
Qed.

Lemma labels_are_text (ms : list item) :
  Forall (fun a => is_bar a = false /\ is_plot a = false /\ is_vline a = false)
         (milestone_labels ms).
Proof.
  unfold milestone_labels. destruct ms; [constructor|].
  apply Forall_forall. intros a Ha. apply in_map_iff in Ha as [l [<- _]].
  repeat split.
Qed.

Lemma brace_artists (wp : string) (c : color) (s e : Z) :
  Forall (fun a => is_bar a = false /\ is_vline a = false) (draw_brace wp c s e).
Proof. unfold draw_brace. destruct (s =? e)%Z; repeat constructor. Qed.

Lemma braces_no_bars (wp_colors : list (string * color))
      (ranges : list (string * (Z * Z))) (braces : list artist) :
  draw_braces wp_colors ranges = Return braces ->
  Forall (fun a => is_bar a = false /\ is_vline a = false) braces.
Proof.
  intros H. apply Forall_forall. intros a Ha.
  destruct (draw_braces_exact wp_colors ranges braces H) as [_ I2].
  destruct (I2 a Ha) as (wp & s & e & c & _ & Hd).
  pose proof (brace_artists wp c s e) as Hf.
  rewrite Forall_forall in Hf. now apply Hf.
Qed.

Lemma is_task_type (r : item) : is_task r = true <-> Type_ r = "Task".
Proof. unfold is_task. apply String.eqb_eq. Qed.

Lemma is_milestone_type (r : item) :
  is_milestone r = true <-> Type_ r = "Milestone".
Proof. unfold is_milestone. apply String.eqb_eq. Qed.

End ChartFacts.

(** ** Milestone labels *)

Section LabelLayoutFacts.
Import PyStr Chart.

Lemma tuple_leb_total (a b : Z * string) :
  tuple_leb a b = false -> tuple_leb b a = true.
Proof.
  unfold tuple_leb. intros H. apply orb_false_iff in H as [Hlt Heq].
  apply Z.ltb_ge in Hlt.
  destruct (Z.ltb_spec (fst b) (fst a)) as [|Hge]; [reflexivity|].
  assert (fst a = fst b) as E by lia.
  rewrite E, Z.eqb_refl in *. simpl in *.
  destruct (String.leb_total (snd a) (snd b)) as [H|H]; congruence.
Qed.

Lemma tuple_leb_fst (a b : Z * string) :
  tuple_leb a b = true -> (fst a <= fst b)%Z.
Proof.
  unfold tuple_leb. intros H. apply orb_true_iff in H as [H|H].
  - apply Z.ltb_lt in H. lia.
  - apply andb_true_iff in H as [H _]. apply Z.eqb_eq in H. lia.
Qed.

Lemma insert_keeps (x : Z * string) (l : list (Z * string)) :
  Permutation (insert x l) (x :: l).
Proof.
  induction l as [|y l IH]; simpl; [apply Permutation_refl|].
  destruct (tuple_leb x y); [apply Permutation_refl|].
  eapply Permutation_trans; [apply perm_skip, IH | apply perm_swap].
Qed.

Lemma sort_keeps (l : list (Z * string)) : Permutation (sort l) l.
Proof.
  induction l as [|x l IH]; simpl; [constructor|].
  eapply Permutation_trans; [apply insert_keeps | now apply perm_skip].
Qed.

Lemma insert_ordered (x : Z * string) (l : list (Z * string)) :
  Sorted (fun a b => tuple_leb a b = true) l ->
  Sorted (fun a b => tuple_leb a b = true) (insert x l).
Proof.
  induction 1 as [|y l Hs IH Hhd]; simpl.
  - repeat constructor.
  - destruct (tuple_leb x y) eqn:E.
    + repeat constructor; assumption.
    + constructor; [exact IH|].
      destruct l as [|z l]; simpl.
      * constructor. now apply tuple_leb_total.
      * destruct (tuple_leb x z); constructor.
        -- now apply tuple_leb_total.
        -- now inversion Hhd.
Qed.

Lemma sort_ordered (l : list (Z * string)) :
  Sorted (fun a b => tuple_leb a b = true) (sort l).
Proof.
  induction l as [|x l IH]; simpl; [constructor | now apply insert_ordered].
Qed.

Lemma sorted_consecutive {A} (R : A -> A -> Prop) (l : list A) (i : nat)
      (a b : A) :
  Sorted R l -> nth_error l i = Some a -> nth_error l (S i) = Some b -> R a b.
Proof.
  intros Hs. revert i. induction Hs as [|x l Hs IH Hhd]; intros i Ha Hb.
  - destruct i; discriminate.
  - destruct i as [|i]; simpl in *.
    + inversion Ha; subst. destruct l as [|y l]; [discriminate|].
      simpl in Hb. inversion Hb; subst. now inversion Hhd.
    + eapply IH; eassumption.
Qed.

Lemma nth_error_enumerate_from {A} (l : list A) (s i : nat) :
  nth_error (combine (seq s (List.length l)) l) i
  = option_map (fun a => ((s + i)%nat, a)) (nth_error l i).
Proof.
  revert s i. induction l as [|x l IH]; intros s i; simpl.
  - now destruct i.
  - destruct i as [|i]; simpl.
    + now rewrite Nat.add_0_r.
    + rewrite IH. now rewrite Nat.add_succ_r.
Qed.

Lemma nth_error_labels (positions : list (Z * string)) (i : nat) :
  nth_error (label_y_positions positions) i
  = option_map (fun p => (fst p, label_y positions i (fst p), snd p))
               (nth_error positions i).
Proof.
  unfold label_y_positions, enumerate.
  rewrite nth_error_map, nth_error_enumerate_from.
  now destruct (nth_error positions i).
Qed.

Lemma staggered_rows_differ (i : nat) :
  (i mod 3 + 1 <> S i mod 3 + 1)%nat.
Proof.
  pose proof (Nat.div_mod_eq i 3). pose proof (Nat.div_mod_eq (S i) 3).
  pose proof (Nat.mod_upper_bound i 3).
  pose proof (Nat.mod_upper_bound (S i) 3). lia.
Qed.

Lemma row_heights_differ (a b : nat) :
  a <> b ->
  ~ (base_y - inject_Z (Z.of_nat a) * (3 # 2)
     == base_y - inject_Z (Z.of_nat b) * (3 # 2))%Q.
Proof.
  intros H E. unfold base_y in E.
  remember (inject_Z (Z.of_nat a)) as qa eqn:Ea.
  remember (inject_Z (Z.of_nat b)) as qb eqn:Eb.
  assert (qa == qb)%Q as Hq by lra.
  subst qa qb. apply (proj1 (inject_Z_injective _ _)) in Hq. lia.
Qed.

Lemma row_below_base (r : nat) :
  (1 <= r)%nat ->
  (base_y - inject_Z (Z.of_nat r) * (3 # 2) < base_y - (1 # 2))%Q.
Proof.
  intros H.
  assert (inject_Z 1 <= inject_Z (Z.of_nat r))%Q as Hq
      by (rewrite <- Zle_Qle; lia).
  change (inject_Z 1) with 1%Q in Hq. unfold base_y.
  remember (inject_Z (Z.of_nat r)) as qr eqn:Er. lra.
Qed.

(** Every label height is the base height or one of three rows below it. *)
Lemma label_y_rows (positions : list (Z * string)) (i : nat) (x : Z) :
  label_y positions i x = (base_y - (1 # 2))%Q
  \/ exists row,
       (1 <= row <= 3)%nat
       /\ label_y positions i x
          = (base_y - inject_Z (Z.of_nat row) * (3 # 2))%Q.
Proof.
  unfold label_y.
  destruct ((0 <? i)%nat && _); [right | now left].
  exists (i mod 3 + 1)%nat. split; [|reflexivity].
  pose proof (Nat.mod_upper_bound i 3). lia.
Qed.

(** The label after a close neighbour is on another row. *)
Lemma close_labels_differ (positions : list (Z * string)) (i : nat)
      (a b : Z * string) :
  nth_error positions i = Some a ->
  nth_error positions (S i) = Some b ->
  (Z.abs (fst b - fst a) < 4)%Z ->
  ~ (label_y positions i (fst a) == label_y positions (S i) (fst b))%Q.
Proof.
  intros Ha Hb Hclose.
  assert (label_y positions (S i) (fst b)
          = (base_y - inject_Z (Z.of_nat (S i mod 3 + 1)) * (3 # 2))%Q) as Eb.
  { unfold label_y. cbn [Nat.ltb Nat.leb andb].
    replace (S i - 1)%nat with i by lia.
    rewrite (nth_error_nth _ _ _ Ha).
    apply Z.ltb_lt in Hclose. now rewrite Hclose. }
  rewrite Eb.
  destruct (label_y_rows positions i (fst a)) as [Ea|[row [Hrow Ea]]].
  - rewrite Ea. intros E.
    pose proof (row_below_base (S i mod 3 + 1) ltac:(lia)) as Hlt. lra.
  - unfold label_y in Ea |- *.
    destruct ((0 <? i)%nat && _).
    + apply row_heights_differ, staggered_rows_differ.
    + intros E. pose proof (row_below_base (S i mod 3 + 1) ltac:(lia)). lra.
Qed.

End LabelLayoutFacts.

(** ** Where the artists of a chart come from *)

Section ProvenanceFacts.
Import PyStr Chart.

Variable get_ylim : list artist -> Q * Q.

Lemma draw_wp_tasks_sources (c : color) (l : list item) (y : Z) (a : artist) :
  In a (fst (draw_wp_tasks c l y)) ->
  exists t y', In t l /\ In a (draw_task c y' t).
Proof.
  revert y. induction l as [|t l IH]; intros y; [intros []|].
  rewrite draw_wp_tasks_cons. cbn [fst]. intros H.
  apply in_app_or in H as [H|H].
  - exists t, y. split; [now left | assumption].
  - destruct (IH _ H) as (t' & y' & Hin & Hd).
    exists t', y'. split; [now right | assumption].
Qed.

Lemma dict_set_keys {V} (d : list (string * V)) (k k' : string) (v : V) :
  In k (dict_keys (dict_set d k' v)) -> k = k' \/ In k (dict_keys d).
Proof.
  induction d as [|[k0 v0] d IH]; simpl.
  - intros [H|[]]. now left.
  - destruct (String.eqb_spec k0 k'); simpl.
    + intros [H|H]; [left; congruence | right; now right].
    + intros [H|H]; [right; now left|].
      destruct (IH H); [now left | right; now right].
Qed.

(** Everything the first loop draws is the bar or the name of a task, and
    every range it records belongs to a package that has tasks. *)
Lemma plot_tasks_sources (wp_colors : list (string * color))
      (tasks : list item) (wps : list string) (st st' : bar_state) :
  plot_tasks wp_colors tasks wps st = Return st' ->
  (forall a, In a (drawn st') ->
     In a (drawn st)
     \/ exists t c y, In t tasks /\ In a (draw_task c y t))
  /\ (forall k, In k (dict_keys (wp_y_ranges st')) ->
        In k (dict_keys (wp_y_ranges st))
        \/ filter (in_wp k) tasks <> []).
Proof.
  revert st. induction wps as [|w wps IH]; intros st H.
  - simpl in H. inversion H; subst. split; intros; now left.
  - destruct (filter (in_wp w) tasks) as [|t ts] eqn:E.
    + rewrite plot_tasks_skip in H by assumption. now apply IH.
    + destruct (dict_get wp_colors w) as [c|] eqn:Hc.
      2:{ rewrite plot_tasks_missing_color in H by (congruence || assumption).
          discriminate. }
      rewrite (plot_tasks_step wp_colors tasks w wps st c) in H
        by (congruence || assumption).
      destruct (IH _ H) as [I1 I2]. cbn [drawn wp_y_ranges] in *. split.
      * intros a Ha. destruct (I1 a Ha) as [Hin|Hin]; [|now right].
        apply in_app_or in Hin as [Hin|Hin]; [now left|right].
        destruct (draw_wp_tasks_sources _ _ _ _ Hin) as (t' & y' & Ht & Hd).
        exists t', c, y'. split; [|assumption].
        apply filter_In in Ht. tauto.
      * intros k Hk. destruct (I2 k Hk) as [Hin|Hin]; [|now right].
        apply dict_set_keys in Hin as [->|Hin]; [right; congruence | now left].
Qed.

(** Every line of the second loop belongs to the marker of a milestone. *)
Lemma draw_milestones_sources (wp_colors : list (string * color))
      (ms : list item) (so_far markers : list artist) :
  draw_milestones get_ylim wp_colors so_far ms = Return markers ->
  forall a, In a markers ->
    exists m ymin ymax c, In m ms /\ a = Axvline (Start m) ymin ymax c.
Proof.
  revert so_far markers. induction ms as [|m ms IH]; intros so_far markers H.
  - inversion H. intros a [].
  - cbn [draw_milestones] in H.
    apply bind_return in H as [lines [Hl H]].
    apply bind_return in H as [more [Hm H]]. inversion H; subst.
    intros a Ha. apply in_app_or in Ha as [Ha|Ha].
    + pose proof (draw_milestone_vlines _ _ _ _ _ Hl) as Hv.
      rewrite Forall_forall in Hv.
      destruct (Hv a Ha) as (ymin & ymax & c & ->).
      exists m, ymin, ymax, c. split; [now left | reflexivity].
    + destruct (IH _ _ Hm a Ha) as (m' & ymin & ymax & c & Hin & ->).
      exists m', ymin, ymax, c. split; [now right | reflexivity].
Qed.

Lemma milestone_labels_sources (ms : list item) (a : artist) :
  In a (milestone_labels ms) ->
  exists m x y,
    In m ms
    /\ a = Text x y (Labels.format_milestone_name (Task m))
               "center" "top" 0 (Named "#333333").
Proof.
  unfold milestone_labels. destruct ms as [|m0 ms]; [intros []|].
  intros Ha. apply in_map_iff in Ha as [[[x y] name] [<- Hl]].
  unfold label_y_positions in Hl.
  apply in_map_iff in Hl as [[i [x' name']] [Heq Hin]].
  simpl in Heq. inversion Heq; subst.
  apply in_combine_r in Hin. unfold milestone_positions in Hin.
  apply (Permutation_in _ (sort_keeps _)) in Hin.
  apply in_map_iff in Hin as [m [Hm Hin]]. inversion Hm; subst.
  exists m, (inject_Z (Start m)),
    (label_y (sort (map (fun row => (Start row, Task row)) (m0 :: ms)))
             i (Start m)).
  split; [assumption | reflexivity].
Qed.

(** The bars of the chart are, one for one, those of the task records. *)
Lemma chart_bars (data : list item) (fig : figure) :
  chart_calls get_ylim data = Return fig ->
  exists bar_tasks,
    Permutation bar_tasks (filter is_task data)
    /\ Forall2 bar_of_row bar_tasks (bars_of (artists fig)).
Proof.
  intros Hf.
  assert (data <> []) as Hne by (intros ->; discriminate).
  destruct (chart_calls_parts get_ylim data Hne)
    as (st & markers & braces & Hst & Hm & Hb & Hfig).
  rewrite Hfig in Hf. inversion Hf; subst fig. cbn [artists].
  destruct (plot_tasks_bars _ _ _ _ _ Hst) as [bs [Hbs Hfa]].
  exists (flat_map (fun wp => filter (in_wp wp) (filter is_task data))
                   (work_packages_of data)).
  split.
  - apply group_by_wp_perm; [apply unique_nodup|].
    intros t Ht. apply filter_In in Ht as [Ht _].
    now apply work_packages_in.
  - rewrite !bars_of_app, Hbs. simpl bars_of at 1. simpl app at 1.
    destruct (draw_milestones_markers get_ylim (wp_colors_of data)
                (filter is_milestone data) (drawn st))
      as [markers' [Hm' [Hv _]]].
    assert (markers' = markers) by congruence. subst markers'.
    rewrite (bars_of_none markers), (bars_of_none (milestone_labels _)),
      (bars_of_none braces), !app_nil_r; [assumption | | |].
    + eapply Forall_impl; [|apply (braces_no_bars _ _ _ Hb)].
      intros a [Ha _]. exact Ha.
    + eapply Forall_impl; [|apply labels_are_text].
      intros a [Ha _]. exact Ha.
    + eapply Forall_impl; [|exact Hv]. intros a Ha. now destruct a.
Qed.

(** Every vertical line of the chart is at the start month of a milestone
    record, and every text is the name of a task record, the wrapped name
    of a milestone record, or the label of a work package that has task
    records. *)
Lemma chart_lines_and_texts (data : list item) (fig : figure) :
  chart_calls get_ylim data = Return fig ->
  (forall x ymin ymax c,
     In (Axvline x ymin ymax c) (artists fig) ->
     exists m, In m data /\ Type_ m = "Milestone" /\ x = Start m)
  /\ (forall x y s ha va rot c,
        In (Text x y s ha va rot c) (artists fig) ->
        (exists t, In t data /\ Type_ t = "Task" /\ s = Task t)
        \/ (exists m, In m data /\ Type_ m = "Milestone"
                      /\ s = Labels.format_milestone_name (Task m))
        \/ (exists wp, wp_tasks_of data wp <> []
                       /\ s = Labels.format_wp_name wp)).
Proof.
  intros Hf.
  assert (data <> []) as Hne by (intros ->; discriminate).
  destruct (chart_calls_parts get_ylim data Hne)
    as (st & markers & braces & Hst & Hm & Hb & Hfig).
  rewrite Hfig in Hf. inversion Hf; subst fig. cbn [artists].
  destruct (plot_tasks_sources _ _ _ _ _ Hst) as [P1 P2].
  destruct (draw_braces_exact _ _ _ Hb) as [_ B2].
  split.
  - intros x ymin ymax c Hin.
    apply in_app_or in Hin as [Hin|Hin].
    { destruct (P1 _ Hin) as [[]|(t & c' & y & _ & Hd)].
      unfold draw_task in Hd.
      destruct (Qle_bool _ _); destruct Hd as [Hd|[Hd|[]]]; discriminate. }
    apply in_app_or in Hin as [Hin|Hin].
    { destruct (draw_milestones_sources _ _ _ _ Hm _ Hin)
        as (m & ymin' & ymax' & c' & Hmin & Heq).
      apply filter_In in Hmin as [Hmin Hty]. inversion Heq; subst.
      exists m. repeat split; [assumption | now apply is_milestone_type]. }
    apply in_app_or in Hin as [Hin|Hin].
    { destruct (milestone_labels_sources _ _ Hin) as (m & x' & y' & _ & Heq).
      discriminate. }
    destruct (B2 _ Hin) as (wp & s & e & c' & _ & Hd).
    pose proof (brace_artists wp c' s e) as Hba.
    rewrite Forall_forall in Hba. destruct (Hba _ Hd). discriminate.
  - intros x y s ha va rot c Hin.
    apply in_app_or in Hin as [Hin|Hin].
    { left. destruct (P1 _ Hin) as [[]|(t & c' & y' & Ht & Hd)].
      apply filter_In in Ht as [Ht Hty]. exists t.
      split; [assumption|]. split; [now apply is_task_type|].
      unfold draw_task in Hd.
      destruct (Qle_bool _ _); destruct Hd as [Hd|[Hd|[]]];
        inversion Hd; reflexivity. }
    apply in_app_or in Hin as [Hin|Hin].
    { destruct (draw_milestones_sources _ _ _ _ Hm _ Hin)
        as (m & ymin' & ymax' & c' & _ & Heq). discriminate. }
    apply in_app_or in Hin as [Hin|Hin].
    { right. left.
      destruct (milestone_labels_sources _ _ Hin) as (m & x' & y' & Hmin & Heq).
      apply filter_In in Hmin as [Hmin Hty]. inversion Heq; subst.
      exists m. repeat split; [assumption | now apply is_milestone_type]. }
    right. right.
    destruct (B2 _ Hin) as (wp & s0 & e & c' & Hr & Hd).
    exists wp. split.
    + destruct (P2 wp) as [[]|Hne']; [|exact Hne'].
      apply in_map_iff. exists (wp, (s0, e)). split; [reflexivity | assumption].
    + unfold draw_brace in Hd. destruct (s0 =? e)%Z.
      * destruct Hd as [Hd|[]]. now inversion Hd.
      * destruct Hd as [Hd|[Hd|[Hd|[Hd|[]]]]]; inversion Hd; reflexivity.
Qed.

End ProvenanceFacts.

(** ** Lists related element by element *)

Section PairedLists.

Lemma forall2_source {A B} (R : A -> B -> Prop) (l1 : list A) (l2 : list B)
      (b : B) :
  Forall2 R l1 l2 -> In b l2 -> exists a, In a l1 /\ R a b.
Proof.
  induction 1 as [|x y l l' Hxy _ IH]; [intros []|].
  intros [<-|Hin].
  - exists x. split; [now left | assumption].
  - destruct (IH Hin) as [z [Hz HR]]. exists z. split; [now right | assumption].
Qed.

Lemma forall2_same_length {A B} (R : A -> B -> Prop) (l1 : list A)
      (l2 : list B) :
  Forall2 R l1 l2 -> List.length l1 = List.length l2.
Proof. induction 1; simpl; congruence. Qed.

End PairedLists.

(** ** The stripes of a milestone with several colours *)

Section StripeFacts.
Import PyStr Chart Pipeline.

Lemma Qltb_lt (a b : Q) : Qltb a b = true <-> (a < b)%Q.
Proof.
  unfold Qltb. rewrite negb_true_iff. split; intros H.
  - apply Qnot_le_lt. intros Hle. apply Qle_bool_iff in Hle. congruence.
  - destruct (Qle_bool b a) eqn:E; [|reflexivity].
    apply Qle_bool_iff in E. now apply Qlt_not_le in H.
Qed.

Lemma Qltb_ge (a b : Q) : Qltb a b = false <-> (b <= a)%Q.
Proof.
  split; intros H.
  - apply Qnot_lt_le. intros Hlt. apply Qltb_lt in Hlt. congruence.
  - destruct (Qltb a b) eqn:E; [|reflexivity].
    apply Qltb_lt in E. now apply Qlt_not_le in E.
Qed.

Lemma stripe_start_succ (y_bottom : Q) (i : nat) :
  (stripe_start y_bottom (S i) == stripe_start y_bottom i + stripe_height)%Q.
Proof.
  unfold stripe_start. rewrite Nat2Z.inj_succ. unfold Z.succ.
  rewrite inject_Z_plus. ring.
Qed.

Lemma stripe_start_zero (y_bottom : Q) :
  (stripe_start y_bottom 0 == y_bottom)%Q.
Proof. unfold stripe_start. simpl inject_Z. ring. Qed.

Lemma visible_below (y_bottom y_top : Q) (i : nat) :
  Qltb (stripe_start y_bottom (S i)) y_top = true ->
  Qltb (stripe_start y_bottom i) y_top = true.
Proof.
  rewrite !Qltb_lt. pose proof (stripe_start_succ y_bottom i) as E.
  revert E. generalize (stripe_start y_bottom (S i)) (stripe_start y_bottom i).
  unfold stripe_height. intros a b E H. lra.
Qed.

Lemma antitone_le (p : nat -> bool) (m n : nat) :
  (forall i, p (S i) = true -> p i = true) ->
  (m <= n)%nat -> p n = true -> p m = true.
Proof.
  intros Hp Hle. induction Hle as [|n Hle IH]; [auto|].
  intros H. apply IH, Hp, H.
Qed.

(** Where a test can only go from true to false, filtering a range keeps
    an initial part of it. *)
Lemma filter_prefix (p : nat -> bool) (n : nat) :
  (forall i, p (S i) = true -> p i = true) ->
  exists m, (m <= n)%nat
            /\ filter p (seq 0 n) = seq 0 m
            /\ (forall i, (i < m)%nat -> p i = true)
            /\ ((m < n)%nat -> p m = false).
Proof.
  intros Hp. induction n as [|n (m & Hle & Hf & Ht & Hs)].
  - exists 0%nat. repeat split; auto; lia.
  - rewrite seq_S, filter_app, Hf. cbn [plus filter].
    destruct (Nat.eq_dec m n) as [->|Hne].
    + destruct (p n) eqn:E.
      * exists (S n). rewrite seq_S. repeat split; auto; [|lia].
        intros i Hi. apply (antitone_le p i n Hp); [lia | assumption].
      * exists n. rewrite app_nil_r. repeat split; auto.
    + assert (p n = false) as E.
      { destruct (p n) eqn:E; [|reflexivity].
        rewrite (antitone_le p m n Hp) in Hs; [apply Hs; lia | lia | exact E]. }
      rewrite E, app_nil_r. exists m. repeat split; auto. intros _.
      apply Hs. lia.
Qed.

Lemma draw_stripes_lines (milestone_x : Z) (colors : list color)
      (y_bottom y_top : Q) (indices : list nat) (lines : list artist) :
  draw_stripes milestone_x colors y_bottom y_top indices = Return lines ->
  Forall2 (fun i a => exists c, a = stripe_line milestone_x y_bottom y_top i c)
          (filter (fun i => Qltb (stripe_start y_bottom i) y_top) indices)
          lines.
Proof.
  revert lines. induction indices as [|i rest IH]; intros lines.
  - intros H. inversion H. constructor.
  - cbn [draw_stripes filter]. unfold list_index.
    destruct (nth_error colors (i mod List.length colors)) as [c|];
      cbn [bind]; [|discriminate].
    destruct (draw_stripes milestone_x colors y_bottom y_top rest)
      as [more|] eqn:Hr; cbn [bind]; [|discriminate].
    destruct (Qltb (stripe_start y_bottom i) y_top); intros H; inversion H;
      subst.
    + constructor; [now exists c | now apply IH].
    + now apply IH.
Qed.

(** The part of the axes stripe [i] covers. *)
Lemma stripe_span_bounds (milestone_x : Z) (y_bottom y_top : Q) (i : nat)
      (c : color) :
  (y_bottom < y_top)%Q -> (stripe_start y_bottom i < y_top)%Q ->
  (0 <= fst (line_span (stripe_line milestone_x y_bottom y_top i c)))%Q
  /\ (fst (line_span (stripe_line milestone_x y_bottom y_top i c))
      < snd (line_span (stripe_line milestone_x y_bottom y_top i c)))%Q
  /\ (snd (line_span (stripe_line milestone_x y_bottom y_top i c)) <= 1)%Q.
Proof.
  intros Hlt Hv. cbn [stripe_line line_span fst snd].
  assert (y_bottom <= stripe_start y_bottom i)%Q as Hlo.
  { unfold stripe_start, stripe_height.
    assert (0 <= inject_Z (Z.of_nat i))%Q as Hi
        by (unfold Qle; simpl; lia).
    revert Hi. generalize (inject_Z (Z.of_nat i)). intros q Hq. lra. }
  revert Hv Hlo. generalize (stripe_start y_bottom i). intros s Hv Hlo.
  assert (0 < y_top - y_bottom)%Q as Ht by lra.
  assert (0 < / (y_top - y_bottom))%Q as Hinv
      by now apply Qinv_lt_0_compat.
  unfold stripe_height.
  destruct (Qltb y_top (s + (2 # 10))) eqn:E.
  - repeat split.
    + apply Qle_shift_div_l; [assumption | lra].
    + unfold Qdiv. apply Qmult_lt_r; [assumption | lra].
    + apply Qle_shift_div_r; [assumption | lra].
  - apply Qltb_ge in E. repeat split.
    + apply Qle_shift_div_l; [assumption | lra].
    + unfold Qdiv. apply Qmult_lt_r; [assumption | lra].
    + apply Qle_shift_div_r; [assumption | lra].
Qed.

Lemma stripe_span_next (milestone_x : Z) (y_bottom y_top : Q) (i : nat)
      (c : color) :
  (stripe_start y_bottom (S i) < y_top)%Q ->
  (snd (line_span (stripe_line milestone_x y_bottom y_top i c))
   == (stripe_start y_bottom (S i) - y_bottom) / (y_top - y_bottom))%Q.
Proof.
  intros Hv. cbn [stripe_line line_span snd].
  pose proof (stripe_start_succ y_bottom i) as E.
  destruct (Qltb y_top (stripe_start y_bottom i + stripe_height)) eqn:T.
  - apply Qltb_lt in T. exfalso. rewrite E in Hv.
    exact (Qlt_irrefl _ (Qlt_trans _ _ _ T Hv)).
  - now rewrite E.
Qed.

Lemma stripe_span_last (milestone_x : Z) (y_bottom y_top : Q) (i : nat)
      (c : color) :
  (y_bottom < y_top)%Q ->
  (y_top <= stripe_start y_bottom (S i))%Q ->
  (snd (line_span (stripe_line milestone_x y_bottom y_top i c)) == 1)%Q.
Proof.
  intros Hlt Hv. cbn [stripe_line line_span snd].
  rewrite stripe_start_succ in Hv.
  assert (~ (y_top - y_bottom == 0)%Q) as Hne by (intros E; lra).
  destruct (Qltb y_top (stripe_start y_bottom i + stripe_height)) eqn:T.
  - unfold Qdiv. now apply Qmult_inv_r.
  - apply Qltb_ge in T.
    assert (stripe_start y_bottom i + stripe_height == y_top)%Q as E
        by now apply Qle_antisym.
    rewrite E. unfold Qdiv. now apply Qmult_inv_r.
Qed.

Lemma stripes_abut (milestone_x : Z) (y_bottom y_top : Q) (m : nat) :
  forall (s : nat) (lines : list artist) (prev : Q),
    Forall2 (fun i a =>
               exists c, a = stripe_line milestone_x y_bottom y_top i c)
            (seq s m) lines ->
    (forall i, (s <= i < s + m)%nat -> (stripe_start y_bottom i < y_top)%Q) ->
    ((0 < m)%nat ->
     (prev == (stripe_start y_bottom s - y_bottom) / (y_top - y_bottom))%Q) ->
    abut prev lines.
Proof.
  induction m as [|m IH]; intros s lines prev HF Hv Hp.
  - inversion HF. exact I.
  - cbn [seq] in HF. inversion HF as [|? a ? rest [c Ha] HF']; subst.
    cbn [abut]. split.
    + cbn [stripe_line line_span fst]. symmetry. apply Hp. lia.
    + apply (IH (S s)); [assumption | intros i Hi; apply Hv; lia |].
      intros Hm. apply stripe_span_next. apply Hv. lia.
Qed.

Lemma stripes_last (milestone_x : Z) (y_bottom y_top : Q) (k : nat)
      (lines : list artist) (d : artist) :
  Forall2 (fun i a =>
             exists c, a = stripe_line milestone_x y_bottom y_top i c)
          (seq 0 (S k)) lines ->
  exists c, last lines d = stripe_line milestone_x y_bottom y_top k c.
Proof.
  rewrite seq_S. intros HF.
  apply Forall2_app_inv_l in HF as (l1 & l2 & _ & H2 & ->).
  inversion H2 as [|? a ? ? [c Ha] H3]; subst. inversion H3; subst.
  exists c. apply last_last.
Qed.

Lemma trunc_succ_above (q : Q) :
  (0 <= q)%Q -> (q < inject_Z (Convert.trunc q + 1))%Q.
Proof.
  intros H. destruct q as [n d]. unfold Convert.trunc, Qle, Qlt in *.
  simpl in *. rewrite Z.quot_div_nonneg by lia.
  pose proof (Z.mul_succ_div_gt n (Z.pos d) ltac:(lia)). lia.
Qed.

(** The loop runs far enough: the stripe after the last index would start
    at or above the top of the axes. *)
Lemma range_reaches_top (y_bottom y_top : Q) :
  (y_bottom < y_top)%Q ->
  (y_top <= stripe_start y_bottom (Z.to_nat (num_stripes y_bottom y_top)))%Q.
Proof.
  intros Hlt. unfold num_stripes, stripe_start.
  assert (0 <= (y_top - y_bottom) / stripe_height)%Q as Hq
      by (apply Qle_shift_div_l; [reflexivity | lra]).
  pose proof (trunc_succ_above _ Hq) as Hs.
  assert (0 <= Convert.trunc ((y_top - y_bottom) / stripe_height))%Z as Hn.
  { unfold Convert.trunc. apply Z.quot_pos; [|lia].
    revert Hq. generalize ((y_top - y_bottom) / stripe_height)%Q.
    intros q Hq. unfold Qle in Hq. simpl in Hq. lia. }
  rewrite Z2Nat.id by lia.
  assert (y_top - y_bottom
          == stripe_height * ((y_top - y_bottom) / stripe_height))%Q as E
      by (symmetry; apply Qmult_div_r; discriminate).
  revert Hs E.
  generalize ((y_top - y_bottom) / stripe_height)%Q at 1 3.
  generalize (inject_Z
                (Convert.trunc ((y_top - y_bottom) / stripe_height) + 1)).
  unfold stripe_height. intros n q Hs E. lra.
Qed.

Lemma draw_stripes_colours (milestone_x : Z) (colors : list color)
      (y_bottom y_top : Q) (indices : list nat) (lines : list artist) :
  draw_stripes milestone_x colors y_bottom y_top indices = Return lines ->
  Forall2 (fun i a =>
             exists c, nth_error colors (i mod List.length colors) = Some c
                       /\ a = stripe_line milestone_x y_bottom y_top i c)
          (filter (fun i => Qltb (stripe_start y_bottom i) y_top) indices)
          lines.
Proof.
  revert lines. induction indices as [|i rest IH]; intros lines.
  - intros H. inversion H. constructor.
  - cbn [draw_stripes filter]. unfold list_index.
    destruct (nth_error colors (i mod List.length colors)) as [c|] eqn:Hc;
      cbn [bind]; [|discriminate].
    destruct (draw_stripes milestone_x colors y_bottom y_top rest)
      as [more|] eqn:Hr; cbn [bind]; [|discriminate].
    destruct (Qltb (stripe_start y_bottom i) y_top); intros H; inversion H;
      subst.
    + constructor; [now exists c | now apply IH].
    + now apply IH.
Qed.

Lemma forall2_seq_nth {B} (P : nat -> B -> Prop) (n : nat) :
  forall (s : nat) (l : list B),
    Forall2 P (seq s n) l ->
    forall i a, nth_error l i = Some a -> P (s + i)%nat a.
Proof.
  induction n as [|n IH]; intros s l HF i a Ha.
  - inversion HF; subst. destruct i; discriminate.
  - cbn [seq] in HF. inversion HF as [|? b ? rest Hb HF']; subst.
    destruct i as [|i]; simpl in Ha.
    + inversion Ha; subst. now rewrite Nat.add_0_r.
    + rewrite <- plus_n_Sm. apply (IH (S s) rest HF' i a Ha).
Qed.

(** The stripes drawn on axes that run upwards: how many, and which. *)
Lemma stripes_shape (milestone_x : Z) (colors : list color)
      (y_bottom y_top : Q) (lines : list artist) :
  (y_bottom < y_top)%Q ->
  draw_stripes milestone_x colors y_bottom y_top
               (seq 0 (Z.to_nat (num_stripes y_bottom y_top))) = Return lines ->
  exists k,
    List.length lines = S k
    /\ (forall i, (i <= k)%nat -> (stripe_start y_bottom i < y_top)%Q)
    /\ (y_top <= stripe_start y_bottom (S k))%Q
    /\ forall i a,
         nth_error lines i = Some a ->
         exists c, nth_error colors (i mod List.length colors) = Some c
                   /\ a = stripe_line milestone_x y_bottom y_top i c.
Proof.
  intros Hlt Hd. apply draw_stripes_colours in Hd.
  pose proof (range_reaches_top y_bottom y_top Hlt) as Htop.
  destruct (first_stripe_visible y_bottom y_top Hlt) as [rest0 Hfirst].
  destruct (filter_prefix (fun i => Qltb (stripe_start y_bottom i) y_top)
                          (Z.to_nat (num_stripes y_bottom y_top))
                          (visible_below y_bottom y_top))
    as (m & Hle & Hf & Hvis & Hstop).
  rewrite Hf in Hfirst. rewrite Hf in Hd. clear Hf.
  destruct m as [|k]; [discriminate|]. clear Hfirst rest0.
  exists k. split; [|split; [|split]].
  - rewrite <- (forall2_same_length _ _ _ Hd). apply length_seq.
  - intros i Hi. apply Qltb_lt. apply Hvis. lia.
  - destruct (Nat.eq_dec (S k) (Z.to_nat (num_stripes y_bottom y_top)))
      as [E|Hne].
    + now rewrite E.
    + apply Qltb_ge. apply Hstop. lia.
  - intros i a Ha. exact (forall2_seq_nth _ _ _ _ Hd i a Ha).
Qed.

Lemma stripes_striped (milestone_x : Z) (colors : list color)
      (y_bottom y_top : Q) (lines : list artist) :
  (y_bottom < y_top)%Q ->
  draw_stripes milestone_x colors y_bottom y_top
               (seq 0 (Z.to_nat (num_stripes y_bottom y_top))) = Return lines ->
  striped milestone_x colors (y_top - y_bottom) lines.
Proof.
  intros Hlt Hd.
  destruct (stripes_shape _ _ _ _ _ Hlt Hd) as (k & Hlen & Hvis & Hend & Hnth).
  unfold striped. split; [|split].
  - intros ->. discriminate.
  - rewrite Hlen. unfold stripe_start, stripe_height in Hend.
    revert Hend. generalize (inject_Z (Z.of_nat (S k))). intros q Hq. lra.
  - intros i a Ha. destruct (Hnth i a Ha) as (c & Hc & ->).
    assert (i <= k)%nat as Hi.
    { assert (i < List.length lines)%nat
        by (apply nth_error_Some; congruence). lia. }
    destruct (stripe_span_bounds milestone_x y_bottom y_top i c Hlt
                                 (Hvis i Hi)) as (_ & Hspan & _).
    eexists _, _, c. split; [reflexivity|]. split; [exact Hc|].
    split; [|split].
    + unfold stripe_start, stripe_height, Qdiv.
      apply Qmult_comp; [ring | reflexivity].
    + exact Hspan.
    + rewrite Hlen. destruct (Nat.eqb_spec (S i) (S k)) as [E|Hne].
      * inversion E; subst i.
        exact (stripe_span_last milestone_x y_bottom y_top k c Hlt Hend).
      * assert (S i <= k)%nat as Hi' by lia.
        rewrite (stripe_span_next milestone_x y_bottom y_top i c
                                  (Hvis (S i) Hi')).
        unfold stripe_start, stripe_height, Qdiv.
        apply Qmult_comp; [ring | reflexivity].
Qed.

End StripeFacts.

(** ** The chart code and the plotting library *)

Section LibraryFacts.
Import PyStr Chart.

Variable get_ylim : list artist -> Q * Q.
Variable refuses : list artist -> option exn.

(** A chart that is returned is the drawing the code asked for, and the
    library has not refused it. *)
Lemma chart_returned (data : list item) (fig : figure) :
  create_gantt_chart get_ylim refuses data = Return fig ->
  data <> []
  /\ chart_calls get_ylim data = Return fig
  /\ refuses (artists fig) = None.
Proof.
  unfold create_gantt_chart. intros H.
  apply bind_return in H as [f [Hc H]].
  destruct (refuses (artists f)) eqn:E; [discriminate|].
  inversion H; subst f. split; [|split; assumption].
  intros ->. discriminate.
Qed.

Lemma chart_accepted (data : list item) (fig : figure) :
  chart_calls get_ylim data = Return fig ->
  refuses (artists fig) = None ->
  create_gantt_chart get_ylim refuses data = Return fig.
Proof.
  intros Hc Hr. unfold create_gantt_chart. rewrite Hc. cbn [bind].
  now rewrite Hr.
Qed.

Lemma chart_refused (data : list item) (fig : figure) (e : exn) :
  chart_calls get_ylim data = Return fig ->
  refuses (artists fig) = Some e ->
  create_gantt_chart get_ylim refuses data = Raise e.
Proof.
  intros Hc Hr. unfold create_gantt_chart. rewrite Hc. cbn [bind].
  now rewrite Hr.
Qed.

Lemma int64_small (z : Z) :
  (- 2 ^ 63 <= z < 2 ^ 63)%Z -> int64 z = z.
Proof.
  intros H. unfold int64. change (2 ^ 64)%Z with (2 * 2 ^ 63)%Z.
  set (b := (2 ^ 63)%Z) in *.
  assert (0 < b)%Z by (subst b; reflexivity).
  rewrite Z.mod_small; lia.
Qed.

Lemma duration_fits (t : item) :
  small_month (Start t) && small_month (End_ t) = true ->
  duration t = (End_ t - Start t)%Z.
Proof.
  unfold small_month, duration. intros H.
  apply andb_true_iff in H as [Hs He].
  apply andb_true_iff in Hs as [Hs1 Hs2].
  apply andb_true_iff in He as [He1 He2].
  apply Z.leb_le in Hs1, He1. apply Z.ltb_lt in Hs2, He2.
  apply int64_small. change (2 ^ 63)%Z with (2 * 2 ^ 62)%Z.
  set (b := (2 ^ 62)%Z) in *. lia.
Qed.

Lemma months_fit_duration (data : list item) (t : item) :
  months_fit data = true -> In t data ->
  duration t = (End_ t - Start t)%Z.
Proof.
  unfold months_fit. intros H Hin.
  rewrite forallb_forall in H. apply duration_fits. now apply H.
Qed.

(** With months that fit, the bars have the widths [End - Start]. *)
Lemma bar_rows_fit (data bar_tasks : list item) (bars : list artist) :
  months_fit data = true ->
  (forall t, In t bar_tasks -> In t data) ->
  Forall2 bar_of_row bar_tasks bars -> Forall2 bar_for bar_tasks bars.
Proof.
  intros Hfit Hin HF. induction HF as [|t a ts l [y [c ->]] _ IH].
  - constructor.
  - constructor.
    + exists y, c. rewrite (months_fit_duration data t Hfit); [reflexivity|].
      apply Hin. now left.
    + apply IH. intros t' Ht'. apply Hin. now right.
Qed.

(** The marker of a milestone is drawn with the view limits of what has
    been drawn before it. *)
Lemma draw_milestones_split (wp_colors : list (string * color))
      (ms : list item) (m : item) :
  forall (so_far markers : list artist),
    draw_milestones get_ylim wp_colors so_far ms = Return markers ->
    In m ms ->
    exists before lines after,
      markers = before ++ lines ++ after
      /\ draw_milestone get_ylim wp_colors (so_far ++ before) m = Return lines.
Proof.
  induction ms as [|m0 ms IH]; intros so_far markers H Hin; [contradiction|].
  cbn [draw_milestones] in H.
  apply bind_return in H as [lines0 [Hl H]].
  apply bind_return in H as [more [Hm H]]. inversion H; subst markers.
  destruct Hin as [->|Hin].
  - exists [], lines0, more. split; [reflexivity|]. now rewrite app_nil_r.
  - destruct (IH _ _ Hm Hin) as (before & lines & after & -> & Hd).
    exists (lines0 ++ before), lines, after. split.
    + now rewrite <- app_assoc.
    + now rewrite app_assoc.
Qed.

(** The marker of every milestone record is part of the drawing, after
    the artists it was drawn over. *)
Lemma chart_marker (data : list item) (fig : figure) (m : item) :
  chart_calls get_ylim data = Return fig ->
  In m data -> Type_ m = "Milestone" ->
  exists so_far lines rest,
    artists fig = so_far ++ lines ++ rest
    /\ draw_milestone get_ylim (wp_colors_of data) so_far m = Return lines.
Proof.
  intros Hf Hin Hty.
  assert (data <> []) as Hne by (intros ->; discriminate).
  destruct (chart_calls_parts get_ylim data Hne)
    as (st & markers & braces & Hst & Hm & Hb & Hfig).
  rewrite Hfig in Hf. inversion Hf; subst fig. cbn [artists].
  destruct (draw_milestones_split _ _ m _ _ Hm)
    as (before & lines & after & -> & Hd).
  { apply filter_In. split; [assumption | now apply is_milestone_type]. }
  exists (drawn st ++ before), lines,
    (after ++ milestone_labels (filter is_milestone data) ++ braces).
  split; [|exact Hd]. now rewrite <- !app_assoc.
Qed.

(** On axes that run upwards the marker is drawn by the colours. *)
Lemma marker_by_colors_drawn (data : list item)
      (so_far : list artist) (m : item) (lines : list artist) :
  (fst (get_ylim so_far) < snd (get_ylim so_far))%Q ->
  draw_milestone get_ylim (wp_colors_of data) so_far m = Return lines ->
  marker_by_colors data (snd (get_ylim so_far) - fst (get_ylim so_far))
                   m lines.
Proof.
  unfold draw_milestone, marker_by_colors, gray_line. intros Hlt.
  destruct (Related_WPs m) as [related|].
  - intros H. apply bind_return in H as [cs [Hcs H]].
    exists cs. split.
    { unfold milestone_colors in Hcs. unfold resolved_colors.
      destruct (collect_colors_first (wp_colors_of data)
                                     (related_wps_of related))
        as [cs' [Hcs' Hf]].
      assert (cs' = cs) by congruence. subst cs'.
      now rewrite wp_colors_keys in Hf. }
    destruct cs as [|c [|c' cs]].
    + now inversion H.
    + now inversion H.
    + destruct (get_ylim so_far) as [y_bottom y_top]. cbn [fst snd] in *.
      now apply stripes_striped.
  - intros H. now inversion H.
Qed.

Lemma marker_by_colors_line (data : list item) (height : Q)
      (m : item) (lines : list artist) :
  marker_by_colors data height m lines ->
  exists ymin ymax c,
    In (Axvline (Start m) ymin ymax c) lines /\ (ymin < ymax)%Q.
Proof.
  unfold marker_by_colors.
  assert (forall c, exists ymin ymax c',
             In (Axvline (Start m) ymin ymax c') [Axvline (Start m) 0 1 c]
             /\ (ymin < ymax)%Q) as Hone.
  { intros c. exists 0%Q, 1%Q, c. split; [now left | reflexivity]. }
  destruct (Related_WPs m) as [related|]; [|intros ->; apply Hone].
  intros [cs [_ H]]. destruct cs as [|c [|c' cs]]; try (subst; apply Hone).
  destruct H as (Hne & _ & Hnth).
  destruct lines as [|a rest]; [congruence|].
  destruct (Hnth 0%nat a eq_refl) as (ymin & ymax & c0 & -> & _ & _ & Hlt & _).
  exists ymin, ymax, c0. split; [now left | exact Hlt].
Qed.

End LibraryFacts.

Section LibraryExamples.
Import PyStr Chart Pipeline.

(** A name the library refuses ends the chart and the run, although the
    validation has passed. *)
Example chart_refused_for_dollars :
  Validate.validate (to_data [t_dollars]) = Return true
  /\ create_gantt_chart unit_ylim no_dollar [t_dollars]
     = Raise ValueError_mathtext
  /\ main_from_data unit_ylim no_dollar (fun _ => true) [t_dollars] = Exit1.
Proof. repeat split. Qed.

(** The difference of months too far apart wraps around. *)
Example duration_wraps :
  months_fit [t_far] = false /\ duration t_far = (- 2 ^ 63)%Z.
Proof. split; reflexivity. Qed.

End LibraryExamples.

Section ChartClaims.
Import PyStr Chart.

(** C4: in every chart the renderer returns, each record of type
    "Milestone" has a vertical line at the record's start month, a line
    that is not empty, and the horizontal bars of the chart are, one for
    one, the bars of the records of type "Task" (so no bar belongs to a
    milestone).  The view limits the plotting library reports are taken
    with the lower limit below the upper one, as they are on axes that
    have not been inverted, and the months small enough for the
    differences of the frame's columns not to wrap around. *)
Theorem milestones_lines_tasks_bars
        (get_ylim : list artist -> Q * Q)
        (refuses : list artist -> option exn)
        (data : list item) (fig : figure) :
  create_gantt_chart get_ylim refuses data = Return fig ->
  months_fit data = true ->
  (forall so_far, (fst (get_ylim so_far) < snd (get_ylim so_far))%Q) ->
  (forall m, In m data -> Type_ m = "Milestone" ->
     exists ymin ymax c,
       In (Axvline (Start m) ymin ymax c) (artists fig) /\ (ymin < ymax)%Q)
  /\ (exists bar_tasks,
        Permutation bar_tasks
                    (filter (fun r => String.eqb (Type_ r) "Task") data)
        /\ Forall2 bar_for bar_tasks (bars_of (artists fig))).
Proof.
  intros Hret Hfit Hlim.
  destruct (chart_returned _ _ _ _ Hret) as (Hne & Hcalls & _).
  split.
  - intros m Hin Hty.
    destruct (chart_marker get_ylim data fig m Hcalls Hin Hty)
      as (so_far & lines & rest & Hfig & Hl).
    destruct (marker_by_colors_line _ _ _ _
                (marker_by_colors_drawn get_ylim data _ _ _ (Hlim so_far) Hl))
      as (ymin & ymax & c & Hin' & Hlt).
    exists ymin, ymax, c. split; [|exact Hlt].
    rewrite Hfig. apply in_or_app. right. apply in_or_app. now left.
  - destruct (chart_bars get_ylim data _ Hcalls) as [bar_tasks [Hp Hf]].
    exists bar_tasks. split; [exact Hp|].
    apply (bar_rows_fit data); [assumption | | assumption].
    intros t Ht. apply (Permutation_in _ Hp) in Ht.
    apply filter_In in Ht. tauto.
Qed.

Lemma milestones_lines_tasks_bars_witness :
  exists fig,
    create_gantt_chart unit_ylim draws_all small_project = Return fig
    /\ (forall m, In m small_project -> Type_ m = "Milestone" ->
          exists ymin ymax c,
            In (Axvline (Start m) ymin ymax c) (artists fig)
            /\ (ymin < ymax)%Q)
    /\ (exists bar_tasks,
          Permutation bar_tasks
                      (filter (fun r => String.eqb (Type_ r) "Task") small_project)
          /\ Forall2 bar_for bar_tasks (bars_of (artists fig))).
Proof.
  eexists. split; [reflexivity|].
  apply (milestones_lines_tasks_bars unit_ylim draws_all small_project).
  - reflexivity.
  - reflexivity.
  - intros so_far. reflexivity.
Defined.

(** C8, as stated, fails: the identifiers "WP1" and "Design" resolve to
    one and the same work package, the only one of the data, and yet the
    marker is not the solid line in that package's colour: it is drawn as
    five stripes. *)
Lemma one_package_striped :
  work_packages_of one_package = ["WP1: Design"]
  /\ map (resolve (wp_colors_of one_package)) (related_wps_of "WP1, Design")
     = [Some "WP1: Design"; Some "WP1: Design"]
  /\ exists fig,
       create_gantt_chart unit_ylim draws_all one_package = Return fig
       /\ ~ In (Axvline 3 0 1 (Set3 0 1)) (artists fig)
       /\ List.length (filter is_vline (artists fig)) = 5%nat.
Proof.
  split; [reflexivity|]. split; [reflexivity|].
  eexists. split; [reflexivity|]. split; [|reflexivity].
  intros H. vm_compute in H.
  repeat (destruct H as [H|H]; [discriminate H|]). exact H.
Qed.

(** C8, amended: in every chart the renderer returns, the marker of a
    milestone record is one gray line when the record carries no
    [Related WPs]; otherwise it goes by the colours its identifiers
    resolve to, one colour per identifier that resolves, so that a
    package named twice counts twice: one gray line when there is no
    colour, one full-height line in that colour when there is one, and
    with two or more colours stripes that tile the height of the axes,
    0.2 data units each (the last one cut at the top), stripe [i] in
    colour [i mod n].  The height of the axes is the one the plotting
    library reports for what has been drawn before the marker; its view
    limits are taken with the lower limit below the upper one. *)
Theorem milestone_marker_colors
        (get_ylim : list artist -> Q * Q)
        (refuses : list artist -> option exn)
        (data : list item) (fig : figure) (m : item) :
  create_gantt_chart get_ylim refuses data = Return fig ->
  (forall so_far, (fst (get_ylim so_far) < snd (get_ylim so_far))%Q) ->
  In m data -> Type_ m = "Milestone" ->
  exists so_far lines rest,
    artists fig = so_far ++ lines ++ rest
    /\ marker_by_colors data
                        (snd (get_ylim so_far) - fst (get_ylim so_far))
                        m lines.
Proof.
  intros Hret Hlim Hin Hty.
  destruct (chart_returned _ _ _ _ Hret) as (Hne & Hcalls & _).
  destruct (chart_marker get_ylim data fig m Hcalls Hin Hty)
    as (so_far & lines & rest & Hfig & Hl).
  exists so_far, lines, rest. split; [exact Hfig|].
  exact (marker_by_colors_drawn get_ylim data _ _ _ (Hlim so_far) Hl).
Qed.

Lemma milestone_marker_colors_witness :
  exists fig so_far lines rest,
    create_gantt_chart unit_ylim draws_all small_project = Return fig
    /\ artists fig = so_far ++ lines ++ rest
    /\ marker_by_colors small_project
                        (snd (unit_ylim so_far) - fst (unit_ylim so_far))
                        m_release lines.
Proof.
  eexists.
  destruct (milestone_marker_colors unit_ylim draws_all small_project _
                                    m_release eq_refl)
    as (so_far & lines & rest & Hfig & Hm).
  - intros so_far. reflexivity.
  - simpl. tauto.
  - reflexivity.
  - exists so_far, lines, rest. split; [reflexivity|]. split; assumption.
Defined.

(** C9: every identifier listed in [Related WPs] that is a substring of
    some work-package name contributes the colour of the first such name,
    in the order in which the work packages first appear in the data; the
    other identifiers contribute nothing.  So "WP1" takes the colour of
    "WP10: Pilot" when that package comes first. *)
Theorem related_wp_first_containing (data : list item) (related : string) :
  (exists cs,
     milestone_colors (wp_colors_of data) related = Return cs
     /\ Forall2 (fun wp_name c =>
                   exists full,
                     first_containing (work_packages_of data) wp_name full
                     /\ dict_get (wp_colors_of data) full = Some c)
                (filter (fun wp_name =>
                           existsb (contains wp_name) (work_packages_of data))
                        (related_wps_of related))
                cs)
  /\ work_packages_of pilot_project = ["WP10: Pilot"; "WP1: Design"]
  /\ milestone_colors (wp_colors_of pilot_project) "WP1" = Return [Set3 0 2]
  /\ dict_get (wp_colors_of pilot_project) "WP10: Pilot" = Some (Set3 0 2).
Proof.
  split; [|repeat split].
  unfold milestone_colors.
  destruct (collect_colors_first (wp_colors_of data) (related_wps_of related))
    as [cs [Hcs Hf]].
  exists cs. split; [assumption|].
  now rewrite wp_colors_keys in Hf.
Qed.

End ChartClaims.

Section BracketClaims.
Import PyStr Chart.

Lemma between_brace_ends (s e y : Z) :
  (inject_Z s - (4 # 10) <= inject_Z y)%Q ->
  (inject_Z y <= inject_Z e + (4 # 10))%Q ->
  (s <= y <= e)%Z.
Proof. unfold Qle, Qminus, Qplus, Qopp, inject_Z. simpl. lia. Qed.

Lemma not_on_brace_top (s y : Z) :
  (inject_Z s - (4 # 10) <= inject_Z y)%Q ->
  (inject_Z y <= inject_Z s - (4 # 10))%Q -> False.
Proof. unfold Qle, Qminus, Qplus, Qopp, inject_Z. simpl. lia. Qed.

Lemma not_on_brace_bottom (e y : Z) :
  (inject_Z e + (4 # 10) <= inject_Z y)%Q ->
  (inject_Z y <= inject_Z e + (4 # 10))%Q -> False.
Proof. unfold Qle, Qminus, Qplus, Qopp, inject_Z. simpl. lia. Qed.

Lemma wp_tasks_in_packages (data : list item) (wp : string) :
  wp_tasks_of data wp <> [] -> In wp (work_packages_of data).
Proof.
  unfold wp_tasks_of. intros Hne.
  destruct (filter (in_wp wp) (filter is_task data)) as [|t ts] eqn:E;
    [congruence|].
  assert (In t (filter (in_wp wp) (filter is_task data))) as Ht
      by (rewrite E; now left).
  apply filter_In in Ht as [Ht Hwp]. apply filter_In in Ht as [Ht _].
  unfold in_wp in Hwp. apply String.eqb_eq in Hwp. subst wp.
  now apply work_packages_in.
Qed.

(** The block of a work package and its bracket, in the drawing the code
    asks for. *)
Lemma wp_block_in_calls
      (get_ylim : list artist -> Q * Q) (data : list item) (wp : string) :
  wp_tasks_of data wp <> [] ->
  exists fig c start_y,
    chart_calls get_ylim data = Return fig
    /\ dict_get (wp_colors_of data) wp = Some c
    /\ (forall k t,
          nth_error (wp_tasks_of data wp) k = Some t ->
          In (Barh (start_y + Z.of_nat k) (duration t) (Start t) c)
             (artists fig))
    /\ (List.length (wp_tasks_of data wp) = 1%nat ->
        In (Text label_x (inject_Z start_y) (Labels.format_wp_name wp)
                 "right" "center" 15 c) (artists fig)
        /\ forall x0 x1 y0 y1,
             In (Plot x0 x1 y0 y1) (artists fig) ->
             ~ ((y0 <= inject_Z start_y)%Q /\ (inject_Z start_y <= y1)%Q))
    /\ ((1 < List.length (wp_tasks_of data wp))%nat ->
        let end_y :=
          (start_y + Z.of_nat (List.length (wp_tasks_of data wp)) - 1)%Z in
        let top := (inject_Z start_y - (4 # 10))%Q in
        let bottom := (inject_Z end_y + (4 # 10))%Q in
        In (Plot brace_x brace_x top bottom) (artists fig)
        /\ In (Plot brace_x (brace_x + (2 # 10))%Q top top) (artists fig)
        /\ In (Plot brace_x (brace_x + (2 # 10))%Q bottom bottom) (artists fig)
        /\ In (Text label_x (inject_Z (start_y + end_y) / 2)%Q
                    (Labels.format_wp_name wp) "right" "center" 25 c)
              (artists fig)).
Proof.
  intros Hne.
  assert (data <> []) as Hd by (destruct data; [now elim Hne | discriminate]).
  destruct (chart_calls_parts get_ylim data Hd)
    as (st & markers & braces & Hst & Hm & Hb & Hfig).
  destruct (plot_tasks_layout _ _ _ _ _ Hst (unique_nodup _))
    as (S1 & S2 & _ & _ & _ & S6); simpl; try constructor; auto.
  destruct (S6 wp (wp_tasks_in_packages data wp Hne) Hne)
    as (c & start_y & Hc & Hbars & Hrange).
  fold (wp_tasks_of data wp) in Hbars, Hrange.
  destruct (draw_braces_exact _ _ _ Hb) as [I1 I2].
  destruct (I1 _ _ _ Hrange) as (c' & Hc' & Hbrace).
  assert (c' = c) by congruence. subst c'.
  eexists. exists c, start_y. split; [exact Hfig|]. cbn [artists].
  split; [assumption|]. split; [|split].
  - intros k t Hk. apply in_or_app. left. apply Hbars.
    now apply draw_wp_tasks_nth.
  - intros Hlen. rewrite Hlen in *. unfold draw_brace in Hbrace.
    replace (start_y + Z.of_nat 1 - 1)%Z with start_y in * by lia.
    rewrite Z.eqb_refl in Hbrace. split.
    + do 3 (apply in_or_app; right). apply Hbrace. now left.
    + intros x0 x1 y0 y1 Hin [Hlo Hhi].
      apply in_app_or in Hin as [Hin|Hin].
      { pose proof (plot_tasks_no_lines _ _ _ _ _ Hst (Forall_nil _)) as Hn.
        rewrite Forall_forall in Hn. destruct (Hn _ Hin). discriminate. }
      apply in_app_or in Hin as [Hin|Hin].
      { destruct (draw_milestones_markers get_ylim (wp_colors_of data)
                    (filter is_milestone data) (drawn st))
          as [markers' [Hm' [Hv _]]].
        assert (markers' = markers) by congruence. subst markers'.
        rewrite Forall_forall in Hv. specialize (Hv _ Hin). discriminate. }
      apply in_app_or in Hin as [Hin|Hin].
      { pose proof (labels_are_text (filter is_milestone data)) as Hl.
        rewrite Forall_forall in Hl. destruct (Hl _ Hin) as [_ [Hp _]].
        discriminate. }
      destruct (I2 _ Hin) as (wp' & s & e & c' & Hr & Hdraw).
      pose proof Hr as Hbelow. rewrite Forall_forall in S2.
      apply S2 in Hbelow. unfold range_below in Hbelow. simpl in Hbelow.
      unfold draw_brace in Hdraw. destruct (Z.eqb_spec s e) as [Heq|Hneq].
      { destruct Hdraw as [Hdraw|[]]. discriminate. }
      destruct (sorted_members _ _ _ _ S1 Hrange Hr) as [Heq|[Hlt|Hlt]];
        unfold range_before in *; simpl in *.
      { inversion Heq. subst. lia. }
      * destruct Hdraw as [Hp|[Hp|[Hp|[Hp|[]]]]]; inversion Hp; subst.
        -- apply (not_on_brace_top s start_y); assumption.
        -- pose proof (between_brace_ends s e start_y Hlo Hhi). lia.
        -- apply (not_on_brace_bottom e start_y); assumption.
      * destruct Hdraw as [Hp|[Hp|[Hp|[Hp|[]]]]]; inversion Hp; subst.
        -- apply (not_on_brace_top s start_y); assumption.
        -- pose proof (between_brace_ends s e start_y Hlo Hhi). lia.
        -- apply (not_on_brace_bottom e start_y); assumption.
  - intros Hlen. unfold draw_brace in Hbrace.
    set (end_y := (start_y + Z.of_nat (List.length (wp_tasks_of data wp)) - 1)%Z)
      in *.
    destruct (Z.eqb_spec start_y end_y) as [Heq|Hneq]; [subst end_y; lia|].
    repeat split; do 3 (apply in_or_app; right); apply Hbrace; simpl; auto.
Qed.

(** C5: in every chart the renderer returns, for every work package
    with at least one record of type "Task", the bars of its tasks all
    have the package's colour and sit at the consecutive positions
    [start_y], [start_y + 1], ... in data order.  With more than one
    task, the three lines of a bracket are drawn, its vertical line
    running from 0.4 above the first position to 0.4 below the last, with
    the package label beside it; with a single task the label is placed
    at the bar's position and no line of any bracket passes that
    position.  The months are taken small enough for the differences of
    the frame's columns not to wrap around. *)
Theorem wp_block_and_bracket
        (get_ylim : list artist -> Q * Q)
        (refuses : list artist -> option exn)
        (data : list item) (fig : figure) (wp : string) :
  create_gantt_chart get_ylim refuses data = Return fig ->
  months_fit data = true ->
  wp_tasks_of data wp <> [] ->
  exists c start_y,
    dict_get (wp_colors_of data) wp = Some c
    /\ (forall k t,
          nth_error (wp_tasks_of data wp) k = Some t ->
          In (Barh (start_y + Z.of_nat k) (End_ t - Start t) (Start t) c)
             (artists fig))
    /\ (List.length (wp_tasks_of data wp) = 1%nat ->
        In (Text label_x (inject_Z start_y) (Labels.format_wp_name wp)
                 "right" "center" 15 c) (artists fig)
        /\ forall x0 x1 y0 y1,
             In (Plot x0 x1 y0 y1) (artists fig) ->
             ~ ((y0 <= inject_Z start_y)%Q /\ (inject_Z start_y <= y1)%Q))
    /\ ((1 < List.length (wp_tasks_of data wp))%nat ->
        let end_y :=
          (start_y + Z.of_nat (List.length (wp_tasks_of data wp)) - 1)%Z in
        let top := (inject_Z start_y - (4 # 10))%Q in
        let bottom := (inject_Z end_y + (4 # 10))%Q in
        In (Plot brace_x brace_x top bottom) (artists fig)
        /\ In (Plot brace_x (brace_x + (2 # 10))%Q top top) (artists fig)
        /\ In (Plot brace_x (brace_x + (2 # 10))%Q bottom bottom) (artists fig)
        /\ In (Text label_x (inject_Z (start_y + end_y) / 2)%Q
                    (Labels.format_wp_name wp) "right" "center" 25 c)
              (artists fig)).
Proof.
  intros Hret Hfit Hne.
  destruct (chart_returned _ _ _ _ Hret) as (_ & Hcalls & _).
  destruct (wp_block_in_calls get_ylim data wp Hne)
    as (fig' & c & start_y & Hfig & Hc & Hbars & Hone & Hmore).
  assert (fig' = fig) by congruence. subst fig'.
  exists c, start_y. split; [exact Hc|]. split; [|split; assumption].
  intros k t Hk.
  rewrite <- (months_fit_duration data t Hfit); [now apply Hbars|].
  apply nth_error_In in Hk. unfold wp_tasks_of in Hk.
  apply filter_In in Hk as [Hk _]. apply filter_In in Hk as [Hk _].
  exact Hk.
Qed.

Lemma wp_block_and_bracket_witness :
  exists fig c start_y,
    create_gantt_chart unit_ylim draws_all small_project = Return fig
    /\ dict_get (wp_colors_of small_project) "WP1: Design" = Some c
    /\ In (Barh (start_y + 1) 1 3 c) (artists fig)
    /\ In (Plot brace_x brace_x (inject_Z start_y - (4 # 10))%Q
                (inject_Z (start_y + Z.of_nat 2 - 1) + (4 # 10))%Q)
          (artists fig).
Proof.
  eexists.
  destruct (wp_block_and_bracket unit_ylim draws_all small_project _
                                 "WP1: Design" eq_refl)
    as (c & start_y & Hc & Hbars & _ & Hbrace).
  - reflexivity.
  - discriminate.
  - exists c, start_y. split; [reflexivity|]. split; [exact Hc|]. split.
    + apply (Hbars 1%nat t_review). reflexivity.
    + apply (Hbrace ltac:(vm_compute; lia)).
Defined.

End BracketClaims.

Section LabelLayoutClaims.
Import PyStr Chart.

Lemma labels_positions (positions : list (Z * string)) :
  map (fun l => (fst (fst l), snd l)) (label_y_positions positions) = positions.
Proof.
  apply nth_error_ext. intros i.
  rewrite nth_error_map, nth_error_labels.
  destruct (nth_error positions i) as [[x name]|]; reflexivity.
Qed.

(** C7: the labels of the milestones are laid out in nondecreasing order of
    start month, one label per milestone; when two consecutive labels are
    less than 4 months apart their heights differ; and every height is the
    base label height or one of three rows below it. *)
Theorem milestone_label_layout (milestones : list item) :
  let labels := label_y_positions (milestone_positions milestones) in
  milestone_labels milestones = map draw_label labels
  /\ Permutation (map (fun l => (fst (fst l), snd l)) labels)
                 (map (fun m => (Start m, Task m)) milestones)
  /\ (forall i a b,
        nth_error labels i = Some a ->
        nth_error labels (S i) = Some b ->
        (fst (fst a) <= fst (fst b))%Z
        /\ ((Z.abs (fst (fst b) - fst (fst a)) < 4)%Z ->
            ~ (snd (fst a) == snd (fst b))%Q))
  /\ Forall (fun l =>
               snd (fst l) = (base_y - (1 # 2))%Q
               \/ exists row,
                    (1 <= row <= 3)%nat
                    /\ snd (fst l)
                       = (base_y - inject_Z (Z.of_nat row) * (3 # 2))%Q
                    /\ (snd (fst l) < base_y - (1 # 2))%Q)
            labels.
Proof.
  intros labels. subst labels.
  set (positions := milestone_positions milestones).
  split; [|split; [|split]].
  - unfold milestone_labels. fold positions.
    destruct milestones; reflexivity.
  - rewrite labels_positions. apply sort_keeps.
  - intros i a b Ha Hb. rewrite nth_error_labels in Ha, Hb.
    destruct (nth_error positions i) as [pa|] eqn:Ea; [|discriminate].
    destruct (nth_error positions (S i)) as [pb|] eqn:Eb; [|discriminate].
    simpl in Ha, Hb. inversion Ha; inversion Hb; subst. cbn [fst snd].
    split.
    + apply tuple_leb_fst.
      apply (sorted_consecutive (fun a b => tuple_leb a b = true)
                                positions i pa pb); try assumption.
      apply sort_ordered.
    + intros Hclose. now apply close_labels_differ.
  - apply Forall_forall. intros l Hl.
    apply In_nth_error in Hl as [i Hi]. rewrite nth_error_labels in Hi.
    destruct (nth_error positions i) as [p|]; [|discriminate].
    simpl in Hi. inversion Hi; subst. cbn [fst snd].
    destruct (label_y_rows positions i (fst p)) as [E|[row [Hrow E]]];
      [now left | right].
    exists row. split; [assumption|]. split; [assumption|].
    rewrite E. apply row_below_base. lia.
Qed.

Lemma milestone_label_layout_witness :
  ~ (((-1) - (1 # 2)) == (base_y - inject_Z (Z.of_nat 2) * (3 # 2)))%Q.
Proof.
  apply (proj2 (proj1 (proj2 (proj2 (milestone_label_layout close_milestones)))
                 0%nat (1%Z, (base_y - (1 # 2))%Q, "Kick-off")
                 (3%Z, (base_y - inject_Z (Z.of_nat 2) * (3 # 2))%Q, "Design done")
                 eq_refl eq_refl)).
  reflexivity.
Defined.

End LabelLayoutClaims.

Section OtherTypeClaims.
Import PyStr Chart Validate.

Lemma to_dict_fields (r : item) :
  get_or_none (to_dict r) "Task" = PStr (Task r)
  /\ get_or_none (to_dict r) "Work Package" = PStr (Work_Package r)
  /\ get_or_none (to_dict r) "Start" = PInt (Start r)
  /\ get_or_none (to_dict r) "End" = PInt (End_ r)
  /\ get_or_none (to_dict r) "Type" = PStr (Type_ r).
Proof. destruct r as [t w s e ty [rel|]]; repeat split. Qed.

Lemma to_dict_has_columns (r : item) :
  existsb (fun col => negb (existsb (String.eqb col) (dict_keys (to_dict r))))
          required_columns = false.
Proof. destruct r as [t w s e ty [rel|]]; reflexivity. Qed.

Lemma record_values_present (r : item) :
  text_ok r = true ->
  existsb (fun col => value_missing (get_or_none (to_dict r) col))
          required_columns = false.
Proof.
  unfold text_ok. intros H.
  apply andb_true_iff in H as [H Hty]. apply andb_true_iff in H as [Ht Hw].
  apply negb_true_iff in Ht, Hw, Hty.
  destruct (to_dict_fields r) as (E1 & E2 & E3 & E4 & E5).
  unfold required_columns. cbn [existsb].
  rewrite E1, E2, E3, E4, E5. cbn [value_missing].
  now rewrite Ht, Hw, Hty.
Qed.

Lemma dicts_of_records (data : list item) :
  dicts_of (map (fun r => PDict (to_dict r)) data) = Some (map to_dict data).
Proof. apply dicts_of_some. symmetry. apply map_map. Qed.

Lemma records_values_present (data : list item) :
  forallb text_ok data = true ->
  existsb (fun item =>
             existsb (fun col => value_missing (get_or_none item col))
                     required_columns)
          (map to_dict data) = false.
Proof.
  induction data as [|r l IH]; [reflexivity|].
  cbn [map existsb forallb]. intros Hok.
  apply andb_true_iff in Hok as [Hr Hl].
  rewrite (record_values_present r Hr). cbn [orb]. now apply IH.
Qed.

(** Records with text in their three text fields pass the validation. *)
Lemma validate_records (data : list item) :
  data <> [] -> forallb text_ok data = true ->
  validate (to_data data) = Return true.
Proof.
  intros Hne Hok. apply validate_accepts. unfold rejected_by, to_data.
  rewrite dicts_of_records.
  destruct data as [|r data]; [congruence|].
  cbn [truthy map negb orb]. rewrite to_dict_has_columns. cbn [orb].
  change (to_dict r :: map to_dict data) with (map to_dict (r :: data)).
  now apply records_values_present.
Qed.

Lemma filter_drop {A} (f : A -> bool) (l1 l2 : list A) (x : A) :
  f x = false -> filter f (l1 ++ x :: l2) = filter f (l1 ++ l2).
Proof. intros H. rewrite !filter_app. simpl. now rewrite H. Qed.

(** C10, as stated, fails: a [Type] of one space is a non-empty text other
    than "Task" and "Milestone", and the record does not pass. *)
Lemma blank_type_rejected :
  Type_ r_blank <> ""
  /\ Type_ r_blank <> "Task" /\ Type_ r_blank <> "Milestone"
  /\ text_ok (mk_item (Task r_blank) (Work_Package r_blank) 2 5 "Task" None)
     = true
  /\ validate (to_data [r_blank]) = Raise (ValueError_missing_value 1 "Type").
Proof. repeat split; discriminate. Qed.

(** C10, amended: a record whose [Type] is a text that is not blank (not
    empty after [strip()]) and is neither "Task" nor "Milestone" passes
    [validate_data] together with the other records, and a chart the
    renderer returns for the data is the one drawn from the task and
    milestone records of the rest of the data: its bars are, one for one,
    those of the other records of type "Task", every vertical line is at
    the start month of another record of type "Milestone", and every text
    is the name of such a task, the wrapped name of such a milestone, or
    the label of a work package that has such tasks.  The record counts
    only for the list of work packages, from which the colours are taken.
    The months are taken small enough for the differences of the frame's
    columns not to wrap around. *)
Theorem other_type_omitted
        (get_ylim : list artist -> Q * Q)
        (refuses : list artist -> option exn)
        (before after : list item) (r : item) (fig : figure) :
  forallb text_ok (before ++ r :: after) = true ->
  Type_ r <> "Task" -> Type_ r <> "Milestone" ->
  create_gantt_chart get_ylim refuses (before ++ r :: after) = Return fig ->
  months_fit (before ++ r :: after) = true ->
  validate (to_data (before ++ r :: after)) = Return true
  /\ draw_chart get_ylim
       (work_packages_of (before ++ r :: after))
       (wp_colors_of (before ++ r :: after))
       (filter is_task (before ++ after))
       (filter is_milestone (before ++ after)) = Return fig
  /\ (exists bar_tasks,
        Permutation bar_tasks (filter is_task (before ++ after))
        /\ Forall2 bar_for bar_tasks (bars_of (artists fig)))
  /\ (forall x ymin ymax c,
        In (Axvline x ymin ymax c) (artists fig) ->
        exists m, In m (before ++ after)
                  /\ Type_ m = "Milestone" /\ x = Start m)
  /\ (forall x y s ha va rot c,
        In (Text x y s ha va rot c) (artists fig) ->
        (exists t, In t (before ++ after)
                   /\ Type_ t = "Task" /\ s = Task t)
        \/ (exists m, In m (before ++ after)
                      /\ Type_ m = "Milestone"
                      /\ s = Labels.format_milestone_name (Task m))
        \/ (exists wp, wp_tasks_of (before ++ after) wp <> []
                       /\ s = Labels.format_wp_name wp)).
Proof.
  intros Hok Hnt Hnm Hret Hfit.
  set (data := before ++ r :: after) in *.
  destruct (chart_returned _ _ _ _ Hret) as (Hne & Hfig & _).
  assert (is_task r = false) as Ht.
  { destruct (is_task r) eqn:E; [|reflexivity].
    apply is_task_type in E. contradiction. }
  assert (is_milestone r = false) as Hm.
  { destruct (is_milestone r) eqn:E; [|reflexivity].
    apply is_milestone_type in E. contradiction. }
  assert (filter is_task data = filter is_task (before ++ after)) as Et
      by (subst data; now apply filter_drop).
  assert (filter is_milestone data = filter is_milestone (before ++ after))
    as Em by (subst data; now apply filter_drop).
  assert (forall x, In x data -> x = r \/ In x (before ++ after)) as Hin.
  { subst data. intros x Hx. apply in_app_or in Hx as [Hx|[Hx|Hx]].
    - right. apply in_or_app. now left.
    - now left.
    - right. apply in_or_app. now right. }
  split; [now apply validate_records|].
  destruct (chart_bars get_ylim data _ Hfig) as [bar_tasks [Hp Hf]].
  destruct (chart_lines_and_texts get_ylim data _ Hfig) as [Hv Htx].
  split; [|split; [|split]].
  - rewrite <- Et, <- Em.
    unfold chart_calls in Hfig. destruct data; [congruence | exact Hfig].
  - exists bar_tasks. rewrite <- Et. split; [assumption|].
    apply (bar_rows_fit data); [assumption | | assumption].
    intros t Hbt. apply (Permutation_in _ Hp) in Hbt.
    apply filter_In in Hbt. tauto.
  - intros x ymin ymax c Ha.
    destruct (Hv _ _ _ _ Ha) as (m & Hmin & Hty & Hx).
    exists m. split; [|split; assumption].
    destruct (Hin m Hmin) as [->|H]; [contradiction | assumption].
  - intros x y s ha va rot c Ha.
    destruct (Htx _ _ _ _ _ _ _ Ha)
      as [(t & Hi & Hty & Hs)|[(m & Hi & Hty & Hs)|(wp & Hw & Hs)]].
    + left. exists t. split; [|split; assumption].
      destruct (Hin t Hi) as [->|H]; [contradiction | assumption].
    + right. left. exists m. split; [|split; assumption].
      destruct (Hin m Hi) as [->|H]; [contradiction | assumption].
    + right. right. exists wp. split; [|assumption].
      unfold wp_tasks_of in *. now rewrite <- Et.
Qed.

Lemma other_type_omitted_witness :
  validate (to_data small_project) = Return true
  /\ exists fig,
       create_gantt_chart unit_ylim draws_all small_project = Return fig
       /\ (exists bar_tasks,
             Permutation bar_tasks [t_design; t_review; t_build]
             /\ Forall2 bar_for bar_tasks (bars_of (artists fig))).
Proof.
  destruct (other_type_omitted unit_ylim draws_all
              [t_design; t_review; m_kickoff; t_build] [m_release] r_note _
              eq_refl ltac:(discriminate) ltac:(discriminate) eq_refl eq_refl)
    as (Hv & _ & Hbars & _).
  split; [exact Hv|]. eexists. split; [reflexivity | exact Hbars].
Defined.

End OtherTypeClaims.

(* ================================================================== *)
(** * Further properties of the code *)

(** ** Validation: what the error names, and what is not looked at *)

Section ValidateMore.
Import Validate.

Lemma check_item_first (i : nat) (item : dict) (cols : list string) (e : exn) :
  check_item i item cols = Raise e ->
  exists cols_before col cols_after,
    cols = cols_before ++ col :: cols_after
    /\ e = ValueError_missing_value (i + 1) col
    /\ value_missing (get_or_none item col) = true
    /\ Forall (fun c => value_missing (get_or_none item c) = false) cols_before.
Proof.
  induction cols as [|c cols IH]; simpl; [discriminate|].
  destruct (value_missing (get_or_none item c)) eqn:E.
  - intros H. inversion H; subst. exists [], c, cols. auto.
  - intros H. destruct (IH H) as (cb & col & ca & -> & He & Hm & Hf).
    exists (c :: cb), col, ca. repeat split; auto.
Qed.

Lemma check_item_clean (i : nat) (item : dict) (cols : list string) :
  check_item i item cols = Return tt ->
  Forall (fun c => value_missing (get_or_none item c) = false) cols.
Proof.
  induction cols as [|c cols IH]; simpl; [constructor|].
  destruct (value_missing (get_or_none item c)) eqn:E; [discriminate|].
  intros H. constructor; auto.
Qed.

Lemma check_items_first (i : nat) (items : list dict) (e : exn) :
  check_items i items = Raise e ->
  exists before item after cols_before col cols_after,
    items = before ++ item :: after
    /\ required_columns = cols_before ++ col :: cols_after
    /\ e = ValueError_missing_value (i + List.length before + 1) col
    /\ value_missing (get_or_none item col) = true
    /\ Forall (fun c => value_missing (get_or_none item c) = false) cols_before
    /\ Forall (fun it =>
                 Forall (fun c => value_missing (get_or_none it c) = false)
                        required_columns) before.
Proof.
  revert i. induction items as [|item items IH]; intros i;
    cbn -[required_columns]; [discriminate|].
  destruct (check_item i item required_columns) as [[]|e'] eqn:E;
    cbn -[required_columns].
  - intros H. destruct (IH _ H)
      as (before & it & after & cb & col & ca & -> & Hc & He & Hm & Hf & Hb).
    exists (item :: before), it, after, cb, col, ca.
    repeat split; auto.
    + rewrite He. simpl. f_equal. lia.
    + constructor; [now apply (check_item_clean i) | assumption].
  - intros H. inversion H; subst e'.
    destruct (check_item_first _ _ _ _ E) as (cb & col & ca & Hc & He & Hm & Hf).
    exists [], item, items, cb, col, ca. repeat split; auto.
    rewrite He. simpl. f_equal. lia.
Qed.

(** X1: when [validate_data] raises for a missing value, the row number
    and the column in its message are those of the first missing value:
    all rows before that row are complete, and in that row all required
    columns before that column hold a value. *)
Theorem validate_names_first_missing (data : pyval) (row : nat) (col : string) :
  validate data = Raise (ValueError_missing_value row col) ->
  exists before item after cols_before cols_after,
    data = PList (map PDict (before ++ item :: after))
    /\ row = (List.length before + 1)%nat
    /\ required_columns = cols_before ++ col :: cols_after
    /\ value_missing (get_or_none item col) = true
    /\ Forall (fun c => value_missing (get_or_none item c) = false) cols_before
    /\ Forall (fun it =>
                 Forall (fun c => value_missing (get_or_none it c) = false)
                        required_columns) before.
Proof.
  unfold validate, validate_data, pbind, load, raise, ret, lift.
  destruct (negb (truthy data)); [discriminate|].
  destruct data; try discriminate.
  destruct (dicts_of l) as [[|first items]|] eqn:D; try discriminate.
  destruct (missing_columns first); [|discriminate].
  destruct (check_items 0 (first :: items)) as [[]|e] eqn:E; [discriminate|].
  cbn [fst]. intros H. inversion H; subst e.
  destruct (check_items_first _ _ _ E)
    as (before & it & after & cb & c & ca & Hi & Hc & He & Hm & Hf & Hb).
  inversion He; subst.
  exists before, it, after, cb, ca. repeat split; auto.
  f_equal. apply dicts_of_some in D. rewrite D. now rewrite Hi.
Qed.

Lemma validate_names_first_missing_witness :
  exists before item after cols_before cols_after,
    Pipeline.second_row_blank = PList (map PDict (before ++ item :: after))
    /\ 2%nat = (List.length before + 1)%nat
    /\ required_columns = cols_before ++ "Start" :: cols_after
    /\ value_missing (get_or_none item "Start") = true
    /\ Forall (fun c => value_missing (get_or_none item c) = false) cols_before
    /\ Forall (fun it =>
                 Forall (fun c => value_missing (get_or_none it c) = false)
                        required_columns) before.
Proof.
  apply (validate_names_first_missing Pipeline.second_row_blank 2 "Start").
  reflexivity.
Defined.

Lemma keys_have (d : dict) (col : string) :
  existsb (String.eqb col) (dict_keys d)
  = match dict_get d col with Some _ => true | None => false end.
Proof.
  induction d as [|[k v] d IH]; simpl; [reflexivity|].
  rewrite (String.eqb_sym col k).
  destruct (String.eqb k col); [reflexivity | exact IH].
Qed.

Lemma get_or_none_agree (a b : dict) (col : string) :
  dict_get a col = dict_get b col -> get_or_none a col = get_or_none b col.
Proof. unfold get_or_none. now intros ->. Qed.

Lemma check_item_agree (i : nat) (a b : dict) (cols : list string) :
  (forall col, In col cols -> dict_get a col = dict_get b col) ->
  check_item i a cols = check_item i b cols.
Proof.
  induction cols as [|c cols IH]; intros H; simpl; [reflexivity|].
  rewrite (get_or_none_agree a b c) by (apply H; now left).
  destruct (value_missing (get_or_none b c)); [reflexivity|].
  apply IH. intros col Hc. apply H. now right.
Qed.

Lemma check_items_agree (i : nat) (items items' : list dict) :
  Forall2 (fun a b => forall col, In col required_columns ->
                                  dict_get a col = dict_get b col)
          items items' ->
  check_items i items = check_items i items'.
Proof.
  intros H. revert i. induction H as [|a b la lb Hab _ IH]; intros i;
    [reflexivity|].
  cbn -[required_columns]. rewrite (check_item_agree i a b _ Hab).
  destruct (check_item i b required_columns); cbn -[required_columns];
    [apply IH | reflexivity].
Qed.

(** X2: [validate_data] looks at nothing but the five required columns:
    two lists of records that agree, record by record, on what these
    columns hold get the same outcome, whatever other columns the records
    carry and in whatever order their columns are. *)
Theorem validate_only_required_columns (items items' : list dict) :
  Forall2 (fun a b => forall col, In col required_columns ->
                                  dict_get a col = dict_get b col)
          items items' ->
  validate (PList (map PDict items)) = validate (PList (map PDict items')).
Proof.
  intros H.
  unfold validate, validate_data, pbind, load, raise, ret, lift.
  rewrite !(proj2 (dicts_of_some _ _) eq_refl).
  destruct H as [|a b la lb Hab Hrest]; [reflexivity|].
  cbn [truthy map negb].
  assert (missing_columns a = missing_columns b) as Hm.
  { unfold missing_columns. apply filter_ext_in. intros col Hc.
    now rewrite !keys_have, (Hab col Hc). }
  rewrite Hm. destruct (missing_columns b); [|reflexivity].
  rewrite (check_items_agree 0 (a :: la) (b :: lb)) by now constructor.
  destruct (check_items 0 (b :: lb)); reflexivity.
Qed.

Lemma validate_only_required_columns_witness :
  validate (PList (map PDict [Pipeline.plain_record]))
  = validate (PList (map PDict [Pipeline.annotated_record])).
Proof.
  apply (validate_only_required_columns
           [Pipeline.plain_record] [Pipeline.annotated_record]).
  constructor; [|constructor].
  intros col Hc. simpl in Hc.
  destruct Hc as [<-|[<-|[<-|[<-|[<-|[]]]]]]; reflexivity.
Defined.

End ValidateMore.

(** ** Label wrapping: wrapping twice, and how full the lines are *)

Section LabelsMore.
Import PyStr Labels Filling.

Lemma wrap_lines_same_words (a b : string) :
  split a = split b -> wrap_lines a = wrap_lines b.
Proof. unfold wrap_lines. now intros ->. Qed.

(** X3: wrapping a wrapped label changes nothing:
    [format_milestone_name] applied to its own output returns it as it
    is. *)
Theorem format_milestone_name_idempotent (text : string) :
  format_milestone_name (format_milestone_name text)
  = format_milestone_name text.
Proof.
  unfold format_milestone_name.
  unfold wrap at 2. destruct (String.length text <=? 20)%nat eqn:E.
  - unfold wrap. now rewrite E.
  - unfold wrap. rewrite E.
    destruct (String.length (concat newline (wrap_lines text)) <=? 20)%nat;
      [reflexivity|].
    f_equal. apply wrap_lines_same_words.
    now rewrite split_concat_newline, wrap_lines_words.
Qed.

Lemma last_cons_default {A} (a : A) (l : list A) (d d' : A) :
  last (a :: l) d = last (a :: l) d'.
Proof.
  revert a. induction l as [|b l IH]; intros a; [reflexivity|].
  change (last (a :: b :: l) d) with (last (b :: l) d).
  change (last (a :: b :: l) d') with (last (b :: l) d'). apply IH.
Qed.

Lemma filled_from_snoc (prev : string) (ls : list string) (x : string) :
  filled_from prev (ls ++ [x])
  = filled_from prev ls && overflows (last ls prev) (first_word x).
Proof.
  revert prev. induction ls as [|l ls IH]; intros prev.
  - simpl. now rewrite andb_true_r.
  - cbn [app filled_from]. rewrite IH, andb_assoc. f_equal. f_equal.
    destruct ls as [|s ls]; [reflexivity|].
    change (last (l :: s :: ls) prev) with (last (s :: ls) prev).
    apply last_cons_default.
Qed.

Lemma filled_from_last (prev : string) (ls : list string) (x y : string) :
  first_word x = first_word y ->
  filled_from prev (ls ++ [x]) = filled_from prev (ls ++ [y]).
Proof. intros H. now rewrite !filled_from_snoc, H. Qed.

Lemma filled_last (ls : list string) (x y : string) :
  first_word x = first_word y -> filled (ls ++ [x]) = filled (ls ++ [y]).
Proof.
  intros H. destruct ls as [|l ls]; [reflexivity|].
  cbn [app filled]. now apply filled_from_last.
Qed.

Lemma filled_push (ls : list string) (x y : string) :
  filled (ls ++ [x]) = true -> overflows x (first_word y) = true ->
  filled ((ls ++ [x]) ++ [y]) = true.
Proof.
  intros Hf Ho. destruct ls as [|l ls].
  - simpl. now rewrite Ho.
  - cbn [app filled] in *. rewrite filled_from_snoc, Hf. cbn [andb].
    rewrite last_last. exact Ho.
Qed.

Lemma first_word_of_word (w : string) : is_word w = true -> first_word w = w.
Proof. intros H. unfold first_word. now rewrite (split_word _ H). Qed.

Lemma first_word_extended (cur w : string) :
  split cur <> [] -> first_word (cur ++ " " ++ w) = first_word cur.
Proof.
  intros H. unfold first_word.
  change (cur ++ " " ++ w)%string with (cur ++ String " " w)%string.
  rewrite split_space by reflexivity.
  destruct (split cur); [congruence | reflexivity].
Qed.

(** The loop closes a line only when the next word does not fit on it. *)
Lemma wrap_loop_filled (words lines : list string) (cur : string) :
  Forall (fun w => is_word w = true) words ->
  (cur = "" /\ lines = []) \/ (split cur <> [] /\ filled (lines ++ [cur]) = true) ->
  filled (close_lines (fst (wrap_loop words lines cur))
                      (snd (wrap_loop words lines cur))) = true.
Proof.
  intros Hw. revert lines cur.
  induction Hw as [|w words Hword _ IH]; intros lines cur Hinv.
  - simpl. unfold close_lines.
    destruct Hinv as [[-> ->]|[Hs Hf]]; [reflexivity|].
    destruct cur; [now elim Hs | exact Hf].
  - simpl wrap_loop.
    assert (split w <> []) as Hsw by (rewrite (split_word _ Hword); discriminate).
    destruct Hinv as [[-> ->]|[Hs Hf]].
    + simpl. apply IH. right. split; [assumption | reflexivity].
    + assert (is_empty cur = false) as Hne by (destruct cur; [now elim Hs | reflexivity]).
      rewrite Hne. simpl negb. cbv iota. cbn [andb].
      destruct (20 <? String.length (cur ++ String " " w))%nat eqn:Hlen;
        apply IH; right.
      * split; [assumption|]. apply filled_push; [assumption|].
        unfold overflows. rewrite (first_word_of_word _ Hword). exact Hlen.
      * split.
        -- change (cur ++ " " ++ w)%string with (cur ++ String " " w)%string.
           rewrite split_space by reflexivity.
           destruct (split cur); [congruence | discriminate].
        -- rewrite (filled_last lines _ cur); [assumption|].
           now apply first_word_extended.
Qed.

Lemma wrap_lines_filled (text : string) : filled (wrap_lines text) = true.
Proof.
  unfold wrap_lines.
  pose proof (wrap_loop_filled (split text) [] "" (split_words text)
                (or_introl (conj eq_refl eq_refl))) as H.
  destruct (wrap_loop (split text) [] "") as [ls c]. exact H.
Qed.

(** X4: the lines of a wrapped label are filled greedily: for a text of
    more than 20 characters, the first word of every line after the first
    would have taken the line before it beyond 20 characters.  The same
    holds for a work-package label whose rewritten name is longer than
    20. *)
Theorem wrapped_lines_filled (text : string) :
  (20 < String.length text)%nat ->
  filled (lines_of (format_milestone_name text)) = true
  /\ ((20 < String.length (formatted text))%nat ->
      filled (lines_of (format_wp_name text)) = true).
Proof.
  assert (forall t, (20 < String.length t)%nat ->
                    filled (lines_of (wrap t)) = true) as Hwrap.
  { intros t Ht. unfold wrap. apply Nat.leb_gt in Ht. rewrite Ht.
    pose proof (wrap_lines_filled t) as Hf.
    pose proof (wrap_lines_good t) as Hg.
    destruct (wrap_lines t) as [|l ls] eqn:E; [reflexivity|].
    unfold lines_of, newline. rewrite split_on_concat; [exact Hf | discriminate|].
    eapply Forall_impl; [|exact Hg]. intros x Hx. unfold good_line in Hx.
    apply andb_true_iff in Hx as [Hx _].
    apply andb_true_iff in Hx as [_ Hx]. now apply negb_true_iff in Hx. }
  intros Hlen. unfold format_milestone_name, format_wp_name.
  split; [now apply Hwrap | apply Hwrap].
Qed.

Lemma wrapped_lines_filled_witness :
  filled (lines_of (format_milestone_name long_label)) = true
  /\ filled (lines_of (format_wp_name long_label)) = true.
Proof.
  destruct (wrapped_lines_filled long_label ltac:(vm_compute; lia)) as [H1 H2].
  split; [exact H1 | apply H2; vm_compute; lia].
Defined.

End LabelsMore.

(** ** The converter as a program *)

Section StripFacts.
Import PyStr.

Lemma rstrip_idempotent (s : string) : rstrip (rstrip s) = rstrip s.
Proof.
  induction s as [|c s IH]; [reflexivity|].
  cbn [rstrip]. destruct (isspace c && is_empty (rstrip s)) eqn:E;
    [reflexivity|].
  cbn [rstrip]. now rewrite IH, E.
Qed.

Lemma lstrip_head (s : string) :
  lstrip s = "" \/ exists c r, lstrip s = String c r /\ isspace c = false.
Proof.
  induction s as [|c s IH]; [now left|].
  cbn [lstrip]. destruct (isspace c) eqn:E; [exact IH|].
  right. now exists c, s.
Qed.

Lemma strip_idempotent (s : string) : strip (strip s) = strip s.
Proof.
  unfold strip at 2 3. destruct (lstrip_head s) as [->|(c & r & -> & Hc)];
    [reflexivity|].
  cbn [rstrip]. rewrite Hc. cbn [andb]. unfold strip. cbn [lstrip].
  rewrite Hc. cbn [rstrip]. rewrite Hc. cbn [andb].
  now rewrite rstrip_idempotent.
Qed.

Lemma lstrip_keeps (a b : string) (c : ascii) :
  isspace c = false ->
  exists a', lstrip (a ++ String c b) = (a' ++ String c b)%string.
Proof.
  intros Hc. induction a as [|x a IH].
  - exists "". simpl. now rewrite Hc.
  - cbn [append lstrip]. destruct (isspace x); [exact IH|].
    now exists (String x a).
Qed.

Lemma rstrip_keeps (a b : string) (c : ascii) :
  isspace c = false -> rstrip (a ++ String c b) <> "".
Proof.
  intros Hc. induction a as [|x a IH].
  - simpl. rewrite Hc. discriminate.
  - cbn [append rstrip].
    destruct (rstrip (a ++ String c b)); [now elim IH|].
    rewrite andb_false_r. discriminate.
Qed.

(** A text with a character that is not white space is not blank. *)
Lemma strip_not_blank (a b : string) (c : ascii) :
  isspace c = false -> strip (a ++ String c b) <> "".
Proof.
  intros Hc. unfold strip.
  destruct (lstrip_keeps a b c Hc) as [a' ->]. now apply rstrip_keeps.
Qed.

End StripFacts.

Section ConvertRunFacts.
Import PyStr Convert ConvertRun.

Variable int_of_str : string -> option Z.

(** What the body of the task loop puts in a record. *)
Lemma convert_row_fields (task_type : string) (row : csv_row) (t : item) :
  convert_row int_of_str task_type row = Return t ->
  (exists number name, Task t = (number ++ " - " ++ name)%string)
  /\ strip (Work_Package t) = Work_Package t
  /\ (Type_ t = task_type \/ Type_ t = "Milestone")
  /\ Related_WPs t = None.
Proof.
  unfold convert_row. intros H.
  apply bind_return in H as [s [_ H]].
  apply bind_return in H as [e [_ H]].
  apply bind_return in H as [wp [Hwp H]].
  apply bind_return in H as [number [_ H]].
  apply bind_return in H as [name [_ H]].
  inversion H; subst; cbn [Task Work_Package Type_ Related_WPs].
  split; [now exists number, name|]. split; [|split; [|reflexivity]].
  - destruct (notna (Work_Package_cell row)).
    + unfold cell_strip in Hwp.
      destruct (Work_Package_cell row); inversion Hwp.
      apply strip_idempotent.
    + inversion Hwp. reflexivity.
  - destruct (s =? e)%Z; auto.
Qed.

Lemma convert_rows_fields (task_type : string) (rows : list csv_row)
      (tasks : list item) :
  convert_rows int_of_str task_type rows = Return tasks ->
  List.length tasks = List.length rows
  /\ Forall (fun t =>
               (exists number name, Task t = (number ++ " - " ++ name)%string)
               /\ strip (Work_Package t) = Work_Package t
               /\ (Type_ t = task_type \/ Type_ t = "Milestone")
               /\ Related_WPs t = None) tasks.
Proof.
  revert tasks. induction rows as [|row rows IH]; intros tasks H.
  - inversion H. split; [reflexivity | constructor].
  - cbn [convert_rows] in H.
    apply bind_return in H as [t [Ht H]].
    apply bind_return in H as [ts [Hts H]]. inversion H; subst.
    destruct (IH _ Hts) as [Hl Hf]. split; [simpl; now rewrite Hl|].
    constructor; [now apply (convert_row_fields task_type row) | assumption].
Qed.

(** What the body of the milestone loop puts in a record. *)
Lemma milestone_of_row_fields (has_related_wps : bool) (cols : list string)
      (row : list cell) (m : item) :
  milestone_of_row int_of_str has_related_wps cols row = Return m ->
  (exists number name, Task m = (number ++ " - " ++ name)%string)
  /\ Work_Package m = "Milestones"
  /\ Type_ m = "Milestone"
  /\ Start m = End_ m
  /\ py_int int_of_str (cell_at cols row "Due date (in month)")
     = Return (Start m)
  /\ match Related_WPs m with
     | Some r => has_related_wps = true
                 /\ exists s, cell_at cols row "Related WP(s)" = CStr s
                              /\ r = strip s
     | None => has_related_wps = false
               \/ notna (cell_at cols row "Related WP(s)") = false
     end.
Proof.
  unfold milestone_of_row. intros H.
  apply bind_return in H as [number [_ H]].
  apply bind_return in H as [name [_ H]].
  apply bind_return in H as [s [Hs H]].
  apply bind_return in H as [e [He H]].
  apply bind_return in H as [rel [Hr H]].
  inversion H; subst; cbn [Task Work_Package Type_ Start End_ Related_WPs].
  split; [now exists number, name|]. repeat split; try congruence.
  destruct has_related_wps; cbn [andb] in Hr.
  - destruct (notna (cell_at cols row "Related WP(s)")) eqn:N.
    + apply bind_return in Hr as [r [Hc Hr]]. inversion Hr; subst.
      split; [reflexivity|]. unfold cell_strip in Hc.
      destruct (cell_at cols row "Related WP(s)"); inversion Hc. eauto.
    + inversion Hr. now right.
  - inversion Hr. now left.
Qed.

Lemma milestones_of_rows_fields (has_related_wps : bool) (cols : list string)
      (rows : list (list cell)) (ms : list item) :
  milestones_of_rows int_of_str has_related_wps cols rows = Return ms ->
  List.length ms = List.length rows
  /\ Forall (fun m =>
               (exists number name, Task m = (number ++ " - " ++ name)%string)
               /\ Work_Package m = "Milestones"
               /\ Type_ m = "Milestone"
               /\ Start m = End_ m
               /\ (has_related_wps = false -> Related_WPs m = None)) ms.
Proof.
  revert ms. induction rows as [|row rows IH]; intros ms H.
  - inversion H. split; [reflexivity | constructor].
  - cbn [milestones_of_rows] in H.
    apply bind_return in H as [m [Hm H]].
    apply bind_return in H as [more [Hmore H]]. inversion H; subst.
    destruct (IH _ Hmore) as [Hl Hf]. split; [simpl; now rewrite Hl|].
    constructor; [|assumption].
    destruct (milestone_of_row_fields _ _ _ _ Hm)
      as (H1 & H2 & H3 & H4 & _ & H6).
    repeat split; try assumption.
    intros Hno. destruct (Related_WPs m); [|reflexivity].
    destruct H6 as [H6 _]. congruence.
Qed.

Lemma load_milestones_stops (w : world) (file : string) (s : status) :
  load_milestones int_of_str w file = Stop s ->
  s = SysExit 1 \/ exists e, s = Uncaught e.
Proof.
  unfold load_milestones.
  destruct (read_csv w file) as [df|]; [|intros H; inversion H; now left].
  destruct (missing_columns milestone_columns df);
    [|intros H; inversion H; now left].
  destruct (milestones_of_rows _ _ _ _); intros H; inversion H.
  right. eauto.
Qed.

Lemma with_milestones_stops (w : world) (mf : option string)
      (tasks : list item) (s : status) :
  with_milestones int_of_str w mf tasks = Stop s ->
  s = SysExit 1 \/ exists e, s = Uncaught e.
Proof.
  unfold with_milestones. destruct mf as [file|]; [|discriminate].
  destruct (is_empty file); [discriminate|].
  destruct (negb (path_exists w file)); [intros H; inversion H; now left|].
  destruct (load_milestones int_of_str w file) eqn:E; [discriminate|].
  intros H. inversion H; subst. now apply (load_milestones_stops w file).
Qed.

Lemma summarize_cases (tasks : list item) :
  (tasks = [] /\ summarize tasks = Uncaught_min_of_empty)
  \/ (tasks <> []
      /\ exists s, summarize tasks = Finished s
                   /\ total_tasks s = List.length tasks).
Proof.
  destruct tasks as [|t ts]; [now left|].
  right. split; [discriminate|]. unfold summarize. simpl. eauto.
Qed.

(** A run that leaves a file has read the task file, converted every
    row, added the milestones and opened the target. *)
Lemma convert_left (w : world) (csv_file output_file task_type : string)
      (mf : option string) (path : string) (content : written) (st : status) :
  convert_csv_to_yaml int_of_str w csv_file output_file task_type mf
  = ([(path, content)], st) ->
  exists df tasks all,
    read_csv w csv_file = Some df
    /\ convert_rows int_of_str task_type (map (task_row (columns df)) (rows df))
       = Return tasks
    /\ with_milestones int_of_str w mf tasks = Ok all
    /\ write_file w (target w output_file) (PDict [("tasks", to_data all)]) all
       = ([(path, content)], st).
Proof.
  unfold convert_csv_to_yaml.
  destruct (read_csv w csv_file) as [df|]; [|discriminate].
  destruct (missing_columns task_columns df); [|discriminate].
  destruct (convert_rows _ _ _) as [tasks|e] eqn:C; [|discriminate].
  destruct (with_milestones int_of_str w mf tasks) as [all|s] eqn:E;
    [|discriminate].
  intros H. exists df, tasks, all. auto.
Qed.

Lemma convert_written (w : world) (csv_file output_file task_type : string)
      (mf : option string) (path : string) (document : pyval) (st : status) :
  convert_csv_to_yaml int_of_str w csv_file output_file task_type mf
  = ([(path, Whole document)], st) ->
  exists df tasks all,
    read_csv w csv_file = Some df
    /\ convert_rows int_of_str task_type (map (task_row (columns df)) (rows df))
       = Return tasks
    /\ with_milestones int_of_str w mf tasks = Ok all
    /\ document = PDict [("tasks", to_data all)]
    /\ (st = SysExit 1 \/ st = summarize all).
Proof.
  intros H. destruct (convert_left _ _ _ _ _ _ _ _ H)
    as (df & tasks & all & Hr & Hc & Hm & Hw).
  exists df, tasks, all. repeat split; try assumption;
    unfold write_file in Hw;
    destruct (negb (writable w (target w output_file))); try discriminate;
    destruct (negb (dump_completes w (target w output_file)));
    try discriminate;
    destruct (negb (shows_check_mark w)); inversion Hw; auto.
Qed.

(** On a console without the check mark the run ends with exit status 1
    and leaves the whole file. *)
Example file_left_on_plain_console :
  exists document,
    convert_csv_to_yaml int_of_digits plain_console "tasks.csv" "out.yaml"
                        "Task" None
    = ([("out.yaml", Whole document)], SysExit 1).
Proof. eexists. reflexivity. Qed.

End ConvertRunFacts.

Section ConvertRunClaims.
Import PyStr Convert ConvertRun.

(** X5: the converter leaves at most one file, at the output path (with
    ".yaml" replaced by ".json" when PyYAML is missing), and only after
    every row of the task file and of the milestones file has been
    converted.  A run that ends normally has written the whole list, the
    converted task rows followed by the milestones, and reports its
    length.  A run that ends with exit status 1 can leave a file too:
    part of one when the dump fails, the whole of it when the success
    message cannot be printed.  A run without a file ends by
    [sys.exit(1)] or by an uncaught exception of a conversion. *)
Theorem convert_file_and_exit
        (int_of_str : string -> option Z) (w : world)
        (csv_file output_file task_type : string)
        (milestones_file : option string) :
  match convert_csv_to_yaml int_of_str w csv_file output_file task_type
                            milestones_file with
  | ([], st) => st = SysExit 1 \/ exists e, st = Uncaught e
  | ([(path, content)], st) =>
      path = target w output_file
      /\ exists df tasks all,
           read_csv w csv_file = Some df
           /\ convert_rows int_of_str task_type
                           (map (task_row (columns df)) (rows df))
              = Return tasks
           /\ with_milestones int_of_str w milestones_file tasks = Ok all
           /\ match content with
              | Part => st = SysExit 1 /\ dump_completes w path = false
              | Whole document =>
                  document = PDict [("tasks", to_data all)]
                  /\ ((st = SysExit 1 /\ shows_check_mark w = false)
                      \/ (all = [] /\ st = Uncaught_min_of_empty)
                      \/ (all <> []
                          /\ exists s, st = Finished s
                                       /\ total_tasks s = List.length all))
              end
  | _ => False
  end.
Proof.
  unfold convert_csv_to_yaml.
  destruct (read_csv w csv_file) as [df|]; [|now left].
  destruct (missing_columns task_columns df); [|now left].
  destruct (convert_rows _ _ _) as [tasks|e] eqn:C; [|right; eauto].
  destruct (with_milestones int_of_str w milestones_file tasks)
    as [all|s] eqn:E.
  - unfold write_file.
    destruct (writable w (target w output_file)); cbn [negb]; [|now left].
    destruct (dump_completes w (target w output_file)) eqn:D; cbn [negb].
    + destruct (shows_check_mark w) eqn:P; cbn [negb];
        (split; [reflexivity|]); exists df, tasks, all;
        do 3 (split; [first [reflexivity | assumption]|]);
        (split; [reflexivity|]).
      * right. apply summarize_cases.
      * left. auto.
    + split; [reflexivity|]. exists df, tasks, all.
      do 3 (split; [first [reflexivity | assumption]|]). auto.
  - now apply (with_milestones_stops int_of_str w milestones_file tasks).
Qed.

(** X6: a task file with a header and no rows (and no milestones) is
    written out as an empty task list, after which the summary fails on
    [min] of an empty list; the renderer then refuses that file, since
    [validate_data] finds no data in it. *)
Theorem header_only_file_written_then_refused
        (int_of_str : string -> option Z) (w : world) (df : frame)
        (csv_file output_file task_type : string) :
  read_csv w csv_file = Some df ->
  missing_columns task_columns df = [] ->
  rows df = [] ->
  writable w (target w output_file) = true ->
  dump_completes w (target w output_file) = true ->
  shows_check_mark w = true ->
  convert_csv_to_yaml int_of_str w csv_file output_file task_type None
  = ([(target w output_file, Whole (PDict [("tasks", PList [])]))],
     Uncaught_min_of_empty)
  /\ Pipeline.load_from_yaml true (PDict [("tasks", PList [])])
     = inr (PList [])
  /\ Validate.validate (PList []) = Raise ValueError_no_data.
Proof.
  intros Hr Hm Hrows Hw Hd Hp. unfold convert_csv_to_yaml.
  rewrite Hr, Hm, Hrows. simpl. unfold write_file.
  rewrite Hw, Hd, Hp. repeat split.
Qed.

Lemma header_only_file_written_then_refused_witness :
  convert_csv_to_yaml int_of_digits desk "empty.csv" "out.yaml" "Task" None
  = ([("out.yaml", Whole (PDict [("tasks", PList [])]))],
     Uncaught_min_of_empty)
  /\ Pipeline.load_from_yaml true (PDict [("tasks", PList [])])
     = inr (PList [])
  /\ Validate.validate (PList []) = Raise ValueError_no_data.
Proof.
  apply (header_only_file_written_then_refused
           int_of_digits desk header_only "empty.csv" "out.yaml" "Task");
    reflexivity.
Defined.

End ConvertRunClaims.

Section ConvertComposeFacts.
Import PyStr Convert ConvertRun Validate.

Variable int_of_str : string -> option Z.

Lemma with_milestones_ok (w : world) (mf : option string)
      (tasks all : list item) :
  with_milestones int_of_str w mf tasks = Ok all ->
  (all = tasks /\ (mf = None \/ exists file, mf = Some file /\ is_empty file = true))
  \/ exists file mdf ms,
       mf = Some file /\ is_empty file = false
       /\ read_csv w file = Some mdf
       /\ milestones_of_rows int_of_str (has_column mdf "Related WP(s)")
                             (columns mdf) (rows mdf) = Return ms
       /\ all = tasks ++ ms.
Proof.
  unfold with_milestones. destruct mf as [file|].
  - destruct (is_empty file) eqn:E.
    + intros H. inversion H. left. split; [reflexivity|]. right. eauto.
    + destruct (negb (path_exists w file)); [discriminate|].
      unfold load_milestones.
      destruct (read_csv w file) as [mdf|] eqn:R; [|discriminate].
      destruct (ConvertRun.missing_columns milestone_columns mdf); [|discriminate].
      destruct (milestones_of_rows _ _ _ _) as [ms|e] eqn:M; [|discriminate].
      intros H. inversion H. right. exists file, mdf, ms.
      repeat split; assumption.
  - intros H. inversion H. left. auto.
Qed.

Lemma task_name_not_blank (number name : string) :
  strip (number ++ " - " ++ name) <> "".
Proof.
  change (number ++ " - " ++ name)%string
    with (number ++ String " " (String "-" (String " " name)))%string.
  replace (number ++ String " " (String "-" (String " " name)))%string
    with ((number ++ " ") ++ String "-" (String " " name))%string
    by (now rewrite str_app_assoc).
  now apply strip_not_blank.
Qed.

Lemma record_values_missing (r : item) :
  text_ok r = false ->
  existsb (fun col => value_missing (get_or_none (to_dict r) col))
          required_columns = true.
Proof.
  unfold text_ok. intros H.
  destruct (to_dict_fields r) as (E1 & E2 & E3 & E4 & E5).
  unfold required_columns. cbn [existsb].
  rewrite E1, E2, E3, E4, E5. cbn [value_missing].
  destruct (strip (Task r) =? "")%string; [reflexivity|].
  destruct (strip (Work_Package r) =? "")%string; [reflexivity|].
  destruct (strip (Type_ r) =? "")%string; [reflexivity | discriminate].
Qed.

(** Loaded records pass the validation exactly when there is a record and
    no record has a blank text field. *)
Lemma validate_records_exactly (data : list item) :
  validate (to_data data) = Return true
  <-> data <> [] /\ forallb text_ok data = true.
Proof.
  split; [|intros [Hne Hok]; now apply validate_records].
  intros Hv. destruct data as [|r data]; [discriminate|].
  split; [discriminate|].
  destruct (forallb text_ok (r :: data)) eqn:F; [reflexivity|].
  destruct (validate_rejects (to_data (r :: data))) as [e [He _]];
    [|congruence].
  unfold rejected_by, to_data. rewrite dicts_of_records.
  cbn [truthy map negb orb]. apply orb_true_iff. right.
  change (to_dict r :: map to_dict data) with (map to_dict (r :: data)).
  apply existsb_exists.
  assert (exists x, In x (r :: data) /\ text_ok x = false) as [x [Hx Hf]].
  { clear Hv. induction (r :: data) as [|y l IH]; [discriminate|].
    cbn [forallb] in F. destruct (text_ok y) eqn:Ey.
    - destruct (IH F) as [x [Hx Hf]]. exists x. split; [now right | assumption].
    - exists y. split; [now left | assumption]. }
  exists (to_dict x). split; [now apply in_map | now apply record_values_missing].
Qed.

(** For a record with a name and a type that are not blank and a stripped
    work package, only an empty work package makes it fail. *)
Lemma text_ok_work_package (t : item) :
  strip (Task t) <> "" -> strip (Type_ t) <> "" ->
  strip (Work_Package t) = Work_Package t ->
  (text_ok t = true <-> Work_Package t <> "").
Proof.
  intros Ht Hty Hwp. unfold text_ok. rewrite Hwp.
  apply String.eqb_neq in Ht, Hty. rewrite Ht, Hty. cbn [negb andb].
  rewrite andb_true_r, negb_true_iff. apply String.eqb_neq.
Qed.

End ConvertComposeFacts.

Section ConvertComposeClaims.
Import PyStr Convert ConvertRun Validate.

(** X7: the file of a run that ends normally is loaded by the renderer as
    the list the converter built, and [validate_data] accepts that list
    exactly when no record has an empty work package, which the converter
    writes for a work-package cell of white space only.  Names and types
    never stand in the way: every name holds " - ", and the type is
    "Milestone" or the configured one (not blank). *)
Theorem converted_file_passes_validation
        (int_of_str : string -> option Z) (w : world)
        (csv_file output_file task_type : string)
        (milestones_file : option string)
        (path : string) (document : pyval) (s : summary) :
  convert_csv_to_yaml int_of_str w csv_file output_file task_type
                      milestones_file
  = ([(path, Whole document)], Finished s) ->
  strip task_type <> "" ->
  exists tasks,
    Pipeline.load_from_yaml true document = inr (to_data tasks)
    /\ (validate (to_data tasks) = Return true
        <-> Forall (fun t => Work_Package t <> "") tasks).
Proof.
  intros Hrun Hty.
  destruct (convert_written int_of_str _ _ _ _ _ _ _ _ Hrun)
    as (df & tasks & all & Hr & Hc & Hm & -> & [Hs|Hs]); [discriminate|].
  exists all. split; [reflexivity|].
  assert (all <> []) as Hne.
  { destruct (summarize_cases all) as [[_ E]|[E _]]; [congruence | exact E]. }
  assert (Forall (fun t => strip (Task t) <> "" /\ strip (Type_ t) <> ""
                           /\ strip (Work_Package t) = Work_Package t) all)
    as Hall.
  { destruct (convert_rows_fields int_of_str _ _ _ Hc) as [_ Hf].
    assert (Forall (fun t => strip (Task t) <> "" /\ strip (Type_ t) <> ""
                             /\ strip (Work_Package t) = Work_Package t) tasks)
      as Ht.
    { eapply Forall_impl; [|exact Hf].
      intros t ([number [name ->]] & Hwp & Htt & _).
      split; [apply task_name_not_blank|]. split; [|assumption].
      destruct Htt as [->| ->]; [assumption | discriminate]. }
    destruct (with_milestones_ok int_of_str _ _ _ _ Hm)
      as [[-> _]|(file & mdf & ms & _ & _ & _ & Hms & ->)]; [assumption|].
    apply Forall_app. split; [assumption|].
    destruct (milestones_of_rows_fields int_of_str _ _ _ _ Hms) as [_ Hf'].
    eapply Forall_impl; [|exact Hf'].
    intros m ([number [name ->]] & -> & -> & _).
    split; [apply task_name_not_blank|]. split; [discriminate | reflexivity]. }
  rewrite validate_records_exactly. split.
  - intros [_ Hok]. rewrite forallb_forall in Hok.
    rewrite Forall_forall in *. intros t Hin.
    destruct (Hall t Hin) as (H1 & H2 & H3).
    now apply (text_ok_work_package t H1 H2 H3), Hok.
  - intros Hwp. split; [assumption|]. apply forallb_forall. intros t Hin.
    rewrite Forall_forall in *.
    destruct (Hall t Hin) as (H1 & H2 & H3).
    now apply (text_ok_work_package t H1 H2 H3), Hwp.
Qed.

Lemma converted_file_passes_validation_witness :
  exists tasks,
    Pipeline.load_from_yaml true
      (PDict [("tasks",
               to_data [design_task; review_task;
                        mk_item "M1 - Kick-off" "Milestones" 1 1 "Milestone" None;
                        mk_item "M2 - Release" "Milestones" 9 9 "Milestone"
                                (Some "WP1")])])
    = inr (to_data tasks)
    /\ (validate (to_data tasks) = Return true
        <-> Forall (fun t => Work_Package t <> "") tasks).
Proof.
  apply (converted_file_passes_validation
           int_of_digits desk "tasks.csv" "out.yaml" "Task"
           (Some "milestones.csv") "out.yaml" _
           (mk_summary 4 ["Milestones"; "WP1: Default"; "WP1: Design"]
                       (1%Z, 9%Z))).
  - reflexivity.
  - discriminate.
Defined.

(** X8: with a milestones file, the list written is the list of the
    converted task rows, one record per row and in order, followed by the
    list of the converted rows of the milestones file, one record per row
    and in order; each of the latter has type "Milestone", work package
    "Milestones" and equal start and end months, and carries no
    [Related WPs] when the file has no "Related WP(s)" column. *)
Theorem milestones_follow_tasks
        (int_of_str : string -> option Z) (w : world)
        (csv_file output_file task_type file : string)
        (path : string) (document : pyval) (st : status) :
  is_empty file = false ->
  convert_csv_to_yaml int_of_str w csv_file output_file task_type (Some file)
  = ([(path, Whole document)], st) ->
  exists df mdf tasks ms,
    read_csv w csv_file = Some df
    /\ read_csv w file = Some mdf
    /\ convert_rows int_of_str task_type
                    (map (task_row (columns df)) (rows df)) = Return tasks
    /\ milestones_of_rows int_of_str (has_column mdf "Related WP(s)")
                          (columns mdf) (rows mdf) = Return ms
    /\ document = PDict [("tasks", to_data (tasks ++ ms))]
    /\ List.length tasks = List.length (rows df)
    /\ List.length ms = List.length (rows mdf)
    /\ Forall (fun m =>
                 Type_ m = "Milestone" /\ Work_Package m = "Milestones"
                 /\ Start m = End_ m
                 /\ (has_column mdf "Related WP(s)" = false ->
                     Related_WPs m = None)) ms.
Proof.
  intros Hfile Hrun.
  destruct (convert_written int_of_str _ _ _ _ _ _ _ _ Hrun)
    as (df & tasks & all & Hr & Hc & Hm & -> & _).
  destruct (with_milestones_ok int_of_str _ _ _ _ Hm)
    as [[_ [H|(f & Hf & He)]]|(f & mdf & ms & Hf & _ & Hrm & Hms & ->)].
  - discriminate.
  - inversion Hf; subst. congruence.
  - inversion Hf; subst f.
    destruct (convert_rows_fields int_of_str _ _ _ Hc) as [Hl _].
    destruct (milestones_of_rows_fields int_of_str _ _ _ _ Hms) as [Hl' Hf'].
    exists df, mdf, tasks, ms. repeat split; try assumption.
    + now rewrite Hl, length_map.
    + eapply Forall_impl; [|exact Hf'].
      intros m (_ & H2 & H3 & H4 & H5). auto.
Qed.

Lemma milestones_follow_tasks_witness :
  exists df mdf tasks ms,
    read_csv desk "tasks.csv" = Some df
    /\ read_csv desk "milestones.csv" = Some mdf
    /\ convert_rows int_of_digits "Task"
                    (map (task_row (columns df)) (rows df)) = Return tasks
    /\ milestones_of_rows int_of_digits (has_column mdf "Related WP(s)")
                          (columns mdf) (rows mdf) = Return ms
    /\ PDict [("tasks",
               to_data [design_task; review_task;
                        mk_item "M1 - Kick-off" "Milestones" 1 1 "Milestone" None;
                        mk_item "M2 - Release" "Milestones" 9 9 "Milestone"
                                (Some "WP1")])]
       = PDict [("tasks", to_data (tasks ++ ms))]
    /\ List.length tasks = List.length (rows df)
    /\ List.length ms = List.length (rows mdf)
    /\ Forall (fun m =>
                 Type_ m = "Milestone" /\ Work_Package m = "Milestones"
                 /\ Start m = End_ m
                 /\ (has_column mdf "Related WP(s)" = false ->
                     Related_WPs m = None)) ms.
Proof.
  apply (milestones_follow_tasks int_of_digits desk "tasks.csv" "out.yaml"
           "Task" "milestones.csv" "out.yaml" _
           (Finished (mk_summary 4 ["Milestones"; "WP1: Default"; "WP1: Design"]
                                 (1%Z, 9%Z)))).
  - reflexivity.
  - reflexivity.
Defined.

End ConvertComposeClaims.

(** ** The renderer: colours, positions, labels, errors *)

Section RendererMoreFacts.
Import PyStr Chart Pipeline.

Lemma dict_get_combine {V} (ks : list string) (vs : list V) (i : nat)
      (k : string) (v : V) :
  NoDup ks -> nth_error ks i = Some k -> nth_error vs i = Some v ->
  dict_get (combine ks vs) k = Some v.
Proof.
  revert vs i. induction ks as [|k0 ks IH]; intros vs i Hnd Hk Hv.
  - destruct i; discriminate.
  - destruct vs as [|v0 vs]; [destruct i; discriminate|].
    inversion Hnd as [|? ? Hnot Hnd']; subst.
    destruct i as [|i]; simpl in Hk, Hv.
    + inversion Hk; inversion Hv; subst. simpl. now rewrite String.eqb_refl.
    + simpl. destruct (String.eqb_spec k0 k) as [->|Hne].
      * exfalso. apply Hnot. now apply nth_error_In in Hk.
      * now apply (IH vs i).
Qed.

Lemma wp_colors_table (data : list item) :
  wp_colors_of data
  = combine (work_packages_of data)
            (palette (List.length (work_packages_of data))).
Proof.
  unfold wp_colors_of. apply dict_of_pairs_nodup.
  rewrite combine_keys by now rewrite palette_length.
  apply unique_nodup.
Qed.

Lemma palette_nth (n i : nat) :
  (i < n)%nat -> nth_error (palette n) i = Some (Set3 i n).
Proof.
  intros H. unfold palette. rewrite nth_error_map, nth_error_seq.
  apply Nat.ltb_lt in H. now rewrite H.
Qed.

Lemma wp_color_at (data : list item) (i : nat) (wp : string) :
  nth_error (work_packages_of data) i = Some wp ->
  dict_get (wp_colors_of data) wp
  = Some (Set3 i (List.length (work_packages_of data))).
Proof.
  intros H. rewrite wp_colors_table.
  apply (dict_get_combine _ _ i); [apply unique_nodup | assumption|].
  apply palette_nth. apply nth_error_Some. congruence.
Qed.

Lemma work_packages_first (first : item) (rest : list item) :
  exists more,
    work_packages_of (first :: rest) = Work_Package first :: more.
Proof. unfold work_packages_of, unique. simpl. eauto. Qed.

Lemma contains_empty (b : string) : contains "" b = true.
Proof. destruct b; reflexivity. Qed.

Lemma map_seq_from {B} (f : nat -> B) (a b : nat) :
  map f (seq a b) = map (fun k => f (a + k)%nat) (seq 0 b).
Proof.
  revert a. induction b as [|b IH]; intros a; [reflexivity|].
  cbn [seq map]. rewrite Nat.add_0_r. f_equal.
  rewrite IH, <- seq_shift, map_map.
  apply map_ext. intros k. f_equal. lia.
Qed.

Lemma bar_positions_app (l1 l2 : list artist) :
  bar_positions (l1 ++ l2) = bar_positions l1 ++ bar_positions l2.
Proof. apply flat_map_app. Qed.

Lemma bar_positions_none (l : list artist) :
  Forall (fun a => is_bar a = false) l -> bar_positions l = [].
Proof.
  induction 1 as [|a l Ha _ IH]; [reflexivity|].
  unfold bar_positions in *. simpl. rewrite IH.
  now destruct a.
Qed.

Lemma draw_task_label (c : color) (y : Z) (t : item) :
  duration t = (End_ t - Start t)%Z ->
  draw_task c y t = [Barh y (End_ t - Start t) (Start t) c; task_label c y t].
Proof. intros H. unfold draw_task, task_label. now rewrite H. Qed.

Lemma draw_task_no_top (c : color) (y : Z) (t : item) (a : artist) :
  In a (draw_task c y t) -> is_milestone_label a = false.
Proof.
  unfold draw_task. destruct (Qle_bool _ _); intros [<-|[<-|[]]]; reflexivity.
Qed.

Lemma draw_wp_tasks_positions (c : color) (l : list item) (y : Z) :
  bar_positions (fst (draw_wp_tasks c l y))
  = map (fun k => (y + Z.of_nat k)%Z) (seq 0 (List.length l)).
Proof.
  revert y. induction l as [|t l IH]; intros y; [reflexivity|].
  rewrite draw_wp_tasks_cons. cbn [fst List.length seq map].
  rewrite bar_positions_app, IH.
  unfold draw_task. cbn [bar_positions flat_map app].
  destruct (Qle_bool _ _); cbn [app]; rewrite Z.add_0_r; f_equal;
    rewrite <- seq_shift, map_map; apply map_ext; intros k; lia.
Qed.

Lemma draw_wp_tasks_member (c : color) (l : list item) (y : Z) (t : item) :
  In t l ->
  exists y', incl (draw_task c y' t) (fst (draw_wp_tasks c l y)).
Proof.
  revert y. induction l as [|t0 l IH]; intros y; [intros []|].
  rewrite draw_wp_tasks_cons. cbn [fst]. intros [->|Hin].
  - exists y. now apply incl_appl, incl_refl.
  - destruct (IH (y + 1)%Z Hin) as [y' Hy]. exists y'. now apply incl_appr.
Qed.

Lemma plot_tasks_positions (wp_colors : list (string * color))
      (tasks : list item) (wps : list string) (st st' : bar_state) :
  plot_tasks wp_colors tasks wps st = Return st' ->
  let m := List.length (flat_map (fun wp => filter (in_wp wp) tasks) wps) in
  bar_positions (drawn st')
  = bar_positions (drawn st)
    ++ map (fun k => (y_pos st + Z.of_nat k)%Z) (seq 0 m)
  /\ y_pos st' = (y_pos st + Z.of_nat m)%Z.
Proof.
  revert st. induction wps as [|wp wps IH]; intros st H.
  - simpl in H. inversion H; subst. simpl. rewrite app_nil_r. split; [reflexivity | lia].
  - destruct (filter (in_wp wp) tasks) as [|t ts] eqn:E.
    + rewrite plot_tasks_skip in H by assumption.
      cbn [flat_map]. rewrite E. cbn [app]. now apply IH.
    + destruct (dict_get wp_colors wp) as [c|] eqn:Hc.
      2:{ rewrite plot_tasks_missing_color in H by (congruence || assumption).
          discriminate. }
      rewrite (plot_tasks_step wp_colors tasks wp wps st c) in H
        by (congruence || assumption).
      destruct (IH _ H) as [Hp Hy]. cbn [drawn y_pos] in Hp, Hy.
      cbn [flat_map]. rewrite length_app.
      set (n := List.length (filter (in_wp wp) tasks)) in *.
      set (m := List.length (flat_map (fun wp => filter (in_wp wp) tasks) wps)) in *.
      split; [|lia].
      rewrite Hp, bar_positions_app, draw_wp_tasks_positions, <- app_assoc.
      f_equal. fold n. rewrite seq_app, map_app. f_equal.
      rewrite (map_seq_from _ (0 + n) m). apply map_ext. intros k. lia.
Qed.

End RendererMoreFacts.

Section RendererMoreClaims.
Import PyStr Chart Pipeline.

(** X9: the colour of a work package depends only on the order in which
    the packages first appear in the data: the package at position [i]
    among [n] packages is given entry [i] of the [n] palette colours. *)
Theorem wp_colour_by_first_appearance (data : list item) (i : nat) (wp : string) :
  nth_error (work_packages_of data) i = Some wp ->
  dict_get (wp_colors_of data) wp
  = Some (Set3 i (List.length (work_packages_of data))).
Proof. apply wp_color_at. Qed.

Lemma wp_colour_by_first_appearance_witness :
  dict_get (wp_colors_of small_project) "Milestones" = Some (Set3 1 3).
Proof.
  apply (wp_colour_by_first_appearance small_project 1 "Milestones").
  reflexivity.
Defined.

(** X10: a milestone whose [Related WPs] is blank text (nothing but white
    space, no comma) is not drawn gray: the empty identifier is contained
    in every name, so the marker is one full-height line in the colour of
    the first work package of the data. *)
Theorem blank_related_takes_first_colour
        (get_ylim : list artist -> Q * Q) (first : item) (rest : list item)
        (so_far : list artist) (m : item) (related : string) :
  Related_WPs m = Some related ->
  has_char comma related = false ->
  strip related = "" ->
  exists c,
    dict_get (wp_colors_of (first :: rest)) (Work_Package first) = Some c
    /\ c = Set3 0 (List.length (work_packages_of (first :: rest)))
    /\ draw_milestone get_ylim (wp_colors_of (first :: rest)) so_far m
       = Return [Axvline (Start m) 0 1 c].
Proof.
  intros Hrel Hcomma Hblank.
  destruct (work_packages_first first rest) as [more Hwps].
  assert (dict_get (wp_colors_of (first :: rest)) (Work_Package first)
          = Some (Set3 0 (List.length (work_packages_of (first :: rest)))))
    as Hc by (apply wp_color_at; now rewrite Hwps).
  eexists. split; [exact Hc|]. split; [reflexivity|].
  remember (Set3 0 (List.length (work_packages_of (first :: rest)))) as c.
  unfold draw_milestone. rewrite Hrel.
  unfold milestone_colors, related_wps_of, split_on.
  rewrite (split_on_aux_no_sep comma related "" Hcomma).
  cbn [append map]. rewrite Hblank. cbn [collect_colors].
  unfold resolve. rewrite wp_colors_keys, Hwps. cbn [find].
  rewrite contains_empty. unfold dict_index. rewrite Hc. reflexivity.
Qed.

Lemma blank_related_takes_first_colour_witness :
  exists c,
    dict_get (wp_colors_of small_project) "WP1: Design" = Some c
    /\ c = Set3 0 3
    /\ draw_milestone unit_ylim (wp_colors_of small_project) []
         (mk_item "Review" "Milestones" 4 4 "Milestone" (Some "  "))
       = Return [Axvline 4 0 1 c].
Proof.
  apply (blank_related_takes_first_colour unit_ylim t_design
           [t_review; m_kickoff; t_build; r_note; m_release] []
           (mk_item "Review" "Milestones" 4 4 "Milestone" (Some "  ")) "  ");
    reflexivity.
Defined.


(** X12: the bars take the positions 0, 1, 2, ... in drawing order, one
    per record of type "Task", and the y axis is limited to the number of
    bars at the bottom and -4 at the top; without a task record no limit
    is set. *)
Theorem bars_fill_positions
        (get_ylim : list artist -> Q * Q)
        (refuses : list artist -> option exn)
        (data : list item) (fig : figure) :
  create_gantt_chart get_ylim refuses data = Return fig ->
  let n := List.length (filter is_task data) in
  bar_positions (artists fig) = map Z.of_nat (seq 0 n)
  /\ ylim fig = if (n =? 0)%nat then None else Some (Z.of_nat n, (-4)%Z).
Proof.
  intros Hret n.
  destruct (chart_returned _ _ _ _ Hret) as (Hne & Hf & _).
  destruct (chart_calls_parts get_ylim data Hne)
    as (st & markers & braces & Hst & Hm & Hb & Hfig).
  rewrite Hfig in Hf. inversion Hf; subst fig. cbn [artists ylim].
  destruct (plot_tasks_positions _ _ _ _ _ Hst) as [Hp Hy].
  cbn [init_state drawn y_pos bar_positions flat_map app] in Hp, Hy.
  assert (List.length
            (flat_map (fun wp => filter (in_wp wp) (filter is_task data))
                      (work_packages_of data)) = n) as Hn.
  { apply Permutation_length, group_by_wp_perm; [apply unique_nodup|].
    intros t Ht. apply filter_In in Ht as [Ht _]. now apply work_packages_in. }
  rewrite Hn in Hp, Hy. split.
  - rewrite !bar_positions_app, Hp.
    destruct (draw_milestones_markers get_ylim (wp_colors_of data)
                (filter is_milestone data) (drawn st))
      as [markers' [Hm' [Hv _]]].
    assert (markers' = markers) by congruence. subst markers'.
    rewrite (bar_positions_none markers),
      (bar_positions_none (milestone_labels _)),
      (bar_positions_none braces), !app_nil_r.
    + apply map_ext. intros k. lia.
    + eapply Forall_impl; [|apply (braces_no_bars _ _ _ Hb)].
      intros a [Ha _]. exact Ha.
    + eapply Forall_impl; [|apply labels_are_text].
      intros a [Ha _]. exact Ha.
    + eapply Forall_impl; [|exact Hv]. intros a Ha. now destruct a.
  - rewrite Hy. destruct n as [|n']; [reflexivity|].
    cbn [Nat.eqb]. rewrite Z.add_0_l.
    destruct (Z.ltb_spec 0 (Z.of_nat (S n'))) as [_|H]; [reflexivity | lia].
Qed.

Lemma bars_fill_positions_witness :
  exists fig,
    create_gantt_chart unit_ylim draws_all small_project = Return fig
    /\ bar_positions (artists fig) = [0%Z; 1%Z; 2%Z]
    /\ ylim fig = Some (3%Z, (-4)%Z).
Proof.
  eexists. split; [reflexivity|].
  exact (bars_fill_positions unit_ylim draws_all small_project _ eq_refl).
Defined.

(** X13: in every chart the renderer returns, each record of type
    "Task" has its bar, in the colour of its work package, and its name
    at the same position, placed by the test of the source: centred in
    the bar, in black, when the bar is at least 0.5 wide, and otherwise
    left-aligned 0.1 to the right of the bar's end, in the package
    colour.  The months are whole numbers, small enough for the
    differences of the frame's columns not to wrap around. *)
Theorem task_bar_and_name
        (get_ylim : list artist -> Q * Q)
        (refuses : list artist -> option exn)
        (data : list item) (fig : figure) (t : item) :
  create_gantt_chart get_ylim refuses data = Return fig ->
  months_fit data = true ->
  In t data -> Type_ t = "Task" ->
  exists c y,
    dict_get (wp_colors_of data) (Work_Package t) = Some c
    /\ In (Barh y (End_ t - Start t) (Start t) c) (artists fig)
    /\ In (if Qle_bool (1 # 2) (inject_Z (End_ t - Start t))
           then Text (inject_Z (Start t) + inject_Z (End_ t - Start t) / 2)%Q
                     (inject_Z y) (Task t) "center" "center" 0 (Named "black")
           else Text (inject_Z (Start t) + inject_Z (End_ t - Start t)
                      + (1 # 10))%Q
                     (inject_Z y) (Task t) "left" "center" 0 c)
          (artists fig).
Proof.
  intros Hret Hfit Hin Hty.
  destruct (chart_returned _ _ _ _ Hret) as (Hne & Hcalls & _).
  destruct (chart_calls_parts get_ylim data Hne)
    as (st & markers & braces & Hst & Hm & Hb & Hfig).
  rewrite Hfig in Hcalls. inversion Hcalls; subst fig. clear Hcalls.
  assert (In t (filter (in_wp (Work_Package t)) (filter is_task data))) as Ht.
  { apply filter_In. split.
    - apply filter_In. split; [assumption | now apply is_task_type].
    - unfold in_wp. apply String.eqb_refl. }
  destruct (plot_tasks_layout _ _ _ _ _ Hst (unique_nodup _))
    as (_ & _ & _ & _ & _ & S6); simpl; try constructor; auto.
  destruct (S6 (Work_Package t)) as (c & start_y & Hc & Hbars & _).
  { now apply work_packages_in. }
  { intros E. rewrite E in Ht. contradiction. }
  destruct (draw_wp_tasks_member c _ start_y t Ht) as [y Hy].
  rewrite (draw_task_label c y t (months_fit_duration data t Hfit Hin)) in Hy.
  exists c, y. split; [assumption|].
  cbn [artists]. unfold task_label in Hy.
  split; apply in_or_app; left; apply Hbars, Hy; simpl; auto.
Qed.

Lemma task_bar_and_name_witness :
  exists fig c y,
    create_gantt_chart unit_ylim draws_all small_project = Return fig
    /\ dict_get (wp_colors_of small_project) "WP2: Build" = Some c
    /\ In (Barh y 5 4 c) (artists fig)
    /\ In (Text (inject_Z 4 + inject_Z (9 - 4) / 2)%Q (inject_Z y) "Build"
                "center" "center" 0 (Named "black"))
          (artists fig).
Proof.
  eexists.
  destruct (task_bar_and_name unit_ylim draws_all small_project _ t_build
                              eq_refl eq_refl)
    as (c & y & Hc & Hbar & Htext).
  - simpl. tauto.
  - reflexivity.
  - exists c, y. split; [reflexivity|]. split; [exact Hc|].
    split; [exact Hbar | exact Htext].
Defined.

End RendererMoreClaims.

(** ** The main program of the renderer *)

Section MainFacts.
Import PyStr Chart Pipeline.

Lemma fold_min_le (r : list Z) (x : Z) :
  (fold_left Z.min r x <= x)%Z
  /\ Forall (fun y => (fold_left Z.min r x <= y)%Z) r.
Proof.
  revert x. induction r as [|y r IH]; intros x; simpl.
  - split; [lia | constructor].
  - destruct (IH (Z.min x y)) as [H1 H2]. split; [lia|].
    constructor; [lia | assumption].
Qed.

Lemma fold_max_ge (r : list Z) (x : Z) :
  (x <= fold_left Z.max r x)%Z
  /\ Forall (fun y => (y <= fold_left Z.max r x)%Z) r.
Proof.
  revert x. induction r as [|y r IH]; intros x; simpl.
  - split; [lia | constructor].
  - destruct (IH (Z.max x y)) as [H1 H2]. split; [lia|].
    constructor; [lia | assumption].
Qed.

Lemma list_min_least (l : list Z) (m : Z) :
  ConvertRun.list_min l = Some m -> forall x, In x l -> (m <= x)%Z.
Proof.
  destruct l as [|x0 r]; [discriminate|]. simpl. intros H.
  inversion H; subst m.
  destruct (fold_min_le r x0) as [Hx0 Hr]. rewrite Forall_forall in Hr.
  intros x [<-|Hx]; auto.
Qed.

Lemma list_max_greatest (l : list Z) (m : Z) :
  ConvertRun.list_max l = Some m -> forall x, In x l -> (x <= m)%Z.
Proof.
  destruct l as [|x0 r]; [discriminate|]. simpl. intros H.
  inversion H; subst m.
  destruct (fold_max_ge r x0) as [Hx0 Hr]. rewrite Forall_forall in Hr.
  intros x [<-|Hx]; auto.
Qed.

Lemma labels_length (ms : list item) :
  List.length (milestone_labels ms) = List.length ms.
Proof.
  unfold milestone_labels. destruct ms as [|m ms]; [reflexivity|].
  unfold label_y_positions, enumerate, milestone_positions.
  rewrite !length_map, length_combine, length_seq, Nat.min_id.
  rewrite (Permutation_length (sort_keeps _)). now rewrite length_map.
Qed.

Lemma labels_all_top (ms : list item) :
  filter is_milestone_label (milestone_labels ms) = milestone_labels ms.
Proof.
  apply forallb_filter_id. apply forallb_forall. intros a Ha.
  destruct (milestone_labels_sources _ _ Ha) as (m & x & y & _ & ->).
  reflexivity.
Qed.

Lemma filter_none {A} (f : A -> bool) (l : list A) :
  (forall a, In a l -> f a = false) -> filter f l = [].
Proof.
  induction l as [|a l IH]; intros H; [reflexivity|].
  simpl. rewrite (H a (or_introl eq_refl)). apply IH.
  intros b Hb. apply H. now right.
Qed.

End MainFacts.

Section MainClaims.
Import PyStr Chart Pipeline.


End MainClaims.

Section ReportClaims.
Import PyStr Chart Pipeline.

(** X15: the closing report agrees with the chart: the number of tasks
    it prints is the number of bars, the number of milestones is the
    number of milestone labels, and every bar that does not run backwards
    (its width is not negative) lies within the months the report gives
    as the span of the project.  The months are taken small enough for
    the differences of the frame's columns not to wrap around. *)
Theorem report_matches_chart
        (get_ylim : list artist -> Q * Q)
        (refuses : list artist -> option exn) (shown : figure -> bool)
        (data : list item) (fig : figure) (r : report) :
  main_from_data get_ylim refuses shown data = Completed fig r ->
  months_fit data = true ->
  total_tasks r = List.length (bars_of (artists fig))
  /\ total_milestones r
     = List.length (filter is_milestone_label (artists fig))
  /\ forall y width left c,
       In (Barh y width left c) (artists fig) ->
       (0 <= width)%Z ->
       (first_month r <= left <= left + width)%Z
       /\ (left + width <= last_month r)%Z.
Proof.
  unfold main_from_data. intros H Hfit.
  destruct (Validate.validate (to_data data)); [|discriminate].
  destruct (create_gantt_chart get_ylim refuses data) as [fig'|] eqn:Hret;
    [|discriminate].
  destruct (negb (shown fig')); [discriminate|].
  destruct (ConvertRun.list_min (map Start data)) as [first|] eqn:Hmin;
    [|discriminate].
  destruct (ConvertRun.list_max (map End_ data)) as [last|] eqn:Hmax;
    [|discriminate].
  inversion H; subst fig' r. cbn [total_tasks total_milestones
                                   first_month last_month].
  destruct (chart_returned _ _ _ _ Hret) as (Hne & Hc & _).
  destruct (chart_bars get_ylim data fig Hc) as [bar_tasks [Hperm Hrows]].
  assert (Forall2 bar_for bar_tasks (bars_of (artists fig))) as Hbars.
  { apply (bar_rows_fit data); [assumption | | assumption].
    intros t Ht. apply (Permutation_in _ Hperm) in Ht.
    apply filter_In in Ht. tauto. }
  split; [|split].
  - rewrite <- (forall2_same_length _ _ _ Hbars).
    symmetry. now apply Permutation_length.
  - destruct (chart_calls_parts get_ylim data Hne)
      as (st & markers & braces & Hst & Hm & Hb & Hfig).
    rewrite Hfig in Hc. inversion Hc; subst fig. cbn [artists].
    rewrite !filter_app.
    destruct (plot_tasks_sources _ _ _ _ _ Hst) as [P1 _].
    destruct (draw_braces_exact _ _ _ Hb) as [_ B2].
    rewrite (filter_none is_milestone_label (drawn st)),
      (filter_none is_milestone_label markers),
      (filter_none is_milestone_label braces), labels_all_top.
    + cbn [app]. now rewrite app_nil_r, labels_length.
    + intros art Ha. destruct (B2 art Ha) as (wp & s & e & c & _ & Hd).
      unfold draw_brace in Hd. destruct (s =? e)%Z.
      * destruct Hd as [<-|[]]. reflexivity.
      * destruct Hd as [<-|[<-|[<-|[<-|[]]]]]; reflexivity.
    + intros art Ha.
      destruct (draw_milestones_sources _ _ _ _ _ Hm art Ha)
        as (m & ymin & ymax & c & _ & ->). reflexivity.
    + intros art Ha. destruct (P1 art Ha) as [[]|(t & c & y & _ & Hd)].
      exact (draw_task_no_top c y t art Hd).
  - intros y width left c Hin Hw.
    assert (In (Barh y width left c) (bars_of (artists fig))) as Hb
        by (apply filter_In; split; [assumption | reflexivity]).
    destruct (forall2_source _ _ _ _ Hbars Hb) as [t [Ht [y' [c' Heq]]]].
    inversion Heq; subst.
    apply (Permutation_in _ Hperm) in Ht. apply filter_In in Ht as [Ht _].
    assert (first <= Start t)%Z
      by (apply (list_min_least _ _ Hmin); now apply in_map).
    assert (End_ t <= last)%Z
      by (apply (list_max_greatest _ _ Hmax); now apply in_map).
    lia.
Qed.

Lemma report_matches_chart_witness :
  exists fig r,
    main_from_data unit_ylim draws_all (fun _ => true) small_project
    = Completed fig r
    /\ total_tasks r = List.length (bars_of (artists fig))
    /\ total_milestones r
       = List.length (filter is_milestone_label (artists fig)).
Proof.
  do 2 eexists. split; [reflexivity|].
  destruct (report_matches_chart unit_ylim draws_all (fun _ => true)
                                 small_project _ _ eq_refl eq_refl)
    as (H1 & H2 & _).
  split; assumption.
Defined.

End ReportClaims.

(** ** The label layout does not depend on the order of the data *)

Section OrderFacts.
Import PyStr Chart.

Lemma string_leb_compare (s t : string) :
  String.leb s t = true <-> String.compare s t <> Gt.
Proof.
  unfold String.leb. destruct (String.compare s t); split; intros H;
    try reflexivity; try discriminate; try (intros E; discriminate E).
  now elim H.
Qed.

Lemma string_compare_trans (a b c : string) :
  String.compare a b <> Gt -> String.compare b c <> Gt ->
  String.compare a c <> Gt.
Proof.
  revert b c. induction a as [|x a IH]; intros b c Hab Hbc.
  - destruct c; discriminate.
  - destruct b as [|y b]; [now elim Hab|].
    destruct c as [|z c]; [now elim Hbc|].
    cbn [String.compare] in *. unfold Ascii.compare in *.
    destruct (N.compare_spec (N_of_ascii x) (N_of_ascii y)) as [E1|L1|G1];
      [| |now elim Hab];
      (destruct (N.compare_spec (N_of_ascii y) (N_of_ascii z)) as [E2|L2|G2];
       [| |now elim Hbc]).
    + rewrite E1, E2, N.compare_refl. now apply (IH b c).
    + rewrite E1. apply N.compare_lt_iff in L2. rewrite L2. discriminate.
    + rewrite <- E2. apply N.compare_lt_iff in L1. rewrite L1. discriminate.
    + assert (N_of_ascii x < N_of_ascii z)%N as L by lia.
      apply N.compare_lt_iff in L. rewrite L. discriminate.
Qed.

Lemma string_leb_trans (a b c : string) :
  String.leb a b = true -> String.leb b c = true -> String.leb a c = true.
Proof.
  rewrite !string_leb_compare. apply string_compare_trans.
Qed.

Lemma tuple_leb_trans (a b c : Z * string) :
  tuple_leb a b = true -> tuple_leb b c = true -> tuple_leb a c = true.
Proof.
  unfold tuple_leb. intros Hab Hbc.
  apply orb_true_iff in Hab. apply orb_true_iff in Hbc. apply orb_true_iff.
  destruct Hab as [Hab|Hab], Hbc as [Hbc|Hbc];
    rewrite ?andb_true_iff, ?Z.ltb_lt, ?Z.eqb_eq in *.
  - left. lia.
  - left. lia.
  - left. lia.
  - right. destruct Hab as [E1 L1], Hbc as [E2 L2].
    split; [lia | now apply (string_leb_trans _ (snd b))].
Qed.

Lemma tuple_leb_antisym (a b : Z * string) :
  tuple_leb a b = true -> tuple_leb b a = true -> a = b.
Proof.
  unfold tuple_leb. intros Hab Hba.
  apply orb_true_iff in Hab. apply orb_true_iff in Hba.
  destruct Hab as [Hab|Hab], Hba as [Hba|Hba];
    rewrite ?andb_true_iff, ?Z.ltb_lt, ?Z.eqb_eq in *; try lia.
  destruct Hab as [E1 L1], Hba as [_ L2].
  destruct a as [x s], b as [y t]. simpl in *.
  f_equal; [assumption | now apply String.leb_antisym].
Qed.

(** Two ordered lists with the same elements are the same list. *)
Lemma ordered_unique (l1 l2 : list (Z * string)) :
  Sorted (fun a b => tuple_leb a b = true) l1 ->
  Sorted (fun a b => tuple_leb a b = true) l2 ->
  Permutation l1 l2 -> l1 = l2.
Proof.
  intros S1 S2.
  assert (Relations_1.Transitive (fun a b => tuple_leb a b = true)) as T
      by (intros a b c; apply tuple_leb_trans).
  apply (Sorted_StronglySorted T) in S1. apply (Sorted_StronglySorted T) in S2.
  clear T. revert l2 S2.
  induction S1 as [|x l1 S1 IH F1]; intros l2 S2 P.
  - apply Permutation_nil in P. now subst.
  - destruct l2 as [|y l2];
      [apply Permutation_sym, Permutation_nil in P; discriminate|].
    inversion S2 as [|? ? S2' F2]; subst.
    assert (x = y) as E.
    { assert (In x (y :: l2)) as Hx
          by (apply (Permutation_in _ P); now left).
      assert (In y (x :: l1)) as Hy
          by (apply (Permutation_in _ (Permutation_sym P)); now left).
      destruct Hx as [Hx|Hx]; [now subst|].
      destruct Hy as [Hy|Hy]; [now subst|].
      rewrite Forall_forall in F1, F2.
      apply tuple_leb_antisym; [now apply F1 | now apply F2]. }
    subst y. f_equal. apply IH; [assumption|].
    now apply Permutation_cons_inv in P.
Qed.

Lemma milestone_positions_order (ms ms' : list item) :
  Permutation ms ms' -> milestone_positions ms = milestone_positions ms'.
Proof.
  intros P. unfold milestone_positions.
  apply ordered_unique; try apply sort_ordered.
  eapply Permutation_trans; [apply sort_keeps|].
  eapply Permutation_trans; [|apply Permutation_sym, sort_keeps].
  now apply Permutation_map.
Qed.

End OrderFacts.

Section OrderClaims.
Import PyStr Chart.

(** X16: the milestone labels do not depend on the order in which the
    milestones are listed in the data: listing the same milestones in
    another order gives the same labels, at the same heights and in the
    same drawing order. *)
Theorem labels_ignore_data_order (ms ms' : list item) :
  Permutation ms ms' -> milestone_labels ms = milestone_labels ms'.
Proof.
  intros P. unfold milestone_labels.
  rewrite (milestone_positions_order ms ms' P).
  destruct ms as [|m ms].
  - apply Permutation_nil in P. now subst.
  - destruct ms' as [|m' ms'];
      [apply Permutation_sym, Permutation_nil in P; discriminate|].
    reflexivity.
Qed.

Lemma labels_ignore_data_order_witness :
  Permutation close_milestones [m_kickoff; m_design_done; m_release]
  /\ milestone_labels close_milestones
     = milestone_labels [m_kickoff; m_design_done; m_release].
Proof.
  assert (Permutation close_milestones [m_kickoff; m_design_done; m_release])
    as P by apply (Permutation_cons_append [m_kickoff; m_design_done]).
  split; [exact P | exact (labels_ignore_data_order _ _ P)].
Defined.

End OrderClaims.

(** ** The stripes tile the axes *)

Section StripeClaims.
Import PyStr Chart Pipeline.

(** X17: when the y axis runs upwards ([y_bottom < y_top]), the stripes
    drawn for a milestone with several colours tile the whole height of
    the axes: at least one stripe is drawn, the first starts at the bottom
    (fraction 0), each next one starts where the one before ends, the last
    ends at the top (fraction 1), and every stripe is a non-empty part of
    the axes height. *)
Theorem stripes_tile_axis (milestone_x : Z) (colors : list color)
        (y_bottom y_top : Q) (lines : list artist) :
  (y_bottom < y_top)%Q ->
  draw_stripes milestone_x colors y_bottom y_top
               (seq 0 (Z.to_nat (num_stripes y_bottom y_top))) = Return lines ->
  lines <> []
  /\ abut 0 lines
  /\ (forall d, (snd (line_span (last lines d)) == 1)%Q)
  /\ Forall (fun a => (0 <= fst (line_span a))%Q
                      /\ (fst (line_span a) < snd (line_span a))%Q
                      /\ (snd (line_span a) <= 1)%Q) lines.
Proof.
  intros Hlt Hd. apply draw_stripes_lines in Hd.
  pose proof (range_reaches_top y_bottom y_top Hlt) as Htop.
  destruct (first_stripe_visible y_bottom y_top Hlt) as [rest0 Hfirst].
  destruct (filter_prefix (fun i => Qltb (stripe_start y_bottom i) y_top)
                          (Z.to_nat (num_stripes y_bottom y_top))
                          (visible_below y_bottom y_top))
    as (m & Hle & Hf & Hvis & Hstop).
  rewrite Hf in Hfirst. rewrite Hf in Hd. clear Hf.
  destruct m as [|k]; [discriminate|]. clear Hfirst rest0.
  assert (forall i, (i < S k)%nat -> (stripe_start y_bottom i < y_top)%Q)
    as Hv by (intros i Hi; apply Qltb_lt; now apply Hvis).
  assert (y_top <= stripe_start y_bottom (S k))%Q as Hend.
  { destruct (Nat.eq_dec (S k) (Z.to_nat (num_stripes y_bottom y_top)))
      as [E|Hne].
    - now rewrite E.
    - apply Qltb_ge. apply Hstop. lia. }
  split; [|split; [|split]].
  - intros ->. inversion Hd.
  - apply (stripes_abut milestone_x y_bottom y_top (S k) 0); [assumption | |].
    + intros i Hi. apply Hv. lia.
    + intros _. rewrite stripe_start_zero. unfold Qdiv. ring.
  - intros d. destruct (stripes_last _ _ _ _ _ d Hd) as [c ->].
    now apply stripe_span_last.
  - apply Forall_forall. intros a Ha.
    destruct (forall2_source _ _ _ _ Hd Ha) as [i [Hi [c ->]]].
    apply in_seq in Hi. apply stripe_span_bounds; [assumption|].
    apply Hv. lia.
Qed.

Lemma stripes_tile_axis_witness :
  exists lines,
    draw_stripes 6 [Set3 0 2; Set3 1 2] 0 (1 # 2)
                 (seq 0 (Z.to_nat (num_stripes 0 (1 # 2)))) = Return lines
    /\ List.length lines = 3%nat
    /\ abut 0 lines
    /\ forall d, (snd (line_span (last lines d)) == 1)%Q.
Proof.
  eexists. split; [reflexivity|].
  split; [reflexivity|].
  assert (0 < 1 # 2)%Q as Hlt by reflexivity.
  destruct (stripes_tile_axis 6 [Set3 0 2; Set3 1 2] 0 (1 # 2) _ Hlt
                              eq_refl) as (_ & H2 & H3 & _).
  split; assumption.
Defined.

End StripeClaims.
